(** * Takafulik/neuro: the experiment engine and the allocation engine

    A shallow embedding of [neuro_ads/ai/ab_testing.py] (class
    [ABTestEngine]) and [neuro_ads/ai/budget_optimizer.py] (class
    [BudgetOptimizer]) together with the Django models they read and write
    ([neuro_ads/models.py]).

    Conventions of the embedding.
    - Python [int] is [Z]; Python [float] is an exact rational [Q]: the
      comparisons and the arithmetic of the source are carried out without
      rounding.  Literals keep the source's decimal spelling ([0.05], [1.96]).
    - A dict key that the source only reads with a default is an [option];
      the variants of a test configuration, which the view fills from form
      fields, are read through [entry], where a key can also hold [None].
    - A function that can raise lives in the error monad [py]; a division
      whose divisor the source guards is a plain [Qdiv], an unguarded one is
      [truediv], which raises [ZeroDivisionError].
    - [math.sqrt], [scipy.stats.norm.cdf] and [scipy.stats.t.cdf] are library
      code outside the repository: they are the fields of a [MathLib] record
      with the three facts about them that the proofs use.
    - The database is a record of tables (lists of rows, in primary-key
      order); model instances held by the caller are passed and returned
      explicitly, [save()] copies an instance into its table.
    - Wall-clock reads ([timezone.now()], [date.today()]) are one argument
      [now], in seconds; a date is a day number. *)

From Stdlib Require Import ZArith QArith Qabs Qminmax Qreduction Lqa Lia.
From Stdlib Require Import Ascii String DecimalString List.
From stdpp Require Import gmap strings.

Open Scope Q_scope.

(** ** Python values, exceptions and the error monad *)
Module Py.

Inductive exn : Type :=
| ZeroDivisionError
| ValueError (msg : string)
| KeyError (key : string)
| IntegrityError.

Inductive py (A : Type) : Type :=
| Ret (a : A)
| Raise (e : exn).
Arguments Ret {A} a.
Arguments Raise {A} e.

#[export] Instance py_ret : MRet py := @Ret.
#[export] Instance py_bind : MBind py :=
  fun A B f m => match m with Ret a => f a | Raise e => Raise e end.

(** [for x in l: ...] with a body that can raise, collecting results. *)
Fixpoint mapM {A B : Type} (f : A -> py B) (l : list A) : py (list B) :=
  match l with
  | [] => Ret []
  | x :: r => y ← f x; ys ← mapM f r; Ret (y :: ys)
  end.

(** Float comparisons. *)
Definition Qltb (x y : Q) : bool := negb (Qle_bool y x).
Definition Qgtb (x y : Q) : bool := Qltb y x.
Definition Qleb (x y : Q) : bool := Qle_bool x y.
Definition Qgeb (x y : Q) : bool := Qle_bool y x.

(** [x / y] on numbers, with no guard around it. *)
Definition truediv (x y : Q) : py Q :=
  if Qeq_bool y 0 then Raise ZeroDivisionError else Ret (x / y).

(** [d[k]] on a dict whose key [k] may not have been set yet. *)
Definition getitem {A : Type} (k : string) (v : option A) : py A :=
  match v with Some a => Ret a | None => Raise (KeyError k) end.

(** [s in l] for a list of strings. *)
Definition str_in (s : string) (l : list string) : bool :=
  existsb (String.eqb s) l.

(** [sub in s] for strings. *)
Definition contains (sub s : string) : bool :=
  match String.index 0 sub s with Some _ => true | None => false end.

(** [sum(...)] over ints and over floats. *)
Definition sumZ (l : list Z) : Z := fold_right Z.add 0%Z l.
Definition sumQ (l : list Q) : Q := fold_right Qplus 0 l.

End Py.
Import Py.

(** One step of the error monad, leaving the numbers alone. *)
Ltac py_step := cbn [mbind py_bind mret py_ret].

Lemma Ret_inj {A : Type} (a b : A) : Ret a = Ret b -> a = b.
Proof. intros H. congruence. Qed.

(** ** The numeric library the engines call

    [msqrt] is [math.sqrt] on its domain, [norm_cdf] is
    [scipy.stats.norm.cdf], [t_cdf x df] is [scipy.stats.t.cdf(x, df)]. *)
Record MathLib : Type := {
  msqrt : Q -> Q;
  norm_cdf : Q -> Q;
  t_cdf : Q -> Q -> Q;
  msqrt_zero : forall x, 0 <= x -> (msqrt x == 0 <-> x == 0);
  norm_cdf_proper : forall x y, x == y -> norm_cdf x == norm_cdf y;
  norm_cdf_0 : norm_cdf 0 == 0.5
}.

(** [math.sqrt(x)]: [ValueError] below zero. *)
Definition py_sqrt (M : MathLib) (x : Q) : py Q :=
  if Qltb x 0 then Raise (ValueError "math domain error") else Ret (msqrt M x).

(** ** Statistical tests ([ABTestEngine._two_proportion_z_test],
    [ABTestEngine._welch_t_test]) *)
Module Stats.

(** The dict a test returns; a key that a branch does not set is [None]. *)
Record TestResult : Type := {
  tr_p_value : Q;
  tr_effect_size : Q;
  tr_winner : string;
  tr_z_score : option Q;
  tr_t_score : option Q;
  tr_confidence_interval : option (Q * Q);
  tr_p_a : option Q;
  tr_p_b : option Q;
  tr_mean_a : option Q;
  tr_mean_b : option Q
}.

(** [{'p_value': 1.0, 'effect_size': 0, 'winner': 'inconclusive'}] *)
Definition inconclusive : TestResult :=
  {| tr_p_value := 1.0; tr_effect_size := 0; tr_winner := "inconclusive";
     tr_z_score := None; tr_t_score := None; tr_confidence_interval := None;
     tr_p_a := None; tr_p_b := None; tr_mean_a := None; tr_mean_b := None |}.

(** The argument of the square root of the pooled standard error. *)
Definition pooled_radicand (p_pool : Q) (trials_a trials_b : Z) : Q :=
  p_pool * (1 - p_pool) * (1 / inject_Z trials_a + 1 / inject_Z trials_b).

(** The pooled standard error: [p_pool] and then [se]. *)
Definition pooled_se (M : MathLib)
    (successes_a trials_a successes_b trials_b : Z) : py Q :=
  p_pool ← truediv (inject_Z (successes_a + successes_b))
                   (inject_Z (trials_a + trials_b));
  py_sqrt M (pooled_radicand p_pool trials_a trials_b).

Definition _two_proportion_z_test (M : MathLib)
    (successes_a trials_a successes_b trials_b : Z) : py TestResult :=
  if (trials_a =? 0)%Z || (trials_b =? 0)%Z then Ret inconclusive
  else
    let p_a := inject_Z successes_a / inject_Z trials_a in
    let p_b := inject_Z successes_b / inject_Z trials_b in
    se ← pooled_se M successes_a trials_a successes_b trials_b;
    if Qeq_bool se 0 then Ret inconclusive
    else
      let z_score := (p_a - p_b) / se in
      let p_value := 2 * (1 - norm_cdf M (Qabs z_score)) in
      let effect_size := if Qgtb p_b 0 then Qabs (p_a - p_b) / p_b else 0 in
      let winner :=
        if Qgtb p_a p_b then "A" else if Qgtb p_b p_a then "B" else "tie" in
      se_diff ← py_sqrt M (p_a * (1 - p_a) / inject_Z trials_a
                           + p_b * (1 - p_b) / inject_Z trials_b);
      let margin_error := 1.96 * se_diff in
      let diff := p_a - p_b in
      Ret {| tr_p_value := p_value; tr_effect_size := effect_size;
             tr_winner := winner;
             tr_z_score := Some z_score; tr_t_score := None;
             tr_confidence_interval :=
               Some (diff - margin_error, diff + margin_error);
             tr_p_a := Some p_a; tr_p_b := Some p_b;
             tr_mean_a := None; tr_mean_b := None |}.

End Stats.
Import Stats.

(** ** The Django models ([neuro_ads/models.py]) and the database *)
Module Models.

Record Campaign : Type := {
  c_id : Z;
  c_name : string;
  c_total_budget : Q
}.

Record AdSet : Type := {
  as_id : Z;
  as_campaign : Z;
  as_platform : string;          (* [platform.name] *)
  as_name : string;
  as_allocated_budget : Q
}.

Record AdCreative : Type := {
  cr_id : Z;
  cr_ad_set : Z;
  cr_name : string;
  cr_creative_type : string;
  cr_headline : string;
  cr_description : string;
  cr_call_to_action : string;
  cr_destination_url : string;
  cr_image_url : string;
  cr_video_url : string;
  cr_ai_confidence_score : Q;
  cr_is_winner : bool;
  cr_is_active : bool;
  cr_created_at : Z
}.

Record ABTest : Type := {
  ab_id : Z;
  ab_campaign : Z;
  ab_name : string;
  ab_test_type : string;
  ab_confidence_level : Q;
  ab_minimum_sample_size : Z;
  ab_test_duration_days : Z;
  ab_status : string;
  ab_winner_creative : option Z;
  ab_statistical_significance : option Q;
  ab_started_at : option Z;
  ab_completed_at : option Z
}.

(** The keys of [ABTest.TEST_TYPE_CHOICES] and [ABTest.TEST_STATUS_CHOICES]. *)
Definition TEST_TYPE_CHOICES : list string :=
  ["headline"; "description"; "cta"; "creative"; "audience"]%string.
Definition TEST_STATUS_CHOICES : list string :=
  ["draft"; "running"; "completed"; "cancelled"]%string.

(** One row of [CampaignAnalytics]. *)
Record CampaignAnalytics : Type := {
  an_campaign : Z;
  an_ad_set : option Z;
  an_date : Z;
  an_impressions : Z;
  an_clicks : Z;
  an_conversions : Z;
  an_spend : Q;
  an_revenue : Q
}.

(** [BudgetOptimizer._get_current_metrics_summary]'s dict. *)
Record MetricsSummary : Type := {
  ms_period : Z * Z;
  ms_total_spend : Q;
  ms_total_revenue : Q;
  ms_total_conversions : Z;
  ms_total_clicks : Z;
  ms_total_impressions : Z;
  ms_roas : Q
}.

(** The text of [optimization_reason] is a sentence built from three
    numbers; the row keeps the numbers ([None]: no opportunity, the average
    is not printed). *)
Record OptimizationSummary : Type := {
  os_increases : nat;
  os_decreases : nat;
  os_avg_confidence : option Q
}.

Record BudgetOptimization : Type := {
  bo_id : Z;
  bo_campaign : Z;
  bo_previous_allocation : gmap Z Q;
  bo_new_allocation : gmap Z Q;
  bo_optimization_reason : OptimizationSummary;
  bo_performance_metrics : MetricsSummary;
  bo_expected_roas_improvement : Q
}.

Record DB : Type := {
  adsets : list AdSet;
  creatives : list AdCreative;
  abtests : list ABTest;
  analytics : list CampaignAnalytics;
  optimizations : list BudgetOptimization
}.

(** The primary key of a new row. *)
Definition fresh_id (ids : list Z) : Z := 1 + fold_right Z.max 0%Z ids.

(** A timestamp's [.date()], and [(now - t).days]. *)
Definition date_of (t : Z) : Z := (t / 86400)%Z.
Definition days_between (now t : Z) : Z := ((now - t) / 86400)%Z.

(** [campaign.adset_set.all()] *)
Definition adset_set (db : DB) (campaign : Z) : list AdSet :=
  List.filter (fun a => (as_campaign a =? campaign)%Z) (adsets db).

(** [ad_set__campaign=campaign] on creatives. *)
Definition creative_in_campaign (db : DB) (campaign : Z) (c : AdCreative) : bool :=
  existsb (fun a => (as_id a =? cr_ad_set c)%Z) (adset_set db campaign).

(** [CampaignAnalytics.objects.filter(campaign=..., date__gte=..., date__lte=...)] *)
Definition analytics_window (db : DB) (campaign start_date end_date : Z)
    : list CampaignAnalytics :=
  List.filter (fun r => (an_campaign r =? campaign)%Z
                   && (start_date <=? an_date r)%Z && (an_date r <=? end_date)%Z)
         (analytics db).

(** [x.save()] for a row that exists, and [x.delete()]. *)
Definition save_creative (c : AdCreative) (db : DB) : DB :=
  {| adsets := adsets db;
     creatives := map (fun x => if (cr_id x =? cr_id c)%Z then c else x) (creatives db);
     abtests := abtests db; analytics := analytics db;
     optimizations := optimizations db |}.

Definition save_abtest (t : ABTest) (db : DB) : DB :=
  {| adsets := adsets db; creatives := creatives db;
     abtests := map (fun x => if (ab_id x =? ab_id t)%Z then t else x) (abtests db);
     analytics := analytics db; optimizations := optimizations db |}.

Definition delete_abtest (t : ABTest) (db : DB) : DB :=
  {| adsets := adsets db; creatives := creatives db;
     abtests := List.filter (fun x => negb (ab_id x =? ab_id t)%Z) (abtests db);
     analytics := analytics db; optimizations := optimizations db |}.

Definition save_adset (a : AdSet) (db : DB) : DB :=
  {| adsets := map (fun x => if (as_id x =? as_id a)%Z then a else x) (adsets db);
     creatives := creatives db; abtests := abtests db;
     analytics := analytics db; optimizations := optimizations db |}.

(** [Model.objects.create(...)]: the row is appended under a fresh key. *)
Definition insert_abtest (t : ABTest) (db : DB) : DB :=
  {| adsets := adsets db; creatives := creatives db;
     abtests := abtests db ++ [t];
     analytics := analytics db; optimizations := optimizations db |}.

Definition insert_creative (c : AdCreative) (db : DB) : DB :=
  {| adsets := adsets db; creatives := creatives db ++ [c];
     abtests := abtests db;
     analytics := analytics db; optimizations := optimizations db |}.

Definition insert_optimization (o : BudgetOptimization) (db : DB) : DB :=
  {| adsets := adsets db; creatives := creatives db; abtests := abtests db;
     analytics := analytics db; optimizations := optimizations db ++ [o] |}.

End Models.
Import Models.

(** ** [class ABTestEngine] ([neuro_ads/ai/ab_testing.py]) *)
Module ABTestEngine.

(** [__init__] *)
Definition min_sample_size : Z := 100.
Definition max_test_duration_days : Z := 14.
Definition significance_threshold : Q := 0.05.
Definition minimum_effect_size : Q := 0.1.
Definition early_stopping_threshold : Q := 0.01.

(** One entry of [test_data]. *)
Record TestDatum : Type := {
  td_creative_id : Z;
  td_creative_name : string;
  td_variant_type : string;
  td_impressions : Z;
  td_clicks : Z;
  td_conversions : Z;
  td_spend : Q;
  td_ctr : Q;
  td_conversion_rate : Q;
  td_cpc : Q;
  td_cpa : Q
}.

(** One value of [variant_results]. *)
Record VariantResult : Type := {
  vr_impressions : Z;
  vr_clicks : Z;
  vr_conversions : Z;
  vr_spend : Q;
  vr_ctr : Q;
  vr_conversion_rate : Q;
  vr_cpc : Q;
  vr_cpa : Q;
  vr_sample_size : Z
}.

(** One entry of [statistical_tests]. *)
Record PairTest : Type := {
  pt_variant_a : string;
  pt_variant_b : string;
  pt_metric : string;
  pt_p_value : Q;
  pt_confidence_interval : option (Q * Q);
  pt_effect_size : Q;
  pt_winner : option string;
  pt_is_significant : bool
}.

(** What [_perform_statistical_analysis] returns: the [{'error': ...}] dict or
    the full one.  [variant_results] is a dict in insertion order.  The
    [analysis_date] text is left out. *)
Inductive StatisticalResults : Type :=
| AnalysisError (error : string)
| Analysis (variant_results : list (string * VariantResult))
           (statistical_tests : list PairTest) (is_significant : bool).

(** [statistical_results.get('variant_results', {})] and
    [statistical_results.get('statistical_tests', [])] *)
Definition get_variant_results (sr : StatisticalResults)
    : list (string * VariantResult) :=
  match sr with Analysis vrs _ _ => vrs | AnalysisError _ => [] end.
Definition get_statistical_tests (sr : StatisticalResults) : list PairTest :=
  match sr with Analysis _ ts _ => ts | AnalysisError _ => [] end.

Definition _get_variant_type (creative : AdCreative) (test_type : string) : string :=
  if contains "Variant 1" (cr_name creative) then "A"
  else if contains "Variant 2" (cr_name creative) then "B"
  else if contains "Variant 3" (cr_name creative) then "C"
  else "A".

(** The creatives of the test: [AdCreative.objects.filter(ad_set__campaign=...,
    created_at__gte=started_at)]. *)
Definition test_creatives_since (db : DB) (ab_test : ABTest) (started_at : Z)
    : list AdCreative :=
  List.filter (fun c => creative_in_campaign db (ab_campaign ab_test) c
                   && (started_at <=? cr_created_at c)%Z)
         (creatives db).

Definition _get_test_data (db : DB) (ab_test : ABTest) (now : Z) : list TestDatum :=
  let test_creatives :=
    match ab_started_at ab_test with
    | Some t => test_creatives_since db ab_test t
    | None => []
    end in
  map (fun creative =>
    let end_date := date_of now in
    let start_date :=
      match ab_started_at ab_test with
      | Some t => date_of t
      | None => (end_date - 7)%Z
      end in
    let analytics := analytics_window db (ab_campaign ab_test) start_date end_date in
    let impressions := sumZ (map an_impressions analytics) in
    let clicks := sumZ (map an_clicks analytics) in
    let conversions := sumZ (map an_conversions analytics) in
    let spend := sumQ (map an_spend analytics) in
    {| td_creative_id := cr_id creative;
       td_creative_name := cr_name creative;
       td_variant_type := _get_variant_type creative (ab_test_type ab_test);
       td_impressions := impressions;
       td_clicks := clicks;
       td_conversions := conversions;
       td_spend := spend;
       td_ctr := if (0 <? impressions)%Z
                 then inject_Z clicks / inject_Z impressions * 100 else 0;
       td_conversion_rate := if (0 <? clicks)%Z
                 then inject_Z conversions / inject_Z clicks * 100 else 0;
       td_cpc := if (0 <? clicks)%Z then spend / inject_Z clicks else 0;
       td_cpa := if (0 <? conversions)%Z then spend / inject_Z conversions else 0 |})
    test_creatives.

(** [variants[variant].append(data)] on the dict of lists. *)
Fixpoint group_append (variant : string) (data : TestDatum)
    (variants : list (string * list TestDatum)) : list (string * list TestDatum) :=
  match variants with
  | [] => [(variant, [data])]
  | (k, ds) :: r =>
      if String.eqb k variant then (k, ds ++ [data]) :: r
      else (k, ds) :: group_append variant data r
  end.

Definition group_by_variant (test_data : list TestDatum)
    : list (string * list TestDatum) :=
  fold_left (fun variants data => group_append (td_variant_type data) data variants)
            test_data [].

Definition aggregate_variant (variant_data : list TestDatum) : VariantResult :=
  let total_impressions := sumZ (map td_impressions variant_data) in
  let total_clicks := sumZ (map td_clicks variant_data) in
  let total_conversions := sumZ (map td_conversions variant_data) in
  let total_spend := sumQ (map td_spend variant_data) in
  {| vr_impressions := total_impressions;
     vr_clicks := total_clicks;
     vr_conversions := total_conversions;
     vr_spend := total_spend;
     vr_ctr := if (0 <? total_impressions)%Z
               then inject_Z total_clicks / inject_Z total_impressions * 100 else 0;
     vr_conversion_rate := if (0 <? total_clicks)%Z
               then inject_Z total_conversions / inject_Z total_clicks * 100 else 0;
     vr_cpc := if (0 <? total_clicks)%Z then total_spend / inject_Z total_clicks else 0;
     vr_cpa := if (0 <? total_conversions)%Z
               then total_spend / inject_Z total_conversions else 0;
     vr_sample_size := total_impressions |}.

(** [data.get(key, default)] on a variant's dict, read as a number. *)
Definition vr_get (data : VariantResult) (key : string) (default : Q) : Q :=
  if String.eqb key "impressions" then inject_Z (vr_impressions data)
  else if String.eqb key "clicks" then inject_Z (vr_clicks data)
  else if String.eqb key "conversions" then inject_Z (vr_conversions data)
  else if String.eqb key "spend" then vr_spend data
  else if String.eqb key "ctr" then vr_ctr data
  else if String.eqb key "conversion_rate" then vr_conversion_rate data
  else if String.eqb key "cpc" then vr_cpc data
  else if String.eqb key "cpa" then vr_cpa data
  else if String.eqb key "sample_size" then inject_Z (vr_sample_size data)
  else default.

Definition _welch_t_test (M : MathLib) (data_a data_b : VariantResult)
    (metric : string) : py TestResult :=
  let mean_a := vr_get data_a metric 0 in
  let mean_b := vr_get data_b metric 0 in
  let var_a := (mean_a * 0.2) * (mean_a * 0.2) in
  let var_b := (mean_b * 0.2) * (mean_b * 0.2) in
  let n_a := Qmax (vr_get data_a "sample_size" 1) 1 in
  let n_b := Qmax (vr_get data_b "sample_size" 1) 1 in
  se_diff ← py_sqrt M (var_a / n_a + var_b / n_b);
  if Qeq_bool se_diff 0 then Ret inconclusive
  else
    let t_score := (mean_a - mean_b) / se_diff in
    da ← truediv ((var_a / n_a) * (var_a / n_a)) (n_a - 1);
    db ← truediv ((var_b / n_b) * (var_b / n_b)) (n_b - 1);
    df ← truediv ((var_a / n_a + var_b / n_b) * (var_a / n_a + var_b / n_b)) (da + db);
    let df := Qmax df 1 in
    let p_value := 2 * (1 - t_cdf M (Qabs t_score) df) in
    let effect_size :=
      if Qgtb mean_b 0 then Qabs (mean_a - mean_b) / Qmax mean_b 0.001 else 0 in
    let winner :=
      if str_in metric ["cpa"; "cpc"]
      then (if Qltb mean_a mean_b then "A" else if Qltb mean_b mean_a then "B" else "tie")
      else (if Qgtb mean_a mean_b then "A" else if Qgtb mean_b mean_a then "B" else "tie") in
    Ret {| tr_p_value := p_value; tr_effect_size := effect_size;
           tr_winner := winner;
           tr_z_score := None; tr_t_score := Some t_score;
           tr_confidence_interval := None;
           tr_p_a := None; tr_p_b := None;
           tr_mean_a := Some mean_a; tr_mean_b := Some mean_b |}.

(** The primary metric chosen from the test type. *)
Definition primary_metric_of (test_type : string) : string :=
  if str_in test_type ["headline"; "description"; "cta"] then "ctr"
  else if String.eqb test_type "creative" then "conversion_rate"
  else "ctr".

(** [variant_results[name]] *)
Definition lookup_variant (name : string) (variant_results : list (string * VariantResult))
    : py VariantResult :=
  match find (fun kv => String.eqb (fst kv) name) variant_results with
  | Some kv => Ret (snd kv)
  | None => Raise (KeyError name)
  end.

(** [for i in range(len(l)): for j in range(i + 1, len(l))] *)
Fixpoint index_pairs {A : Type} (l : list A) : list (A * A) :=
  match l with
  | [] => []
  | x :: r => map (pair x) r ++ index_pairs r
  end.

(** The body of the double loop of [_perform_pairwise_tests]. *)
Definition pairwise_test (M : MathLib) (variant_results : list (string * VariantResult))
    (primary_metric : string) (names : string * string) : py PairTest :=
  let '(variant_a, variant_b) := names in
  data_a ← lookup_variant variant_a variant_results;
  data_b ← lookup_variant variant_b variant_results;
  test_result ←
    (if str_in primary_metric ["ctr"; "conversion_rate"]
     then _two_proportion_z_test M (vr_clicks data_a) (vr_impressions data_a)
                                   (vr_clicks data_b) (vr_impressions data_b)
     else _welch_t_test M data_a data_b primary_metric);
  Ret {| pt_variant_a := variant_a;
         pt_variant_b := variant_b;
         pt_metric := primary_metric;
         pt_p_value := tr_p_value test_result;
         pt_confidence_interval := tr_confidence_interval test_result;
         pt_effect_size := tr_effect_size test_result;
         pt_winner := Some (tr_winner test_result);
         pt_is_significant := Qltb (tr_p_value test_result) significance_threshold |}.

Definition _perform_pairwise_tests (M : MathLib)
    (variant_results : list (string * VariantResult)) (test_type : string)
    : py (list PairTest) :=
  let variant_names := map fst variant_results in
  let primary_metric := primary_metric_of test_type in
  mapM (pairwise_test M variant_results primary_metric) (index_pairs variant_names).

Definition _perform_statistical_analysis (M : MathLib) (test_data : list TestDatum)
    (test_type : string) : py StatisticalResults :=
  if (length test_data <? 2)%nat
  then Ret (AnalysisError "Need at least 2 variants for analysis")
  else
    let variants := group_by_variant test_data in
    let variant_results :=
      map (fun kv => (fst kv, aggregate_variant (snd kv))) variants in
    statistical_tests ← _perform_pairwise_tests M variant_results test_type;
    let is_significant :=
      existsb (fun test => Qltb (pt_p_value test) significance_threshold)
              statistical_tests in
    Ret (Analysis variant_results statistical_tests is_significant).

(** [(timezone.now() - ab_test.started_at).days] when [started_at] is set. *)
Definition days_running (ab_test : ABTest) (now : Z) : option Z :=
  match ab_started_at ab_test with
  | Some t => Some (days_between now t)
  | None => None
  end.

Definition _should_stop_test (ab_test : ABTest) (statistical_results : StatisticalResults)
    (now : Z) : bool * string :=
  if match days_running ab_test now with
     | Some d => (d <? 3)%Z | None => false end
  then (false, "Test running less than minimum duration")
  else if match days_running ab_test now with
     | Some d => (max_test_duration_days <=? d)%Z | None => false end
  then (true, "Maximum test duration reached")
  else
    let variant_results := get_variant_results statistical_results in
    let min_sample_size_met :=
      forallb (fun kv => (ab_minimum_sample_size ab_test <=? vr_sample_size (snd kv))%Z)
              variant_results in
    if negb min_sample_size_met then (false, "Minimum sample size not reached")
    else
      let statistical_tests := get_statistical_tests statistical_results in
      let very_significant :=
        existsb (fun test => Qltb (pt_p_value test) early_stopping_threshold
                             && Qgtb (pt_effect_size test) minimum_effect_size)
                statistical_tests in
      if very_significant then (true, "Early stopping - very significant result")
      else
        let significant :=
          existsb (fun test => Qltb (pt_p_value test) significance_threshold
                               && Qgtb (pt_effect_size test) minimum_effect_size)
                  statistical_tests in
        if significant
           && match days_running ab_test now with
              | Some d => (5 <=? d)%Z | None => false end
        then (true, "Statistically significant result")
        else if match days_running ab_test now with
                | Some d => (ab_test_duration_days ab_test <=? d)%Z | None => false end
        then (true, "Planned test duration completed")
        else (false, "Continue test").

(** The dict of [_declare_winner]. *)
Record WinnerResult : Type := {
  w_winner : option string;
  w_winner_name : string;
  w_confidence : Q;
  w_improvement : Q;
  w_p_value : option Q;
  w_metric : option string;
  w_reason : string
}.

(** [min(l, key=lambda x: x['p_value'])]: the first of the smallest. *)
Fixpoint min_by_p_value (best : PairTest) (l : list PairTest) : PairTest :=
  match l with
  | [] => best
  | t :: r => if Qltb (pt_p_value t) (pt_p_value best)
              then min_by_p_value t r else min_by_p_value best r
  end.

Definition _declare_winner (ab_test : ABTest) (statistical_results : StatisticalResults)
    : WinnerResult :=
  let statistical_tests := get_statistical_tests statistical_results in
  let significant_tests := List.filter pt_is_significant statistical_tests in
  match significant_tests with
  | [] =>
      {| w_winner := None; w_winner_name := "No clear winner";
         w_confidence := 0.0; w_improvement := 0.0;
         w_p_value := None; w_metric := None;
         w_reason := "No statistically significant difference found" |}
  | t :: r =>
      let best_test := min_by_p_value t r in
      let winner_variant := pt_winner best_test in
      let winner_name :=
        match winner_variant with
        | Some "A"%string => pt_variant_a best_test
        | Some "B"%string => pt_variant_b best_test
        | _ => "Tie"%string
        end in
      {| w_winner := winner_variant; w_winner_name := winner_name;
         w_confidence := 1 - pt_p_value best_test;
         w_improvement := pt_effect_size best_test * 100;
         w_p_value := Some (pt_p_value best_test);
         w_metric := Some (pt_metric best_test);
         w_reason := "Statistically significant improvement in " ++ pt_metric best_test |}
  end.

(** [winner_result.get('winner') and winner_result['winner'] != 'Tie'] *)
Definition has_winner (winner_result : WinnerResult) : bool :=
  match w_winner winner_result with
  | Some s => negb (String.eqb s "") && negb (String.eqb s "Tie")
  | None => false
  end.

(** [AdCreative.objects.filter(ad_set__campaign=..., created_at__gte=ab_test.started_at)]
    as the finalisation runs it: the ORM refuses [None] as a query value. *)
Definition test_creatives (db : DB) (ab_test : ABTest) : py (list AdCreative) :=
  match ab_started_at ab_test with
  | Some t => Ret (test_creatives_since db ab_test t)
  | None => Raise (ValueError "Cannot use None as a query value")
  end.

(** The condition repeated in [_find_winning_creative] and
    [_pause_losing_variants]. *)
Definition label_matches (winner_name variant_type : string) : bool :=
  (String.eqb winner_name "A" && String.eqb variant_type "A")
  || (String.eqb winner_name "B" && String.eqb variant_type "B")
  || (String.eqb winner_name "C" && String.eqb variant_type "C").

Definition _find_winning_creative (db : DB) (ab_test : ABTest) (winner_name : string)
    : py (option AdCreative) :=
  creatives ← test_creatives db ab_test;
  Ret (find (fun creative =>
         label_matches winner_name (_get_variant_type creative (ab_test_type ab_test)))
       creatives).

Definition deactivate (c : AdCreative) : AdCreative :=
  {| cr_id := cr_id c; cr_ad_set := cr_ad_set c; cr_name := cr_name c;
     cr_creative_type := cr_creative_type c; cr_headline := cr_headline c;
     cr_description := cr_description c; cr_call_to_action := cr_call_to_action c;
     cr_destination_url := cr_destination_url c; cr_image_url := cr_image_url c;
     cr_video_url := cr_video_url c;
     cr_ai_confidence_score := cr_ai_confidence_score c;
     cr_is_winner := cr_is_winner c; cr_is_active := false;
     cr_created_at := cr_created_at c |}.

Definition mark_winner (c : AdCreative) : AdCreative :=
  {| cr_id := cr_id c; cr_ad_set := cr_ad_set c; cr_name := cr_name c;
     cr_creative_type := cr_creative_type c; cr_headline := cr_headline c;
     cr_description := cr_description c; cr_call_to_action := cr_call_to_action c;
     cr_destination_url := cr_destination_url c; cr_image_url := cr_image_url c;
     cr_video_url := cr_video_url c;
     cr_ai_confidence_score := cr_ai_confidence_score c;
     cr_is_winner := true; cr_is_active := cr_is_active c;
     cr_created_at := cr_created_at c |}.

Definition _pause_losing_variants (db : DB) (ab_test : ABTest)
    (winner_result : WinnerResult) : py DB :=
  if negb (has_winner winner_result) then Ret db
  else
    creatives ← test_creatives db ab_test;
    let winner_name := w_winner_name winner_result in
    Ret (fold_left (fun db creative =>
           let variant_type := _get_variant_type creative (ab_test_type ab_test) in
           if negb (label_matches winner_name variant_type)
           then save_creative (deactivate creative) db
           else db)
         creatives db).

(** The recommendations are sentences; each constructor is one sentence of
    the source, with the numbers it prints. *)
Inductive Recommendation : Type :=
| RecWinnerFound (improvement confidence : Q)
| RecSimilarVariations
| RecApplyLearnings (test_type : string)
| RecNoClearWinner
| RecHeadline
| RecCta.

Definition _generate_recommendations (ab_test : ABTest) (winner_result : WinnerResult)
    (statistical_results : StatisticalResults) : list Recommendation :=
  (if has_winner winner_result
   then [RecWinnerFound (w_improvement winner_result) (w_confidence winner_result)]
        ++ (if Qgtb (w_improvement winner_result) 20 then [RecSimilarVariations] else [])
        ++ [RecApplyLearnings (ab_test_type ab_test)]
   else [RecNoClearWinner])
  ++ (if String.eqb (ab_test_type ab_test) "headline" then [RecHeadline]
      else if String.eqb (ab_test_type ab_test) "cta" then [RecCta]
      else []).

(** The dicts that [run_ab_test_analysis] returns. *)
Inductive AnalysisResult : Type :=
| AFailure (reason : string)          (* [{'success': False, 'reason': ...}] *)
| AError (e : exn)                    (* [{'success': False, 'error': str(e)}] *)
| AContinue (statistical_results : StatisticalResults)
| ACompleted (winner : WinnerResult) (statistical_results : StatisticalResults)
             (stop_reason : string) (recommendations : list Recommendation).

(** The three assignments that open [_finalize_test]. *)
Definition completed (ab_test : ABTest) (now : Z) (confidence : Q) : ABTest :=
  {| ab_id := ab_id ab_test; ab_campaign := ab_campaign ab_test;
     ab_name := ab_name ab_test; ab_test_type := ab_test_type ab_test;
     ab_confidence_level := ab_confidence_level ab_test;
     ab_minimum_sample_size := ab_minimum_sample_size ab_test;
     ab_test_duration_days := ab_test_duration_days ab_test;
     ab_status := "completed";
     ab_winner_creative := ab_winner_creative ab_test;
     ab_statistical_significance := Some confidence;
     ab_started_at := ab_started_at ab_test;
     ab_completed_at := Some now |}.

Definition with_winner_creative (ab_test : ABTest) (creative : Z) : ABTest :=
  {| ab_id := ab_id ab_test; ab_campaign := ab_campaign ab_test;
     ab_name := ab_name ab_test; ab_test_type := ab_test_type ab_test;
     ab_confidence_level := ab_confidence_level ab_test;
     ab_minimum_sample_size := ab_minimum_sample_size ab_test;
     ab_test_duration_days := ab_test_duration_days ab_test;
     ab_status := ab_status ab_test;
     ab_winner_creative := Some creative;
     ab_statistical_significance := ab_statistical_significance ab_test;
     ab_started_at := ab_started_at ab_test;
     ab_completed_at := ab_completed_at ab_test |}.

(** [ab_test.status = 'running'; ab_test.started_at = timezone.now()] *)
Definition started (ab_test : ABTest) (now : Z) : ABTest :=
  {| ab_id := ab_id ab_test; ab_campaign := ab_campaign ab_test;
     ab_name := ab_name ab_test; ab_test_type := ab_test_type ab_test;
     ab_confidence_level := ab_confidence_level ab_test;
     ab_minimum_sample_size := ab_minimum_sample_size ab_test;
     ab_test_duration_days := ab_test_duration_days ab_test;
     ab_status := "running";
     ab_winner_creative := ab_winner_creative ab_test;
     ab_statistical_significance := ab_statistical_significance ab_test;
     ab_started_at := Some now;
     ab_completed_at := ab_completed_at ab_test |}.

(** The caller's [ab_test] instance is mutated in place: it is returned next
    to the database.  An exception leaves what was assigned or saved before
    it. *)
Definition _finalize_test (db : DB) (ab_test : ABTest)
    (statistical_results : StatisticalResults) (winner_result : WinnerResult)
    (stop_reason : string) (now : Z) : DB * ABTest * AnalysisResult :=
  let ab_test := completed ab_test now (w_confidence winner_result) in
  match (if has_winner winner_result
         then _find_winning_creative db ab_test (w_winner_name winner_result)
         else Ret None) with
  | Raise e => (db, ab_test, AError e)
  | Ret found =>
      let '(db, ab_test) :=
        match found with
        | Some winner_creative =>
            (save_creative (mark_winner winner_creative) db,
             with_winner_creative ab_test (cr_id winner_creative))
        | None => (db, ab_test)
        end in
      let db := save_abtest ab_test db in
      match _pause_losing_variants db ab_test winner_result with
      | Raise e => (db, ab_test, AError e)
      | Ret db' =>
          (db', ab_test,
           ACompleted winner_result statistical_results stop_reason
             (_generate_recommendations ab_test winner_result statistical_results))
      end
  end.

Definition run_ab_test_analysis (M : MathLib) (db : DB) (ab_test : ABTest) (now : Z)
    : DB * ABTest * AnalysisResult :=
  if negb (str_in (ab_status ab_test) ["running"])
  then (db, ab_test,
        AFailure ("Test is not running (status: " ++ ab_status ab_test ++ ")"))
  else
    let test_data := _get_test_data db ab_test now in
    if (length test_data <? 2)%nat
    then (db, ab_test, AFailure "Insufficient test data")
    else
      match _perform_statistical_analysis M test_data (ab_test_type ab_test) with
      | Raise e => (db, ab_test, AError e)
      | Ret statistical_results =>
          let '(should_stop, stop_reason) :=
            _should_stop_test ab_test statistical_results now in
          if should_stop
          then
            let winner_result := _declare_winner ab_test statistical_results in
            _finalize_test db ab_test statistical_results winner_result stop_reason now
          else (db, ab_test, AContinue statistical_results)
      end.

(** What a dict holds under a key: nothing, Python's [None], or a value.
    The view that builds the variants passes [request.POST.get(...)], which
    is [None] for a form field that was not sent. *)
Inductive entry (A : Type) : Type :=
| absent
| null
| value (a : A).
Arguments absent {A}.
Arguments null {A}.
Arguments value {A} a.

(** [d.get(k, default)]: the default stands in for an absent key only;
    the result is [None] when the key holds [None]. *)
Definition entry_get {A : Type} (e : entry A) (default : A) : option A :=
  match e with
  | absent => Some default
  | null => None
  | value a => Some a
  end.

Definition is_null {A : Type} (e : entry A) : bool :=
  match e with null => true | _ => false end.

(** [d[k]] once the key is known to hold a value. *)
Definition entry_value {A : Type} (e : entry A) (default : A) : A :=
  match e with value a => a | _ => default end.

(** One element of [test_config['variants']]: a dict read with [.get]. *)
Record Variant : Type := {
  v_creative_type : entry string;
  v_headline : entry string;
  v_description : entry string;
  v_call_to_action : entry string;
  v_destination_url : entry string;
  v_image_url : entry string;
  v_video_url : entry string;
  v_confidence_score : entry Q
}.

(** Some key of the variant holds [None]. *)
Definition has_null (variant : Variant) : bool :=
  is_null (v_creative_type variant) || is_null (v_headline variant)
  || is_null (v_description variant) || is_null (v_call_to_action variant)
  || is_null (v_destination_url variant) || is_null (v_image_url variant)
  || is_null (v_video_url variant) || is_null (v_confidence_score variant).

(** [test_config]: an optional key that is absent is [None]; the test type,
    which the view reads from the form, is an [entry]. *)
Record TestConfig : Type := {
  cfg_test_type : entry string;
  cfg_variants : option (list Variant);
  cfg_traffic_split : option Q;
  cfg_min_sample_size : option Z;
  cfg_duration_days : option Z
}.

(** [{'valid': True}] or [{'valid': False, 'error': ...}] *)
Inductive Validation : Type :=
| Valid
| Invalid (error : string).

(** [config['test_type'] in l]: [None] is in no list of strings. *)
Definition entry_in (e : entry string) (l : list string) : bool :=
  match e with value s => str_in s l | _ => false end.

Definition _validate_test_config (config : TestConfig) : Validation :=
  match cfg_test_type config with
  | absent => Invalid "Missing required field: test_type"
  | test_type =>
      match cfg_variants config with
      | None => Invalid "Missing required field: variants"
      | Some variants =>
          if negb (entry_in test_type ["headline"; "description"; "cta"; "creative"])
          then Invalid "Invalid test type"
          else if (length variants <? 2)%nat
          then Invalid "Need at least 2 variants for A/B test"
          else Valid
      end
  end.

(** [str.title()] on ASCII text. *)
Definition is_lower (c : ascii) : bool :=
  (97 <=? nat_of_ascii c)%nat && (nat_of_ascii c <=? 122)%nat.
Definition is_upper (c : ascii) : bool :=
  (65 <=? nat_of_ascii c)%nat && (nat_of_ascii c <=? 90)%nat.
Definition to_upper (c : ascii) : ascii :=
  if is_lower c then ascii_of_nat (nat_of_ascii c - 32) else c.
Definition to_lower (c : ascii) : ascii :=
  if is_upper c then ascii_of_nat (nat_of_ascii c + 32) else c.

Fixpoint title_from (in_word : bool) (s : string) : string :=
  match s with
  | EmptyString => EmptyString
  | String c r =>
      if is_lower c || is_upper c
      then String (if in_word then to_lower c else to_upper c) (title_from true r)
      else String c (title_from false r)
  end.
Definition title (s : string) : string := title_from false s.

(** [f"{n}"] for a natural number. *)
Definition str_of_nat (n : nat) : string :=
  DecimalString.NilZero.string_of_uint (Nat.to_uint n).

Definition dflt {A : Type} (o : option A) (d : A) : A :=
  match o with Some a => a | None => d end.

(** A column of [AdCreative]: none of them is nullable, so the insert of a
    row with [None] in one of them fails. *)
Definition column {A : Type} (v : option A) : py A :=
  match v with Some a => Ret a | None => Raise IntegrityError end.

(** [AdCreative.objects.create(...)] for variant number [i] (from 0). *)
Definition new_creative (db : DB) (ad_set : AdSet) (ab_test : ABTest)
    (i : nat) (variant : Variant) (now : Z) : py AdCreative :=
  creative_type ← column (entry_get (v_creative_type variant) "text");
  headline ← column (entry_get (v_headline variant) "Test Headline");
  description ← column (entry_get (v_description variant) "Test Description");
  call_to_action ← column (entry_get (v_call_to_action variant) "Learn More");
  destination_url ←
    column (entry_get (v_destination_url variant) "https://example.com");
  image_url ← column (entry_get (v_image_url variant) "");
  video_url ← column (entry_get (v_video_url variant) "");
  ai_confidence_score ← column (entry_get (v_confidence_score variant) 0.8);
  Ret {| cr_id := fresh_id (map cr_id (creatives db));
         cr_ad_set := as_id ad_set;
         cr_name := ab_name ab_test ++ " - Variant " ++ str_of_nat (i + 1);
         cr_creative_type := creative_type;
         cr_headline := headline;
         cr_description := description;
         cr_call_to_action := call_to_action;
         cr_destination_url := destination_url;
         cr_image_url := image_url;
         cr_video_url := video_url;
         cr_ai_confidence_score := ai_confidence_score;
         cr_is_winner := false;
         cr_is_active := true;
         cr_created_at := now |}.

(** The [for i, variant in enumerate(variants)] loop, from index [i].  The
    rows created before one that fails stay in the database. *)
Fixpoint create_variants_from (db : DB) (ad_set : AdSet) (ab_test : ABTest)
    (i : nat) (variants : list Variant) (now : Z) : DB * py (list AdCreative) :=
  match variants with
  | [] => (db, Ret [])
  | variant :: r =>
      match new_creative db ad_set ab_test i variant now with
      | Raise e => (db, Raise e)
      | Ret creative =>
          let '(db', created) :=
            create_variants_from (insert_creative creative db) ad_set ab_test
                                 (S i) r now in
          (db', created_variants ← created; Ret (creative :: created_variants))
      end
  end.

Definition _create_test_variants (db : DB) (ab_test : ABTest)
    (variants : list Variant) (now : Z) : DB * py (list AdCreative) :=
  match adset_set db (ab_campaign ab_test) with
  | [] => (db, Raise (ValueError "No ad set found for campaign"))
  | ad_set :: _ => create_variants_from db ad_set ab_test 0 variants now
  end.

(** [_launch_test]'s dict. *)
Inductive LaunchResult : Type :=
| Launched (variants_launched : nat) (traffic_split : Q) (platforms : list string)
| LaunchFailed (error : string).

(** The launch is simulated: its [try] block logs a line and returns the
    success dict. *)
Definition _launch_test (ab_test : ABTest) (variants : list AdCreative)
    (config : TestConfig) : LaunchResult :=
  Launched (length variants) (dflt (cfg_traffic_split config) 0.5)
           ["google"; "meta"; "linkedin"].

(** The dicts that [create_automated_ab_test] returns. *)
Inductive CreateResult : Type :=
| CFailure (reason : string)
| CError (e : exn)
| CSuccess (ab_test : ABTest) (variants : list AdCreative) (launch_details : LaunchResult).

(** The [if launch_result['success']: ... else: ...] that ends
    [create_automated_ab_test]. *)
Definition launch_outcome (db : DB) (ab_test : ABTest) (variants : list AdCreative)
    (launch_result : LaunchResult) (t_start : Z) : DB * CreateResult :=
  match launch_result with
  | Launched n split platforms =>
      let ab_test := started ab_test t_start in
      (save_abtest ab_test db,
       CSuccess ab_test variants (Launched n split platforms))
  | LaunchFailed error =>
      (delete_abtest ab_test db, CFailure error)
  end.

(** [ABTest.objects.create(...)] for a validated configuration. *)
Definition new_abtest (db : DB) (campaign : Campaign) (test_config : TestConfig)
    : ABTest :=
  let test_type := entry_value (cfg_test_type test_config) "" in
  {| ab_id := fresh_id (map ab_id (abtests db));
     ab_campaign := c_id campaign;
     ab_name := c_name campaign ++ " - " ++ title test_type ++ " Test";
     ab_test_type := test_type;
     ab_confidence_level := 0.95;
     ab_minimum_sample_size :=
       dflt (cfg_min_sample_size test_config) min_sample_size;
     ab_test_duration_days := dflt (cfg_duration_days test_config) 7%Z;
     ab_status := "draft";
     ab_winner_creative := None;
     ab_statistical_significance := None;
     ab_started_at := None;
     ab_completed_at := None |}.

(** [t_create] is the clock when the rows are created, [t_start] the clock
    when [started_at] is stamped. *)
Definition create_automated_ab_test (db : DB)
    (campaign : Campaign) (test_config : TestConfig) (t_create t_start : Z)
    : DB * CreateResult :=
  match _validate_test_config test_config with
  | Invalid error => (db, CFailure error)
  | Valid =>
      let ab_test := new_abtest db campaign test_config in
      let db := insert_abtest ab_test db in
      match _create_test_variants db ab_test (dflt (cfg_variants test_config) []) t_create with
      | (db, Raise e) => (db, CError e)
      | (db, Ret variants) =>
          launch_outcome db ab_test variants
                         (_launch_test ab_test variants test_config) t_start
      end
  end.

End ABTestEngine.
Import ABTestEngine.

(** ** [class BudgetOptimizer] ([neuro_ads/ai/budget_optimizer.py]) *)
Module BudgetOptimizer.

(** [__init__] *)
Definition min_budget_change_threshold : Q := 0.05.
Definition max_budget_change_per_day : Q := 0.20.
Definition performance_lookback_days : Z := 7.
Definition confidence_threshold : Q := 0.7.

(** One dict of [performance_data], as [_get_performance_data] builds it. *)
Record PerformanceData : Type := {
  pd_ad_set : AdSet;
  pd_impressions : Z;
  pd_clicks : Z;
  pd_conversions : Z;
  pd_spend : Q;
  pd_revenue : Q;
  pd_ctr : Q;
  pd_cpc : Q;
  pd_cpa : Q;
  pd_roas : Q;
  pd_conversion_rate : Q;
  pd_allocated_budget : Q;
  pd_platform : string
}.

(** The three keys that the scoring loop adds to that dict, one after the
    other; [None]: not set yet. *)
Record ScoreKeys : Type := {
  k_performance_score : option Q;
  k_efficiency_score : option Q;
  k_spend_utilization : option Q
}.

(** A dict of [metrics['ad_sets']]: all three keys are set. *)
Record ScoredAdSet : Type := {
  sa_data : PerformanceData;
  sa_performance_score : Q;
  sa_efficiency_score : Q;
  sa_spend_utilization : Q
}.

Record CampaignTotals : Type := {
  total_spend : Q;
  total_revenue : Q;
  total_conversions : Z;
  total_clicks : Z;
  total_impressions : Z
}.

Record CampaignAverages : Type := {
  avg_ctr : Q;
  avg_cpc : Q;
  avg_cpa : Q;
  avg_roas : Q;
  avg_conversion_rate : Q
}.

(** [metrics]: the empty dict or the full one. *)
Inductive Metrics : Type :=
| NoMetrics
| MetricsOf (ad_sets : list ScoredAdSet) (campaign_totals : CampaignTotals)
            (campaign_averages : CampaignAverages).

(** An opportunity dict, by its ['type'].  The ['reason'] text is left out. *)
Inductive Opportunity : Type :=
| increase_budget (ad_set : Z) (current_budget confidence suggested_increase : Q)
| decrease_budget (ad_set : Z) (current_budget confidence suggested_decrease : Q).

Definition opp_ad_set (o : Opportunity) : Z :=
  match o with increase_budget a _ _ _ | decrease_budget a _ _ _ => a end.
Definition opp_confidence (o : Opportunity) : Q :=
  match o with increase_budget _ _ c _ | decrease_budget _ _ c _ => c end.
Definition is_increase (o : Opportunity) : bool :=
  match o with increase_budget _ _ _ _ => true | decrease_budget _ _ _ _ => false end.

Definition _get_performance_data (db : DB) (campaign : Campaign) (now : Z)
    : list PerformanceData :=
  let end_date := date_of now in
  let start_date := (end_date - performance_lookback_days)%Z in
  let analytics := analytics_window db (c_id campaign) start_date end_date in
  flat_map (fun ad_set =>
    let ad_set_analytics :=
      List.filter (fun r => match an_ad_set r with
                       | Some a => (a =? as_id ad_set)%Z
                       | None => false
                       end) analytics in
    match ad_set_analytics with
    | [] => []
    | _ :: _ =>
        let impressions := sumZ (map an_impressions ad_set_analytics) in
        let clicks := sumZ (map an_clicks ad_set_analytics) in
        let conversions := sumZ (map an_conversions ad_set_analytics) in
        let spend := sumQ (map an_spend ad_set_analytics) in
        let revenue := sumQ (map an_revenue ad_set_analytics) in
        [{| pd_ad_set := ad_set;
            pd_impressions := impressions;
            pd_clicks := clicks;
            pd_conversions := conversions;
            pd_spend := spend;
            pd_revenue := revenue;
            pd_ctr := if (0 <? impressions)%Z
                      then inject_Z clicks / inject_Z impressions * 100 else 0;
            pd_cpc := if (0 <? clicks)%Z then spend / inject_Z clicks else 0;
            pd_cpa := if (0 <? conversions)%Z then spend / inject_Z conversions else 0;
            pd_roas := if Qgtb spend 0 then revenue / spend else 0;
            pd_conversion_rate := if (0 <? clicks)%Z
                      then inject_Z conversions / inject_Z clicks * 100 else 0;
            pd_allocated_budget := as_allocated_budget ad_set;
            pd_platform := as_platform ad_set |}]
    end) (adset_set db (c_id campaign)).

Definition _calculate_performance_score (ad_set_data : PerformanceData)
    (campaign_averages : CampaignAverages) : Q :=
  let score := 0.0 in
  let score :=
    if Qgtb (avg_roas campaign_averages) 0
    then score + Qmin (pd_roas ad_set_data / avg_roas campaign_averages) 2.0 * 0.4
    else score in
  let score :=
    if Qgtb (avg_conversion_rate campaign_averages) 0
    then score + Qmin (pd_conversion_rate ad_set_data
                       / avg_conversion_rate campaign_averages) 2.0 * 0.25
    else score in
  let score :=
    if Qgtb (avg_ctr campaign_averages) 0
    then score + Qmin (pd_ctr ad_set_data / avg_ctr campaign_averages) 2.0 * 0.2
    else score in
  let score :=
    if Qgtb (avg_cpa campaign_averages) 0 && Qgtb (pd_cpa ad_set_data) 0
    then score + Qmin (avg_cpa campaign_averages / pd_cpa ad_set_data) 2.0 * 0.15
    else score in
  score.

(** The dict is passed as its built part and the keys added so far. *)
Definition _calculate_efficiency_score (ad_set_data : PerformanceData)
    (keys : ScoreKeys) : py Q :=
  utilization ← getitem "spend_utilization" (k_spend_utilization keys);
  let roas := pd_roas ad_set_data in
  let utilization_score :=
    if Qleb 0.8 utilization && Qleb utilization 0.95 then 1.0
    else if Qltb utilization 0.8 then utilization / 0.8
    else Qmax 0.5 (1.0 - (utilization - 0.95) * 2) in
  let roas_score := if Qgtb roas 0 then Qmin (roas / 3.0) 1.0 else 0 in
  Ret (utilization_score * 0.6 + roas_score * 0.4).

(** The body of the scoring loop: the three assignments, in the order of the
    source. *)
Definition score_ad_set (campaign_averages : CampaignAverages) (data : PerformanceData)
    : py ScoredAdSet :=
  let keys := {| k_performance_score := None; k_efficiency_score := None;
                 k_spend_utilization := None |} in
  let performance_score := _calculate_performance_score data campaign_averages in
  let keys := {| k_performance_score := Some performance_score;
                 k_efficiency_score := k_efficiency_score keys;
                 k_spend_utilization := k_spend_utilization keys |} in
  efficiency_score ← _calculate_efficiency_score data keys;
  let spend_utilization :=
    if Qgtb (pd_allocated_budget data) 0
    then pd_spend data / pd_allocated_budget data else 0 in
  Ret {| sa_data := data;
         sa_performance_score := performance_score;
         sa_efficiency_score := efficiency_score;
         sa_spend_utilization := spend_utilization |}.

(** [list.sort(key=lambda x: x['performance_score'], reverse=True)]: stable,
    largest first. *)
Fixpoint insert_by_score (x : ScoredAdSet) (l : list ScoredAdSet) : list ScoredAdSet :=
  match l with
  | [] => [x]
  | y :: r =>
      if Qgtb (sa_performance_score y) (sa_performance_score x)
      then y :: insert_by_score x r
      else x :: y :: r
  end.
Definition sort_by_score (l : list ScoredAdSet) : list ScoredAdSet :=
  fold_right insert_by_score [] l.

(** The dicts [campaign_totals] and [campaign_averages]. *)
Definition campaign_totals_of (performance_data : list PerformanceData)
    : CampaignTotals :=
  {| total_spend := sumQ (map pd_spend performance_data);
     total_revenue := sumQ (map pd_revenue performance_data);
     total_conversions := sumZ (map pd_conversions performance_data);
     total_clicks := sumZ (map pd_clicks performance_data);
     total_impressions := sumZ (map pd_impressions performance_data) |}.

Definition campaign_averages_of (campaign_totals : CampaignTotals) : CampaignAverages :=
  {| avg_ctr :=
       if (0 <? total_impressions campaign_totals)%Z
       then inject_Z (total_clicks campaign_totals)
            / inject_Z (total_impressions campaign_totals) * 100 else 0;
     avg_cpc :=
       if (0 <? total_clicks campaign_totals)%Z
       then total_spend campaign_totals / inject_Z (total_clicks campaign_totals)
       else 0;
     avg_cpa :=
       if (0 <? total_conversions campaign_totals)%Z
       then total_spend campaign_totals / inject_Z (total_conversions campaign_totals)
       else 0;
     avg_roas :=
       if Qgtb (total_spend campaign_totals) 0
       then total_revenue campaign_totals / total_spend campaign_totals else 0;
     avg_conversion_rate :=
       if (0 <? total_clicks campaign_totals)%Z
       then inject_Z (total_conversions campaign_totals)
            / inject_Z (total_clicks campaign_totals) * 100 else 0 |}.

Definition _calculate_performance_metrics (performance_data : list PerformanceData)
    : py Metrics :=
  match performance_data with
  | [] => Ret NoMetrics
  | _ :: _ =>
      let campaign_totals := campaign_totals_of performance_data in
      let campaign_averages := campaign_averages_of campaign_totals in
      scored ← mapM (score_ad_set campaign_averages) performance_data;
      Ret (MetricsOf (sort_by_score scored) campaign_totals campaign_averages)
  end.

(** [metrics.get('ad_sets', [])] and [metrics['ad_sets']] *)
Definition get_ad_sets (metrics : Metrics) : list ScoredAdSet :=
  match metrics with MetricsOf ad_sets _ _ => ad_sets | NoMetrics => [] end.
Definition item_ad_sets (metrics : Metrics) : py (list ScoredAdSet) :=
  match metrics with
  | MetricsOf ad_sets _ _ => Ret ad_sets
  | NoMetrics => Raise (KeyError "ad_sets")
  end.

(** [==] on two scored dicts: key by key; model instances compare by primary
    key. *)
Definition scored_eqb (x y : ScoredAdSet) : bool :=
  (as_id (pd_ad_set (sa_data x)) =? as_id (pd_ad_set (sa_data y)))%Z
  && (pd_impressions (sa_data x) =? pd_impressions (sa_data y))%Z
  && (pd_clicks (sa_data x) =? pd_clicks (sa_data y))%Z
  && (pd_conversions (sa_data x) =? pd_conversions (sa_data y))%Z
  && Qeq_bool (pd_spend (sa_data x)) (pd_spend (sa_data y))
  && Qeq_bool (pd_revenue (sa_data x)) (pd_revenue (sa_data y))
  && Qeq_bool (pd_ctr (sa_data x)) (pd_ctr (sa_data y))
  && Qeq_bool (pd_cpc (sa_data x)) (pd_cpc (sa_data y))
  && Qeq_bool (pd_cpa (sa_data x)) (pd_cpa (sa_data y))
  && Qeq_bool (pd_roas (sa_data x)) (pd_roas (sa_data y))
  && Qeq_bool (pd_conversion_rate (sa_data x)) (pd_conversion_rate (sa_data y))
  && Qeq_bool (pd_allocated_budget (sa_data x)) (pd_allocated_budget (sa_data y))
  && String.eqb (pd_platform (sa_data x)) (pd_platform (sa_data y))
  && Qeq_bool (sa_performance_score x) (sa_performance_score y)
  && Qeq_bool (sa_efficiency_score x) (sa_efficiency_score y)
  && Qeq_bool (sa_spend_utilization x) (sa_spend_utilization y).

(** [x in l] on a list of scored dicts. *)
Definition scored_in (x : ScoredAdSet) (l : list ScoredAdSet) : bool :=
  existsb (scored_eqb x) l.

Definition sa_id (a : ScoredAdSet) : Z := as_id (pd_ad_set (sa_data a)).

(** The opportunities before the confidence filter. *)
Definition candidate_opportunities (ad_sets : list ScoredAdSet) : list Opportunity :=
  let high_performers :=
    List.filter (fun ad_set => Qgtb (sa_performance_score ad_set) 1.2
                               && Qgtb (sa_spend_utilization ad_set) 0.8) ad_sets in
  let low_performers :=
    List.filter (fun ad_set => Qltb (sa_performance_score ad_set) 0.8) ad_sets in
  let underutilized :=
    List.filter (fun ad_set => Qltb (sa_spend_utilization ad_set) 0.6) ad_sets in
  map (fun high_performer =>
         increase_budget (sa_id high_performer)
           (pd_allocated_budget (sa_data high_performer))
           (Qmin (sa_performance_score high_performer / 1.5) 1.0)
           (Qmin 0.2 (sa_performance_score high_performer - 1.0)))
      high_performers
  ++ map (fun low_performer =>
         decrease_budget (sa_id low_performer)
           (pd_allocated_budget (sa_data low_performer))
           (Qmin (1.0 - sa_performance_score low_performer) 1.0)
           (Qmin 0.3 (1.0 - sa_performance_score low_performer)))
      (List.filter (fun low_performer => Qgtb (sa_spend_utilization low_performer) 0.3)
                   low_performers)
  ++ map (fun underutil =>
         decrease_budget (sa_id underutil)
           (pd_allocated_budget (sa_data underutil))
           (1.0 - sa_spend_utilization underutil)
           (Qmin 0.4 (1.0 - sa_spend_utilization underutil)))
      (List.filter (fun underutil => negb (scored_in underutil low_performers))
                   underutilized).

Definition _identify_optimization_opportunities (metrics : Metrics) : list Opportunity :=
  let ad_sets := get_ad_sets metrics in
  if (length ad_sets <? 2)%nat then []
  else
    List.filter (fun opp => Qgeb (opp_confidence opp) confidence_threshold)
                (candidate_opportunities ad_sets).

(** [new_allocation[ad_set_id]] *)
Definition str_of_Z (z : Z) : string :=
  DecimalString.NilZero.string_of_int (Z.to_int z).
Definition alloc_item (new_allocation : gmap Z Q) (ad_set_id : Z) : py Q :=
  getitem (str_of_Z ad_set_id) (new_allocation !! ad_set_id).

(** [{ad_set['ad_set'].id: ad_set['allocated_budget'] for ad_set in ad_sets}] *)
Definition initial_allocation (ad_sets : list ScoredAdSet) : gmap Z Q :=
  fold_left (fun m ad_set => <[sa_id ad_set := pd_allocated_budget (sa_data ad_set)]> m)
            ad_sets ∅.

(** The first loop: the decreases, with the budget they free. *)
Fixpoint apply_decreases (opportunities : list Opportunity)
    (new_allocation : gmap Z Q) (budget_to_redistribute : Q) : py (gmap Z Q * Q) :=
  match opportunities with
  | [] => Ret (new_allocation, budget_to_redistribute)
  | decrease_budget ad_set_id _ _ suggested_decrease :: r =>
      current_budget ← alloc_item new_allocation ad_set_id;
      let decrease_amount := current_budget * suggested_decrease in
      let decrease_amount :=
        Qmin decrease_amount (current_budget * max_budget_change_per_day) in
      apply_decreases r
        (<[ad_set_id := current_budget - decrease_amount]> new_allocation)
        (budget_to_redistribute + decrease_amount)
  | increase_budget _ _ _ _ :: r =>
      apply_decreases r new_allocation budget_to_redistribute
  end.

(** [opp['confidence'] * opp['suggested_increase']] *)
Definition increase_weight (o : Opportunity) : Q :=
  match o with
  | increase_budget _ _ confidence suggested_increase => confidence * suggested_increase
  | decrease_budget _ _ _ _ => 0
  end.

(** The second loop: the increases. *)
Fixpoint apply_increases (increase_opportunities : list Opportunity)
    (budget_to_redistribute total_performance_weight : Q)
    (new_allocation : gmap Z Q) : py (gmap Z Q) :=
  match increase_opportunities with
  | [] => Ret new_allocation
  | opportunity :: r =>
      if Qgtb total_performance_weight 0
      then
        let weight := increase_weight opportunity / total_performance_weight in
        let increase_amount := budget_to_redistribute * weight in
        let ad_set_id := opp_ad_set opportunity in
        current_budget ← alloc_item new_allocation ad_set_id;
        let max_increase := current_budget * max_budget_change_per_day in
        let increase_amount := Qmin increase_amount max_increase in
        apply_increases r budget_to_redistribute total_performance_weight
          (<[ad_set_id := current_budget + increase_amount]> new_allocation)
      else
        apply_increases r budget_to_redistribute total_performance_weight new_allocation
  end.

Definition _calculate_optimal_allocation (campaign : Campaign) (metrics : Metrics)
    (opportunities : list Opportunity) : py (gmap Z Q) :=
  ad_sets ← item_ad_sets metrics;
  let new_allocation := initial_allocation ad_sets in
  '(new_allocation, budget_to_redistribute) ←
     apply_decreases opportunities new_allocation 0.0;
  let increase_opportunities := List.filter is_increase opportunities in
  if negb (length increase_opportunities =? 0)%nat && Qgtb budget_to_redistribute 0
  then
    let total_performance_weight := sumQ (map increase_weight increase_opportunities) in
    apply_increases increase_opportunities budget_to_redistribute
                    total_performance_weight new_allocation
  else Ret new_allocation.

(** [new_allocation.get(ad_set.id, current_budget)] *)
Definition alloc_get (new_allocation : gmap Z Q) (ad_set_id : Z) (default : Q) : Q :=
  match new_allocation !! ad_set_id with Some b => b | None => default end.

(** The two sums of [_should_apply_changes]. *)
Definition total_change (ad_sets : list AdSet) (new_allocation : gmap Z Q) : Q :=
  sumQ (map (fun ad_set =>
               Qabs (alloc_get new_allocation (as_id ad_set) (as_allocated_budget ad_set)
                     - as_allocated_budget ad_set)) ad_sets).
Definition total_budget (ad_sets : list AdSet) : Q :=
  sumQ (map as_allocated_budget ad_sets).

Definition _should_apply_changes (db : DB) (campaign : Campaign)
    (new_allocation : gmap Z Q) : bool :=
  let ad_sets := adset_set db (c_id campaign) in
  if Qgtb (total_budget ad_sets) 0
  then Qgeb (total_change ad_sets new_allocation / total_budget ad_sets)
            min_budget_change_threshold
  else false.

(** One entry of [changes_made]. *)
Record Change : Type := {
  ch_ad_set : string;
  ch_platform : string;
  ch_previous_budget : Q;
  ch_new_budget : Q;
  ch_change_amount : Q;
  ch_change_percentage : Q
}.

(** The dicts that [optimize_campaign_budgets] returns. *)
Inductive OptimizeResult : Type :=
| OFailure (reason : string)          (* [{'success': False, 'reason': ...}] *)
| OError (e : exn)                    (* [{'success': False, 'error': str(e)}] *)
| OSuccess (optimization_id : Z) (changes_made : list Change)
           (expected_improvement : Q) (reason : OptimizationSummary)
           (opportunities_count : nat).

Definition _calculate_expected_improvement (opportunities : list Opportunity) : Q :=
  Qmin (fold_left (fun improvement opportunity =>
                     match opportunity with
                     | increase_budget _ _ confidence _ => improvement + confidence * 0.1
                     | decrease_budget _ _ confidence _ => improvement + confidence * 0.05
                     end) opportunities 0.0)
       0.5.

Definition _generate_optimization_summary (opportunities : list Opportunity)
    : OptimizationSummary :=
  {| os_increases := length (List.filter is_increase opportunities);
     os_decreases := length (List.filter (fun o => negb (is_increase o)) opportunities);
     os_avg_confidence :=
       match opportunities with
       | [] => None
       | _ :: _ => Some (sumQ (map opp_confidence opportunities)
                         / inject_Z (Z.of_nat (length opportunities)))
       end |}.

Definition _get_current_metrics_summary (db : DB) (campaign : Campaign) (now : Z)
    : MetricsSummary :=
  let end_date := date_of now in
  let start_date := (end_date - 7)%Z in
  let analytics := analytics_window db (c_id campaign) start_date end_date in
  let spend := sumQ (map an_spend analytics) in
  let revenue := sumQ (map an_revenue analytics) in
  {| ms_period := (start_date, end_date);
     ms_total_spend := spend;
     ms_total_revenue := revenue;
     ms_total_conversions := sumZ (map an_conversions analytics);
     ms_total_clicks := sumZ (map an_clicks analytics);
     ms_total_impressions := sumZ (map an_impressions analytics);
     ms_roas := revenue / (if Qeq_bool spend 0 then 1 else spend) |}.

Definition with_allocated_budget (ad_set : AdSet) (budget : Q) : AdSet :=
  {| as_id := as_id ad_set; as_campaign := as_campaign ad_set;
     as_platform := as_platform ad_set; as_name := as_name ad_set;
     as_allocated_budget := budget |}.

(** The loop of [_apply_budget_optimization] over the campaign's ad sets.  A
    budget is saved before its change percentage is computed, so the
    database that the loop reached is returned also when the loop raises. *)
Fixpoint apply_changes (db : DB) (ad_sets : list AdSet) (new_allocation : gmap Z Q)
    (previous_allocation : gmap Z Q) (changes_made : list Change)
    : DB * py (gmap Z Q * list Change) :=
  match ad_sets with
  | [] => (db, Ret (previous_allocation, changes_made))
  | ad_set :: r =>
      let previous := as_allocated_budget ad_set in
      let previous_allocation := <[as_id ad_set := previous]> previous_allocation in
      let new_budget := alloc_get new_allocation (as_id ad_set) previous in
      if Qgeb (Qabs (new_budget - previous)) (previous * min_budget_change_threshold)
      then
        let db := save_adset (with_allocated_budget ad_set new_budget) db in
        match truediv (new_budget - previous) previous with
        | Raise e => (db, Raise e)
        | Ret ratio =>
            apply_changes db r new_allocation previous_allocation
              (changes_made ++
               [{| ch_ad_set := as_name ad_set;
                   ch_platform := as_platform ad_set;
                   ch_previous_budget := previous;
                   ch_new_budget := new_budget;
                   ch_change_amount := new_budget - previous;
                   ch_change_percentage := ratio * 100 |}])
        end
      else apply_changes db r new_allocation previous_allocation changes_made
  end.

Definition _apply_budget_optimization (db : DB) (campaign : Campaign)
    (new_allocation : gmap Z Q) (opportunities : list Opportunity) (now : Z)
    : DB * OptimizeResult :=
  match apply_changes db (adset_set db (c_id campaign)) new_allocation ∅ [] with
  | (db, Raise e) => (db, OError e)
  | (db, Ret (previous_allocation, changes_made)) =>
      let expected_roas_improvement := _calculate_expected_improvement opportunities in
      let optimization_reason := _generate_optimization_summary opportunities in
      let budget_optimization :=
        {| bo_id := fresh_id (map bo_id (optimizations db));
           bo_campaign := c_id campaign;
           bo_previous_allocation := previous_allocation;
           bo_new_allocation :=
             map_imap (fun ad_set_id previous =>
                         Some (alloc_get new_allocation ad_set_id previous))
                      previous_allocation;
           bo_optimization_reason := optimization_reason;
           bo_performance_metrics := _get_current_metrics_summary db campaign now;
           bo_expected_roas_improvement := expected_roas_improvement |} in
      (insert_optimization budget_optimization db,
       OSuccess (bo_id budget_optimization) changes_made expected_roas_improvement
                optimization_reason (length opportunities))
  end.

Definition optimize_campaign_budgets (db : DB) (campaign : Campaign) (now : Z)
    : DB * OptimizeResult :=
  let performance_data := _get_performance_data db campaign now in
  match performance_data with
  | [] => (db, OFailure "Insufficient performance data")
  | _ :: _ =>
      match _calculate_performance_metrics performance_data with
      | Raise e => (db, OError e)
      | Ret metrics =>
          let opportunities := _identify_optimization_opportunities metrics in
          match opportunities with
          | [] => (db, OFailure "No optimization opportunities found")
          | _ :: _ =>
              match _calculate_optimal_allocation campaign metrics opportunities with
              | Raise e => (db, OError e)
              | Ret new_allocation =>
                  if _should_apply_changes db campaign new_allocation
                  then _apply_budget_optimization db campaign new_allocation
                                                  opportunities now
                  else (db, OFailure "Budget changes below threshold or too risky")
              end
          end
      end
  end.

End BudgetOptimizer.
Import BudgetOptimizer.

(** * Properties *)

(** ** Comparisons on floats *)
Section Comparisons.

Lemma Qltb_lt (x y : Q) : Qltb x y = true <-> x < y.
Proof.
  unfold Qltb. rewrite negb_true_iff, <- not_true_iff_false, Qle_bool_iff.
  split; [apply Qnot_le_lt | apply Qlt_not_le].
Qed.

Lemma Qltb_ge (x y : Q) : Qltb x y = false <-> y <= x.
Proof. unfold Qltb. rewrite negb_false_iff. apply Qle_bool_iff. Qed.

Lemma Qgtb_gt (x y : Q) : Qgtb x y = true <-> y < x.
Proof. apply Qltb_lt. Qed.

Lemma Qgtb_le (x y : Q) : Qgtb x y = false <-> x <= y.
Proof. apply Qltb_ge. Qed.

Lemma Qgeb_ge (x y : Q) : Qgeb x y = true <-> y <= x.
Proof. apply Qle_bool_iff. Qed.

Lemma Qgeb_lt (x y : Q) : Qgeb x y = false <-> x < y.
Proof.
  unfold Qgeb. rewrite <- not_true_iff_false, Qle_bool_iff.
  split; [apply Qnot_le_lt | apply Qlt_not_le].
Qed.

End Comparisons.

(** ** A reference numeric library

    Rational stand-ins for [math.sqrt] and the two distribution functions,
    which show that the assumptions of [MathLib] can be met and let the
    engines run on concrete data: the square root is the integer square
    root at twelve decimal places, the normal distribution function is the
    rational approximation 26.2.18 of Abramowitz and Stegun, Student's
    distribution is reduced to the normal one. *)
Section ReferenceMath.

Definition sqrt_ref (x : Q) : Q :=
  let r := Qred x in
  Z.sqrt (Qnum r * Zpos (Qden r) * 10 ^ 24) # (Qden r * 10 ^ 12).

Definition norm_cdf_pos (x : Q) : Q :=
  let s := 1 + 0.196854 * x + 0.115194 * (x * x) + 0.000344 * (x * x * x)
           + 0.019527 * (x * x * x * x) in
  1 - 0.5 / (s * s * s * s).

Definition norm_cdf_ref (x : Q) : Q :=
  let r := Qred x in
  if Qltb r 0 then 1 - norm_cdf_pos (- r) else norm_cdf_pos r.

Definition t_cdf_ref (x df : Q) : Q :=
  norm_cdf_ref (x * (1 - 1 / (4 * df)) / sqrt_ref (1 + x * x / (2 * df))).

Lemma sqrt_ref_zero (x : Q) : 0 <= x -> (sqrt_ref x == 0 <-> x == 0).
Proof.
  intros Hx. unfold sqrt_ref.
  assert (Hr : Qred x == x) by apply Qred_correct.
  assert (Hn : (0 <= Qnum (Qred x))%Z).
  { rewrite <- Hr in Hx. unfold Qle in Hx. simpl in Hx. lia. }
  set (r := Qred x) in *.
  split.
  - intros H. unfold Qeq in H. simpl in H.
    rewrite <- Hr. unfold Qeq. simpl. rewrite Z.mul_1_r.
    destruct (Z.eq_dec (Qnum r) 0%Z) as [E|E]; [exact E|].
    exfalso.
    assert (Hp : (1 <= Qnum r * Z.pos (Qden r) * 10 ^ 24)%Z) by nia.
    apply Z.sqrt_le_mono in Hp. simpl (Z.sqrt 1) in Hp. lia.
  - intros H. rewrite <- Hr in H. unfold Qeq in H. simpl in H.
    rewrite Z.mul_1_r in H. unfold Qeq. simpl. rewrite H. reflexivity.
Qed.

Lemma norm_cdf_ref_proper (x y : Q) : x == y -> norm_cdf_ref x == norm_cdf_ref y.
Proof.
  intros H. unfold norm_cdf_ref. rewrite (Qred_complete _ _ H). reflexivity.
Qed.

Lemma norm_cdf_ref_0 : norm_cdf_ref 0 == 0.5.
Proof. vm_compute. reflexivity. Qed.

Definition ref_math : MathLib :=
  {| msqrt := sqrt_ref; norm_cdf := norm_cdf_ref; t_cdf := t_cdf_ref;
     msqrt_zero := sqrt_ref_zero;
     norm_cdf_proper := norm_cdf_ref_proper;
     norm_cdf_0 := norm_cdf_ref_0 |}.

End ReferenceMath.

(** ** The two-proportion test *)
Section TwoProportion.

Variable M : MathLib.

Lemma truediv_ret (x y : Q) : ~ y == 0 -> truediv x y = Ret (x / y).
Proof.
  intros H. unfold truediv.
  destruct (Qeq_bool y 0) eqn:E; [apply Qeq_bool_eq in E; contradiction | reflexivity].
Qed.

Lemma py_sqrt_ret (x : Q) : 0 <= x -> py_sqrt M x = Ret (msqrt M x).
Proof.
  intros H. unfold py_sqrt.
  destruct (Qltb x 0) eqn:E; [apply Qltb_lt in E; lra | reflexivity].
Qed.

(** The first guard alone decides the result. *)
Lemma two_proportion_no_trials (sa ta sb tb : Z) :
  ta = 0%Z \/ tb = 0%Z -> _two_proportion_z_test M sa ta sb tb = Ret inconclusive.
Proof.
  intros H. unfold _two_proportion_z_test.
  replace ((ta =? 0)%Z || (tb =? 0)%Z) with true; [reflexivity|].
  symmetry. apply orb_true_iff. rewrite !Z.eqb_eq. exact H.
Qed.

(** A standard error of zero decides the result once it is computed. *)
Lemma two_proportion_zero_se (sa ta sb tb : Z) (se : Q) :
  pooled_se M sa ta sb tb = Ret se -> se == 0 ->
  _two_proportion_z_test M sa ta sb tb = Ret inconclusive.
Proof.
  intros Hse H0. unfold _two_proportion_z_test.
  destruct ((ta =? 0)%Z || (tb =? 0)%Z); [reflexivity|].
  rewrite Hse. cbn. rewrite (Qeq_eq_bool _ _ H0). reflexivity.
Qed.

(** C5. For non-negative integer inputs, when [trials_a] is 0, or [trials_b]
    is 0, or the pooled standard error computed by the test equals 0, the
    test returns exactly [p_value = 1.0], [effect_size = 0] and
    [winner = 'inconclusive'], and it does not raise. *)
Theorem two_proportion_degenerate (sa ta sb tb : Z) :
  (0 <= sa)%Z -> (0 <= ta)%Z -> (0 <= sb)%Z -> (0 <= tb)%Z ->
  ta = 0%Z \/ tb = 0%Z \/ (exists se, pooled_se M sa ta sb tb = Ret se /\ se == 0) ->
  _two_proportion_z_test M sa ta sb tb
  = Ret {| tr_p_value := 1.0; tr_effect_size := 0; tr_winner := "inconclusive";
           tr_z_score := None; tr_t_score := None; tr_confidence_interval := None;
           tr_p_a := None; tr_p_b := None; tr_mean_a := None; tr_mean_b := None |}.
Proof.
  intros _ _ _ _ [H | [H | [se [Hse H0]]]]; fold inconclusive.
  - apply two_proportion_no_trials. now left.
  - apply two_proportion_no_trials. now right.
  - now apply two_proportion_zero_se with se.
Qed.

(** With trials on both sides and successes within the trials, the standard
    error is computed, and it is zero exactly when the pooled proportion is
    0 or 1. *)
Lemma pooled_se_sound (sa ta sb tb : Z) :
  (0 <= sa <= ta)%Z -> (0 <= sb <= tb)%Z -> (0 < ta)%Z -> (0 < tb)%Z ->
  exists se, pooled_se M sa ta sb tb = Ret se
    /\ (se == 0 <-> ((sa + sb = 0)%Z \/ (sa + sb = ta + tb)%Z)).
Proof.
  intros Ha Hb Hta Htb. unfold pooled_se.
  assert (Hden : 0 < inject_Z (ta + tb)).
  { replace 0 with (inject_Z 0) by reflexivity. rewrite <- Zlt_Qlt. lia. }
  rewrite truediv_ret by lra. cbn.
  set (p := inject_Z (sa + sb) / inject_Z (ta + tb)).
  assert (Hp0 : 0 <= p).
  { unfold p. apply Qle_shift_div_l; [exact Hden|].
    rewrite Qmult_0_l. replace 0 with (inject_Z 0) by reflexivity.
    rewrite <- Zle_Qle. lia. }
  assert (Hp1 : p <= 1).
  { unfold p. apply Qle_shift_div_r; [exact Hden|].
    rewrite Qmult_1_l. rewrite <- Zle_Qle. lia. }
  assert (Hia : 0 < 1 / inject_Z ta).
  { apply Qlt_shift_div_l; [replace 0 with (inject_Z 0) by reflexivity;
      rewrite <- Zlt_Qlt; lia | lra]. }
  assert (Hib : 0 < 1 / inject_Z tb).
  { apply Qlt_shift_div_l; [replace 0 with (inject_Z 0) by reflexivity;
      rewrite <- Zlt_Qlt; lia | lra]. }
  assert (Hrad : 0 <= pooled_radicand p ta tb).
  { unfold pooled_radicand. apply Qmult_le_0_compat; [|lra].
    apply Qmult_le_0_compat; lra. }
  rewrite py_sqrt_ret by exact Hrad.
  eexists. split; [reflexivity|].
  rewrite (msqrt_zero M _ Hrad). unfold pooled_radicand.
  assert (Hzero : p == 0 <-> (sa + sb = 0)%Z).
  { unfold p. split.
    - intros E. apply (Qmult_inj_r _ _ (inject_Z (ta + tb))) in E; [|lra].
      rewrite Qmult_0_l in E. unfold Qdiv in E.
      rewrite <- Qmult_assoc, (Qmult_comm (/ _)), Qmult_inv_r, Qmult_1_r in E by lra.
      change 0 with (inject_Z 0) in E.
      exact (proj1 (inject_Z_injective _ _) E).
    - intros E. rewrite E. unfold Qdiv. now rewrite Qmult_0_l. }
  assert (Hone : p == 1 <-> (sa + sb = ta + tb)%Z).
  { unfold p. split.
    - intros E. apply (Qmult_inj_r _ _ (inject_Z (ta + tb))) in E; [|lra].
      rewrite Qmult_1_l in E. unfold Qdiv in E.
      rewrite <- Qmult_assoc, (Qmult_comm (/ _)), Qmult_inv_r, Qmult_1_r in E by lra.
      exact (proj1 (inject_Z_injective _ _) E).
    - intros E. rewrite E. unfold Qdiv. apply Qmult_inv_r. lra. }
  rewrite <- Hzero, <- Hone.
  split.
  - intros E.
    apply Qmult_integral in E. destruct E as [E|E]; [|lra].
    apply Qmult_integral in E. destruct E as [E|E]; [now left | right; lra].
  - intros [E|E]; rewrite E; ring.
Qed.

End TwoProportion.

(** A run of C5 on a case where both sides have trials and the standard
    error is zero. *)
Lemma two_proportion_degenerate_witness :
  _two_proportion_z_test ref_math 0 10 0 10 = Ret inconclusive.
Proof.
  apply (two_proportion_degenerate ref_math 0 10 0 10); try lia.
  right. right. eexists. split; [vm_compute; reflexivity | reflexivity].
Defined.

(** ** The stop decision *)
Section StopDecision.

(** The cascade of the specification, rule by rule.  [d] is the number of
    days the test has run.  Where the specification names no reason (rules
    a, c and g) any reason is allowed. *)
Definition below_minimum_sample (ab_test : ABTest)
    (variant_results : list (string * VariantResult)) : Prop :=
  Exists (fun kv => (vr_impressions (snd kv) < ab_minimum_sample_size ab_test)%Z)
         variant_results.

Definition clears (alpha : Q) (test : PairTest) : Prop :=
  pt_p_value test < alpha /\ pt_effect_size test > 0.10.

Inductive stop_cascade (d : Z) (ab_test : ABTest)
    (variant_results : list (string * VariantResult)) (tests : list PairTest)
    : bool * string -> Prop :=
| rule_a reason :
    (d < 3)%Z ->
    stop_cascade d ab_test variant_results tests (false, reason)
| rule_b :
    (3 <= d)%Z -> (14 <= d)%Z ->
    stop_cascade d ab_test variant_results tests (true, "Maximum test duration reached")
| rule_c reason :
    (3 <= d < 14)%Z -> below_minimum_sample ab_test variant_results ->
    stop_cascade d ab_test variant_results tests (false, reason)
| rule_d :
    (3 <= d < 14)%Z -> ~ below_minimum_sample ab_test variant_results ->
    Exists (clears 0.01) tests ->
    stop_cascade d ab_test variant_results tests
                 (true, "Early stopping - very significant result")
| rule_e :
    (3 <= d < 14)%Z -> ~ below_minimum_sample ab_test variant_results ->
    ~ Exists (clears 0.01) tests ->
    Exists (clears 0.05) tests -> (5 <= d)%Z ->
    stop_cascade d ab_test variant_results tests (true, "Statistically significant result")
| rule_f :
    (3 <= d < 14)%Z -> ~ below_minimum_sample ab_test variant_results ->
    ~ Exists (clears 0.01) tests ->
    ~ (Exists (clears 0.05) tests /\ (5 <= d)%Z) ->
    (ab_test_duration_days ab_test <= d)%Z ->
    stop_cascade d ab_test variant_results tests (true, "Planned test duration completed")
| rule_g reason :
    (3 <= d < 14)%Z -> ~ below_minimum_sample ab_test variant_results ->
    ~ Exists (clears 0.01) tests ->
    ~ (Exists (clears 0.05) tests /\ (5 <= d)%Z) ->
    (d < ab_test_duration_days ab_test)%Z ->
    stop_cascade d ab_test variant_results tests (false, reason).

(** The cascade leaves one decision, and one reason when it stops. *)
Lemma stop_cascade_functional d ab_test vrs tests r1 r2 :
  stop_cascade d ab_test vrs tests r1 -> stop_cascade d ab_test vrs tests r2 ->
  fst r1 = fst r2 /\ (fst r1 = true -> snd r1 = snd r2).
Proof.
  intros H1 H2.
  inversion H1; subst; inversion H2; subst; cbn [fst snd];
    (split; [|intros ?]); first [reflexivity | discriminate | lia | tauto].
Qed.

Lemma existsb_clears (alpha : Q) (tests : list PairTest) :
  existsb (fun test => Qltb (pt_p_value test) alpha
                       && Qgtb (pt_effect_size test) minimum_effect_size) tests = true
  <-> Exists (clears alpha) tests.
Proof.
  rewrite existsb_exists, List.Exists_exists.
  split; intros [t [Hin H]]; exists t; split; try exact Hin.
  - apply andb_true_iff in H. destruct H as [Hp He].
    apply Qltb_lt in Hp. apply Qgtb_gt in He. unfold minimum_effect_size in He.
    unfold clears. split; [exact Hp | lra].
  - destruct H as [Hp He]. apply andb_true_iff. split.
    + now apply Qltb_lt.
    + apply Qgtb_gt. unfold minimum_effect_size. lra.
Qed.

Lemma sample_size_not_met (ab_test : ABTest) (vrs : list (string * VariantResult)) :
  Forall (fun kv => vr_sample_size (snd kv) = vr_impressions (snd kv)) vrs ->
  forallb (fun kv => (ab_minimum_sample_size ab_test <=? vr_sample_size (snd kv))%Z) vrs
  = false
  <-> below_minimum_sample ab_test vrs.
Proof.
  intros Hs. unfold below_minimum_sample.
  induction Hs as [|kv r Hkv Hr IH]; cbn.
  - split; [discriminate | intros H; inversion H].
  - rewrite andb_false_iff, IH, Exists_cons, Z.leb_gt, Hkv. reflexivity.
Qed.

(** C1. For a test started at [t] and read at [now], which has then run
    [(now - t) / 86400] whole days, and any per-variant results and pairwise
    tests (the sample size of a variant being its impression count, as the
    analysis builds it), [_should_stop_test] follows the priority cascade:
    under 3 days it does not stop; from 14 days on it stops with 'Maximum
    test duration reached'; else a variant under the minimum sample size
    blocks the stop; else a test with p < 0.01 and effect > 0.10 stops
    early, before the 5-day gate; else p < 0.05 and effect > 0.10 with 5
    days run stops with 'Statistically significant result'; else the planned
    duration stops it; otherwise it continues. *)
Theorem should_stop_follows_cascade (ab_test : ABTest)
    (variant_results : list (string * VariantResult)) (tests : list PairTest)
    (is_significant : bool) (now t : Z) :
  ab_started_at ab_test = Some t ->
  Forall (fun kv => vr_sample_size (snd kv) = vr_impressions (snd kv))
         variant_results ->
  stop_cascade ((now - t) / 86400) ab_test variant_results tests
    (_should_stop_test ab_test (Analysis variant_results tests is_significant) now).
Proof.
  intros Ht Hs.
  set (sr := Analysis variant_results tests is_significant).
  change variant_results with (get_variant_results sr) in Hs |- *.
  change tests with (get_statistical_tests sr).
  assert (Hd : days_running ab_test now = Some ((now - t) / 86400)%Z)
    by (unfold days_running; rewrite Ht; reflexivity).
  generalize dependent ((now - t) / 86400)%Z. intros d Hd.
  unfold _should_stop_test. rewrite Hd.
  destruct (d <? 3)%Z eqn:E3; [apply rule_a; lia|]. apply Z.ltb_ge in E3.
  unfold max_test_duration_days.
  destruct (14 <=? d)%Z eqn:E14; [apply rule_b; lia|]. apply Z.leb_gt in E14.
  destruct (forallb _ (get_variant_results sr)) eqn:Esz; cbn [negb].
  2:{ apply rule_c; [lia|]. now apply sample_size_not_met. }
  assert (Hsz : ~ below_minimum_sample ab_test (get_variant_results sr)).
  { intros Hb. apply (sample_size_not_met ab_test _ Hs) in Hb. congruence. }
  unfold early_stopping_threshold, significance_threshold.
  destruct (existsb (fun test => Qltb (pt_p_value test) 0.01 && _)
                    (get_statistical_tests sr)) eqn:Ev.
  { apply rule_d; [lia | exact Hsz | now apply existsb_clears]. }
  assert (Hv : ~ Exists (clears 0.01) (get_statistical_tests sr)).
  { intros Hb. apply existsb_clears in Hb. congruence. }
  destruct (existsb (fun test => Qltb (pt_p_value test) 0.05 && _)
                    (get_statistical_tests sr)) eqn:Esig.
  - apply existsb_clears in Esig.
    destruct (5 <=? d)%Z eqn:E5; cbn [andb].
    + apply rule_e; [lia | exact Hsz | exact Hv | exact Esig | lia].
    + apply Z.leb_gt in E5.
      destruct (ab_test_duration_days ab_test <=? d)%Z eqn:Ed.
      * apply rule_f; [lia | exact Hsz | exact Hv | lia | lia].
      * apply rule_g; [lia | exact Hsz | exact Hv | lia | lia].
  - assert (Hn : ~ Exists (clears 0.05) (get_statistical_tests sr)).
    { intros Hb. apply existsb_clears in Hb. congruence. }
    cbn [andb].
    destruct (ab_test_duration_days ab_test <=? d)%Z eqn:Ed.
    + apply rule_f; [lia | exact Hsz | exact Hv | tauto | lia].
    + apply rule_g; [lia | exact Hsz | exact Hv | tauto | lia].
Qed.

(** A test without [started_at] has no day count: the four duration checks
    are skipped and only the sample size and the early-stopping rule decide. *)
Lemma should_stop_without_start (ab_test : ABTest) (sr : StatisticalResults) (now : Z) :
  ab_started_at ab_test = None ->
  Forall (fun kv => vr_sample_size (snd kv) = vr_impressions (snd kv))
         (get_variant_results sr) ->
  (below_minimum_sample ab_test (get_variant_results sr) ->
   fst (_should_stop_test ab_test sr now) = false)
  /\ (~ below_minimum_sample ab_test (get_variant_results sr) ->
      (Exists (clears 0.01) (get_statistical_tests sr) ->
       _should_stop_test ab_test sr now
       = (true, "Early stopping - very significant result"%string))
      /\ (~ Exists (clears 0.01) (get_statistical_tests sr) ->
          _should_stop_test ab_test sr now = (false, "Continue test"%string))).
Proof.
  intros Hnone Hs. unfold _should_stop_test, days_running. rewrite Hnone.
  pose proof (sample_size_not_met ab_test _ Hs) as Hsz.
  destruct (forallb _ (get_variant_results sr)); cbn [negb].
  - split; [intros Hb; apply Hsz in Hb; discriminate|].
    intros _. unfold early_stopping_threshold.
    pose proof (existsb_clears 0.01 (get_statistical_tests sr)) as Hv.
    destruct (existsb (fun test => Qltb (pt_p_value test) 0.01 && _)
                      (get_statistical_tests sr)).
    + split; [reflexivity|]. intros Hn. exfalso. apply Hn, Hv. reflexivity.
    + split; [intros He; apply Hv in He; discriminate|].
      intros _. now rewrite andb_false_r.
  - split; [reflexivity|]. intros Hn. exfalso. apply Hn, Hsz. reflexivity.
Qed.

(** The results that the analysis builds take the impression count as the
    sample size. *)
Lemma analysis_sample_size (M : MathLib) (test_data : list TestDatum)
    (test_type : string) (sr : StatisticalResults) :
  _perform_statistical_analysis M test_data test_type = Ret sr ->
  Forall (fun kv => vr_sample_size (snd kv) = vr_impressions (snd kv))
         (get_variant_results sr).
Proof.
  unfold _perform_statistical_analysis.
  destruct (length test_data <? 2)%nat.
  - intros [= <-]. constructor.
  - destruct (_perform_pairwise_tests M _ test_type); cbn; [|discriminate].
    intros [= <-]. cbn. apply List.Forall_forall. intros kv Hin.
    apply in_map_iff in Hin. destruct Hin as [x [<- _]]. reflexivity.
Qed.

End StopDecision.

(** A test that has run 6 days, with both variants above the minimum sample
    and one pairwise test at p = 0.03 with a lift of one third. *)
Definition ab_six_days : ABTest :=
  {| ab_id := 1; ab_campaign := 1; ab_name := "Spring - Headline Test";
     ab_test_type := "headline"; ab_confidence_level := 0.95;
     ab_minimum_sample_size := 5000; ab_test_duration_days := 7;
     ab_status := "running"; ab_winner_creative := None;
     ab_statistical_significance := None;
     ab_started_at := Some 0%Z; ab_completed_at := None |}.

Definition vr_of_counts (impressions clicks conversions : Z) : VariantResult :=
  aggregate_variant
    [{| td_creative_id := 0; td_creative_name := ""; td_variant_type := "";
        td_impressions := impressions; td_clicks := clicks;
        td_conversions := conversions; td_spend := 0; td_ctr := 0;
        td_conversion_rate := 0; td_cpc := 0; td_cpa := 0 |}].

Definition sr_six_days : StatisticalResults :=
  Analysis [("A"%string, vr_of_counts 10000 800 0); ("B"%string, vr_of_counts 10000 600 0)]
           [{| pt_variant_a := "A"; pt_variant_b := "B"; pt_metric := "ctr";
               pt_p_value := 0.03; pt_confidence_interval := None;
               pt_effect_size := 1 # 3; pt_winner := Some "A"%string;
               pt_is_significant := true |}]
           true.

(** A run of C1: six days in, rule e applies. *)
Lemma should_stop_follows_cascade_witness :
  stop_cascade 6 ab_six_days (get_variant_results sr_six_days)
               (get_statistical_tests sr_six_days)
               (_should_stop_test ab_six_days sr_six_days (6 * 86400 + 120))
  /\ _should_stop_test ab_six_days sr_six_days (6 * 86400 + 120)
     = (true, "Statistically significant result"%string).
Proof.
  split; [|reflexivity].
  apply (should_stop_follows_cascade ab_six_days
           (get_variant_results sr_six_days) (get_statistical_tests sr_six_days)
           true (6 * 86400 + 120) 0).
  - reflexivity.
  - repeat constructor.
Defined.

(** ** Pairwise tests and the metric they compare *)
Section PairwiseTests.

Variable M : MathLib.

(** Whatever the test type, the primary metric is one of the two that send
    the pair to the two-proportion test. *)
Lemma primary_metric_is_proportion (test_type : string) :
  str_in (primary_metric_of test_type) ["ctr"; "conversion_rate"] = true.
Proof.
  unfold primary_metric_of.
  destruct (str_in test_type _); [reflexivity|].
  destruct (String.eqb test_type "creative"); reflexivity.
Qed.

(** So every pairwise test is the two-proportion test on clicks and
    impressions, also when the metric it reports is the conversion rate. *)
Lemma pairwise_test_on_clicks (vrs : list (string * VariantResult))
    (test_type : string) (a b : string) :
  pairwise_test M vrs (primary_metric_of test_type) (a, b)
  = (data_a ← lookup_variant a vrs;
     data_b ← lookup_variant b vrs;
     test_result ← _two_proportion_z_test M (vr_clicks data_a) (vr_impressions data_a)
                                            (vr_clicks data_b) (vr_impressions data_b);
     Ret {| pt_variant_a := a; pt_variant_b := b;
            pt_metric := primary_metric_of test_type;
            pt_p_value := tr_p_value test_result;
            pt_confidence_interval := tr_confidence_interval test_result;
            pt_effect_size := tr_effect_size test_result;
            pt_winner := Some (tr_winner test_result);
            pt_is_significant := Qltb (tr_p_value test_result) significance_threshold |}).
Proof.
  unfold pairwise_test. rewrite primary_metric_is_proportion. reflexivity.
Qed.

Lemma mapM_ret_in {A B : Type} (f : A -> py B) (l : list A) (ys : list B) :
  mapM f l = Ret ys -> forall y, In y ys -> exists x, In x l /\ f x = Ret y.
Proof.
  revert ys. induction l as [|x r IH]; cbn; intros ys H y Hy.
  - injection H as <-. destruct Hy.
  - destruct (f x) as [y0|e] eqn:Ex; cbn in H; [|discriminate].
    destruct (mapM f r) as [ys0|e] eqn:Er; cbn in H; [|discriminate].
    injection H as <-. destruct Hy as [<-|Hy].
    + exists x. split; [now left | exact Ex].
    + destruct (IH ys0 eq_refl y Hy) as [x' [Hin Hx']].
      exists x'. split; [now right | exact Hx'].
Qed.

Lemma mapM_total {A B : Type} (f : A -> py B) (l : list A) :
  (forall x, In x l -> exists y, f x = Ret y) -> exists ys, mapM f l = Ret ys.
Proof.
  induction l as [|x r IH]; cbn; intros H.
  - now eexists.
  - destruct (H x (or_introl eq_refl)) as [y ->].
    destruct IH as [ys ->]; [intros x' Hx'; apply H; now right|].
    now eexists.
Qed.

Lemma index_pairs_in {A : Type} (l : list A) (a b : A) :
  In (a, b) (index_pairs l) -> In a l /\ In b l.
Proof.
  induction l as [|x r IH]; cbn; [tauto|].
  rewrite in_app_iff, in_map_iff.
  intros [[y [[= <- <-] Hy]] | H]; [tauto | destruct (IH H); tauto].
Qed.

Lemma lookup_variant_in (name : string) (vrs : list (string * VariantResult))
    (v : VariantResult) :
  lookup_variant name vrs = Ret v -> In (name, v) vrs.
Proof.
  unfold lookup_variant.
  destruct (find _ vrs) as [[k v']|] eqn:E; [|discriminate].
  intros [= <-]. apply find_some in E. destruct E as [Hin Hk].
  cbn in Hk. apply String.eqb_eq in Hk. now subst.
Qed.

Lemma lookup_variant_total (name : string) (vrs : list (string * VariantResult)) :
  In name (map fst vrs) -> exists v, lookup_variant name vrs = Ret v.
Proof.
  intros H. apply in_map_iff in H. destruct H as [[k v] [Hk Hin]]. cbn in Hk. subst k.
  unfold lookup_variant.
  destruct (find _ vrs) as [kv|] eqn:E; [now eexists|].
  exfalso. apply (find_none _ _ E) in Hin. cbn in Hin.
  now rewrite String.eqb_refl in Hin.
Qed.

End PairwiseTests.

(** ** Test data carry the campaign's totals *)
Section CampaignWideMetrics.

Variable M : MathLib.

(** Equal counts on both sides: no difference is found. *)
Lemma two_proportion_same (s t : Z) (r : TestResult) :
  _two_proportion_z_test M s t s t = Ret r ->
  tr_p_value r == 1 /\ tr_effect_size r == 0
  /\ (tr_winner r = "tie"%string \/ tr_winner r = "inconclusive"%string).
Proof.
  unfold _two_proportion_z_test.
  destruct ((t =? 0)%Z || (t =? 0)%Z).
  { intros [= <-]. cbn. repeat split; try reflexivity. now right. }
  destruct (pooled_se M s t s t) as [se|e]; py_step; [|discriminate].
  destruct (Qeq_bool se 0) eqn:Ese.
  { intros [= <-]. cbn. repeat split; try reflexivity. now right. }
  set (p := inject_Z s / inject_Z t).
  destruct (py_sqrt M _) as [sd|e]; py_step; [|discriminate].
  intros H. apply Ret_inj in H. subst r. cbn [tr_p_value tr_effect_size tr_winner].
  assert (Hz : Qabs ((p - p) / se) == 0).
  { assert (E : (p - p) / se == 0) by (unfold Qdiv; ring).
    rewrite E. reflexivity. }
  split; [|split].
  - assert (Hc : norm_cdf M (Qabs ((p - p) / se)) == 0.5).
    { transitivity (norm_cdf M 0); [apply norm_cdf_proper; exact Hz | apply norm_cdf_0]. }
    rewrite Hc. reflexivity.
  - destruct (Qgtb p 0); [|reflexivity].
    assert (E : Qabs (p - p) == 0).
    { assert (E0 : p - p == 0) by ring. rewrite E0. reflexivity. }
    rewrite E. unfold Qdiv. ring.
  - left. replace (Qgtb p p) with false; [reflexivity|].
    symmetry. apply Qgtb_le. apply Qle_refl.
Qed.

(** Equal counts on both sides: which of the two labels the result carries. *)
Lemma two_proportion_same_winner (s t : Z) (r : TestResult) :
  _two_proportion_z_test M s t s t = Ret r ->
  (t = 0%Z -> tr_winner r = "inconclusive"%string)
  /\ (t <> 0%Z ->
      exists se, pooled_se M s t s t = Ret se
        /\ (se == 0 -> tr_winner r = "inconclusive"%string)
        /\ (~ se == 0 -> tr_winner r = "tie"%string)).
Proof.
  unfold _two_proportion_z_test.
  destruct (t =? 0)%Z eqn:Et; cbn [orb].
  { apply Z.eqb_eq in Et. intros [= <-]. split; [reflexivity | contradiction]. }
  apply Z.eqb_neq in Et.
  destruct (pooled_se M s t s t) as [se|e]; py_step; [|discriminate].
  destruct (Qeq_bool se 0) eqn:Ese.
  { intros [= <-]. split; [contradiction|]. intros _. exists se.
    split; [reflexivity|]. split; [reflexivity|].
    intros Hn. apply Qeq_bool_iff in Ese. contradiction. }
  destruct (py_sqrt M _) as [sd|e]; py_step; [|discriminate].
  intros H. apply Ret_inj in H. subst r. cbn [tr_winner].
  split; [contradiction|]. intros _. exists se. split; [reflexivity|].
  replace (Qgtb (inject_Z s / inject_Z t) (inject_Z s / inject_Z t)) with false
    by (symmetry; apply Qgtb_le; apply Qle_refl).
  split; [|reflexivity].
  intros H0. apply Qeq_bool_iff in H0. congruence.
Qed.

(** Successes within trials on both sides: the test returns. *)
Lemma two_proportion_total (sa ta sb tb : Z) :
  (0 <= sa <= ta)%Z -> (0 <= sb <= tb)%Z ->
  exists r, _two_proportion_z_test M sa ta sb tb = Ret r.
Proof.
  intros Ha Hb. unfold _two_proportion_z_test.
  destruct (ta =? 0)%Z eqn:Eta; [now eexists|].
  destruct (tb =? 0)%Z eqn:Etb; [now eexists|]. cbn [orb].
  apply Z.eqb_neq in Eta, Etb.
  destruct (pooled_se_sound M sa ta sb tb Ha Hb) as [se [-> _]]; try lia. cbn.
  destruct (Qeq_bool se 0); [now eexists|].
  assert (Hpos : forall n, (0 < n)%Z -> 0 < inject_Z n).
  { intros n Hn. change 0 with (inject_Z 0). now rewrite <- Zlt_Qlt. }
  assert (Hfrac : forall s t, (0 <= s <= t)%Z -> (0 < t)%Z ->
            0 <= inject_Z s / inject_Z t * (1 - inject_Z s / inject_Z t) / inject_Z t).
  { intros s t Hs Ht. pose proof (Hpos t Ht) as Hti.
    assert (H0 : 0 <= inject_Z s / inject_Z t).
    { apply Qle_shift_div_l; [exact Hti|]. rewrite Qmult_0_l.
      change 0 with (inject_Z 0). rewrite <- Zle_Qle. lia. }
    assert (H1 : inject_Z s / inject_Z t <= 1).
    { apply Qle_shift_div_r; [exact Hti|]. rewrite Qmult_1_l.
      rewrite <- Zle_Qle. lia. }
    apply Qle_shift_div_l; [exact Hti|]. rewrite Qmult_0_l.
    apply Qmult_le_0_compat; lra. }
  rewrite py_sqrt_ret.
  - now eexists.
  - pose proof (Hfrac sa ta Ha ltac:(lia)). pose proof (Hfrac sb tb Hb ltac:(lia)). lra.
Qed.

(** *** Grouping by variant label *)

Definition has_label (label : string) (data : TestDatum) : bool :=
  String.eqb label (td_variant_type data).

(** The number of creatives under a label. *)
Definition count_label (label : string) (test_data : list TestDatum) : nat :=
  length (List.filter (has_label label) test_data).

(** What the dict of lists holds after the data [seen]: under each key the
    data with that label, in order, and a key for every label seen. *)
Definition grouped (seen : list TestDatum) (variants : list (string * list TestDatum))
    : Prop :=
  (forall k ds, In (k, ds) variants -> ds = List.filter (has_label k) seen)
  /\ (forall d, In d seen -> In (td_variant_type d) (map fst variants)).

Lemma group_append_keys (v : string) (d : TestDatum) variants :
  forall k, In k (map fst (group_append v d variants))
            <-> In k (map fst variants) \/ k = v.
Proof.
  induction variants as [|[k0 ds0] r IH]; cbn; intros k.
  - intuition congruence.
  - destruct (String.eqb k0 v) eqn:E; cbn.
    + apply String.eqb_eq in E. subst. intuition congruence.
    + rewrite IH. tauto.
Qed.

Lemma filter_snoc_label (k : string) (seen : list TestDatum) (d : TestDatum) :
  List.filter (has_label k) (seen ++ [d])
  = List.filter (has_label k) seen ++ (if has_label k d then [d] else []).
Proof. now rewrite List.filter_app. Qed.

Lemma group_append_nodup (v : string) (d : TestDatum) variants :
  List.NoDup (map fst variants) -> List.NoDup (map fst (group_append v d variants)).
Proof.
  induction variants as [|[k0 ds0] r IH]; cbn; intros H.
  - constructor; [intros [] | constructor].
  - inversion H as [|? ? Hnot Hr]; subst.
    destruct (String.eqb k0 v) eqn:E; cbn.
    + constructor; assumption.
    + constructor; [|now apply IH].
      rewrite group_append_keys. intros [Hin | ->]; [contradiction|].
      now rewrite String.eqb_refl in E.
Qed.

Lemma group_append_step (seen : list TestDatum) (d : TestDatum) variants :
  List.NoDup (map fst variants) ->
  (forall k ds, In (k, ds) variants -> ds = List.filter (has_label k) seen) ->
  (~ In (td_variant_type d) (map fst variants) ->
   List.filter (has_label (td_variant_type d)) seen = []) ->
  forall k ds, In (k, ds) (group_append (td_variant_type d) d variants) ->
    ds = List.filter (has_label k) (seen ++ [d]).
Proof.
  induction variants as [|[k0 ds0] r IH]; cbn; intros Hnd Hent Hnew k ds Hin.
  - destruct Hin as [[= <- <-]|[]].
    rewrite filter_snoc_label, Hnew by tauto.
    unfold has_label. now rewrite String.eqb_refl.
  - inversion Hnd as [|? ? Hnot Hr]; subst.
    destruct (String.eqb k0 (td_variant_type d)) eqn:E.
    + apply String.eqb_eq in E. subst k0.
      destruct Hin as [[= <- <-]|Hin].
      * rewrite filter_snoc_label, <- (Hent _ ds0) by now left.
        unfold has_label. now rewrite String.eqb_refl.
      * rewrite filter_snoc_label, <- (Hent _ ds) by now right.
        replace (has_label k d) with false; [now rewrite app_nil_r|].
        symmetry. apply String.eqb_neq. intros ->.
        apply Hnot. apply in_map_iff. now exists (td_variant_type d, ds).
    + destruct Hin as [[= <- <-]|Hin].
      * rewrite filter_snoc_label, <- (Hent _ ds0) by now left.
        unfold has_label. now rewrite E, app_nil_r.
      * apply IH; try assumption.
        -- intros k' ds' H'. apply Hent. now right.
        -- intros Hn. apply Hnew. intros [->|H']; [|contradiction].
           now rewrite String.eqb_refl in E.
Qed.

Lemma group_append_grouped (seen : list TestDatum) (d : TestDatum) variants :
  List.NoDup (map fst variants) -> grouped seen variants ->
  grouped (seen ++ [d]) (group_append (td_variant_type d) d variants).
Proof.
  intros Hnd [Hent Hkeys]. split.
  - apply group_append_step; try assumption.
    intros Hn. destruct (List.filter _ seen) as [|x l] eqn:E; [reflexivity|].
    exfalso. assert (Hx : In x (List.filter (has_label (td_variant_type d)) seen))
      by (rewrite E; now left).
    apply filter_In in Hx. destruct Hx as [Hx Hl].
    apply String.eqb_eq in Hl. apply Hn. rewrite Hl. now apply Hkeys.
  - intros d' Hd'. rewrite group_append_keys.
    apply in_app_iff in Hd'. destruct Hd' as [Hd'|[<-|[]]]; [left; now apply Hkeys | now right].
Qed.

Lemma group_fold_grouped (test_data seen : list TestDatum) variants :
  List.NoDup (map fst variants) -> grouped seen variants ->
  let result := fold_left (fun variants data =>
                  group_append (td_variant_type data) data variants) test_data variants in
  List.NoDup (map fst result) /\ grouped (seen ++ test_data) result.
Proof.
  revert seen variants. induction test_data as [|d r IH]; cbn; intros seen variants Hnd Hg.
  - now rewrite app_nil_r.
  - replace (seen ++ d :: r) with ((seen ++ [d]) ++ r) by now rewrite <- app_assoc.
    apply IH; [now apply group_append_nodup | now apply group_append_grouped].
Qed.

(** Under each key of the dict are exactly the data with that label. *)
Lemma group_by_variant_spec (test_data : list TestDatum) :
  List.NoDup (map fst (group_by_variant test_data))
  /\ grouped test_data (group_by_variant test_data).
Proof.
  apply (group_fold_grouped test_data [] []); [constructor|].
  split; [intros k ds [] | intros d []].
Qed.

(** *** Every creative gets the same numbers *)

(** Two entries of the test data differ in the creative only. *)
Lemma get_test_data_uniform (db : DB) (ab_test : ABTest) (now : Z) :
  forall d1 d2,
    In d1 (_get_test_data db ab_test now) -> In d2 (_get_test_data db ab_test now) ->
    td_impressions d1 = td_impressions d2 /\ td_clicks d1 = td_clicks d2
    /\ td_conversions d1 = td_conversions d2 /\ td_spend d1 = td_spend d2.
Proof.
  unfold _get_test_data. intros d1 d2 H1 H2.
  apply in_map_iff in H1, H2.
  destruct H1 as [c1 [<- _]], H2 as [c2 [<- _]]. cbn. tauto.
Qed.

Lemma sumZ_constant {A : Type} (f : A -> Z) (c : Z) (l : list A) :
  (forall x, In x l -> f x = c) -> sumZ (map f l) = (Z.of_nat (length l) * c)%Z.
Proof.
  induction l as [|x r IH]; intros H.
  - reflexivity.
  - cbn [map sumZ fold_right length]. fold (sumZ (map f r)).
    rewrite IH by (intros y Hy; apply H; now right).
    rewrite (H x) by now left. lia.
Qed.

(** The aggregate under a label is the label's size times the per-creative
    numbers. *)
Lemma variant_result_scaled (test_data : list TestDatum) (I C : Z)
    (k : string) (v : VariantResult) :
  (forall d, In d test_data -> td_impressions d = I /\ td_clicks d = C) ->
  In (k, v) (map (fun kv => (fst kv, aggregate_variant (snd kv)))
                 (group_by_variant test_data)) ->
  vr_impressions v = (Z.of_nat (count_label k test_data) * I)%Z
  /\ vr_clicks v = (Z.of_nat (count_label k test_data) * C)%Z.
Proof.
  intros Hu Hin. apply in_map_iff in Hin. destruct Hin as [[k' ds] [E Hin]].
  cbn in E. injection E as -> <-.
  destruct (group_by_variant_spec test_data) as [_ [Hent _]].
  apply Hent in Hin. unfold count_label. rewrite <- Hin.
  assert (Hds : forall d, In d ds -> td_impressions d = I /\ td_clicks d = C).
  { intros d Hd. apply Hu. rewrite Hin in Hd. now apply filter_In in Hd. }
  cbn [aggregate_variant vr_impressions vr_clicks]. split.
  - apply sumZ_constant. intros d Hd. now apply Hds.
  - apply sumZ_constant. intros d Hd. now apply Hds.
Qed.

(** What one entry of [statistical_tests] is made of. *)
Lemma statistical_test_inv (vrs : list (string * VariantResult)) (test_type : string)
    (tests : list PairTest) (t : PairTest) :
  _perform_pairwise_tests M vrs test_type = Ret tests -> In t tests ->
  exists va vb r,
    In (pt_variant_a t, va) vrs /\ In (pt_variant_b t, vb) vrs
    /\ _two_proportion_z_test M (vr_clicks va) (vr_impressions va)
                                (vr_clicks vb) (vr_impressions vb) = Ret r
    /\ pt_p_value t = tr_p_value r /\ pt_effect_size t = tr_effect_size r
    /\ pt_winner t = Some (tr_winner r)
    /\ pt_is_significant t = Qltb (tr_p_value r) significance_threshold
    /\ pt_metric t = primary_metric_of test_type.
Proof.
  unfold _perform_pairwise_tests. intros Hm Hin.
  destruct (mapM_ret_in _ _ _ Hm t Hin) as [[a b] [_ Ht]].
  rewrite pairwise_test_on_clicks in Ht.
  destruct (lookup_variant a vrs) as [va|e] eqn:Ea; py_step; cbn in Ht; [|discriminate].
  destruct (lookup_variant b vrs) as [vb|e] eqn:Eb; py_step; cbn in Ht; [|discriminate].
  destruct (_two_proportion_z_test M _ _ _ _) as [r|e] eqn:Er; cbn in Ht; [|discriminate].
  apply Ret_inj in Ht. subst t. cbn.
  exists va, vb, r. repeat split; try reflexivity.
  - now apply lookup_variant_in.
  - now apply lookup_variant_in.
  - exact Er.
Qed.

Lemma declare_no_winner (ab_test : ABTest) (sr : StatisticalResults) :
  (forall t, In t (get_statistical_tests sr) -> pt_is_significant t = false) ->
  w_winner (_declare_winner ab_test sr) = None.
Proof.
  intros H. unfold _declare_winner.
  destruct (List.filter pt_is_significant (get_statistical_tests sr)) as [|t r] eqn:E.
  - reflexivity.
  - assert (Hin : In t (List.filter pt_is_significant (get_statistical_tests sr)))
      by (rewrite E; now left).
    apply filter_In in Hin. destruct Hin as [Hin Hs]. rewrite (H t Hin) in Hs. discriminate.
Qed.

(** C2 (amended). [_get_test_data] gives every creative of the test the same
    campaign-wide numbers.  So, in the analysis of these data, two variant
    labels with the same number of creatives have equal aggregated clicks and
    impressions; a pairwise test between them has p-value 1 and is not
    significant; its winner is 'inconclusive' when the aggregated
    impressions of the label are 0 or the pooled standard error that the
    test computes from the label's clicks and impressions is 0, and 'tie'
    otherwise; and when every tested pair has equal sizes, no winner is
    declared. *)
Theorem equal_labels_show_no_winner (db : DB) (ab_test : ABTest) (now : Z)
    (sr : StatisticalResults) :
  let test_data := _get_test_data db ab_test now in
  _perform_statistical_analysis M test_data (ab_test_type ab_test) = Ret sr ->
  (forall d1 d2, In d1 test_data -> In d2 test_data ->
     td_impressions d1 = td_impressions d2 /\ td_clicks d1 = td_clicks d2
     /\ td_conversions d1 = td_conversions d2)
  /\ (forall a b va vb,
        In (a, va) (get_variant_results sr) -> In (b, vb) (get_variant_results sr) ->
        count_label a test_data = count_label b test_data ->
        vr_clicks va = vr_clicks vb /\ vr_impressions va = vr_impressions vb)
  /\ (forall t, In t (get_statistical_tests sr) ->
        count_label (pt_variant_a t) test_data = count_label (pt_variant_b t) test_data ->
        pt_p_value t == 1 /\ pt_is_significant t = false
        /\ exists v, In (pt_variant_a t, v) (get_variant_results sr)
           /\ (vr_impressions v = 0%Z -> pt_winner t = Some "inconclusive"%string)
           /\ (vr_impressions v <> 0%Z ->
               exists se,
                 pooled_se M (vr_clicks v) (vr_impressions v)
                             (vr_clicks v) (vr_impressions v) = Ret se
                 /\ (se == 0 -> pt_winner t = Some "inconclusive"%string)
                 /\ (~ se == 0 -> pt_winner t = Some "tie"%string)))
  /\ ((forall t, In t (get_statistical_tests sr) ->
         count_label (pt_variant_a t) test_data = count_label (pt_variant_b t) test_data) ->
      w_winner (_declare_winner ab_test sr) = None).
Proof.
  intros test_data Hsr.
  assert (Hu : forall d1 d2, In d1 test_data -> In d2 test_data ->
     td_impressions d1 = td_impressions d2 /\ td_clicks d1 = td_clicks d2
     /\ td_conversions d1 = td_conversions d2).
  { intros d1 d2 H1 H2.
    destruct (get_test_data_uniform db ab_test now d1 d2 H1 H2) as (?&?&?&?). tauto. }
  assert (Hc : exists I C, forall d, In d test_data ->
                 td_impressions d = I /\ td_clicks d = C).
  { destruct test_data as [|d0 r] eqn:E.
    - exists 0%Z, 0%Z. intros d [].
    - exists (td_impressions d0), (td_clicks d0). intros d Hd.
      destruct (Hu d d0 Hd (or_introl eq_refl)) as (?&?&?). tauto. }
  destruct Hc as [I [C Hc]].
  unfold _perform_statistical_analysis in Hsr.
  destruct (length test_data <? 2)%nat.
  { apply Ret_inj in Hsr. subst sr. cbn.
    split; [exact Hu|]. split; [intros ? ? ? ? []|].
    split; [intros ? []|]. reflexivity. }
  set (vrs := map (fun kv => (fst kv, aggregate_variant (snd kv)))
                  (group_by_variant test_data)) in Hsr.
  destruct (_perform_pairwise_tests M vrs (ab_test_type ab_test)) as [tests|e] eqn:Et;
    py_step; cbn in Hsr; [|discriminate].
  apply Ret_inj in Hsr. subst sr. cbn [get_variant_results get_statistical_tests].
  assert (Hlab : forall a b va vb, In (a, va) vrs -> In (b, vb) vrs ->
            count_label a test_data = count_label b test_data ->
            vr_clicks va = vr_clicks vb /\ vr_impressions va = vr_impressions vb).
  { intros a b va vb Ha Hb Hn.
    destruct (variant_result_scaled test_data I C a va Hc Ha) as [Hia Hca].
    destruct (variant_result_scaled test_data I C b vb Hc Hb) as [Hib Hcb].
    rewrite Hia, Hca, Hib, Hcb, Hn. tauto. }
  assert (Htest : forall t, In t tests ->
            count_label (pt_variant_a t) test_data = count_label (pt_variant_b t) test_data ->
            pt_p_value t == 1 /\ pt_is_significant t = false
            /\ exists v, In (pt_variant_a t, v) vrs
               /\ (vr_impressions v = 0%Z -> pt_winner t = Some "inconclusive"%string)
               /\ (vr_impressions v <> 0%Z ->
                   exists se,
                     pooled_se M (vr_clicks v) (vr_impressions v)
                                 (vr_clicks v) (vr_impressions v) = Ret se
                     /\ (se == 0 -> pt_winner t = Some "inconclusive"%string)
                     /\ (~ se == 0 -> pt_winner t = Some "tie"%string))).
  { intros t Ht Hn.
    destruct (statistical_test_inv vrs _ tests t Et Ht)
      as (va & vb & r & Ha & Hb & Hr & Hp & _ & Hw & Hs & _).
    destruct (Hlab _ _ _ _ Ha Hb Hn) as [Ec Ei]. rewrite <- Ec, <- Ei in Hr.
    destruct (two_proportion_same _ _ _ Hr) as (Hp1 & _ & _).
    destruct (two_proportion_same_winner _ _ _ Hr) as [Hw0 Hw1].
    rewrite Hp, Hs, Hw. split; [exact Hp1|]. split.
    - apply Qltb_ge. rewrite Hp1. unfold significance_threshold. lra.
    - exists va. split; [exact Ha|]. split.
      + intros H0. now rewrite (Hw0 H0).
      + intros H0. destruct (Hw1 H0) as (se & Ese & Hz & Hnz).
        exists se. split; [exact Ese|].
        split; intros H; [rewrite (Hz H) | rewrite (Hnz H)]; reflexivity. }
  split; [exact Hu|]. split; [exact Hlab|]. split; [exact Htest|].
  intros Hall. apply declare_no_winner. cbn [get_statistical_tests].
  intros t Ht. now destruct (Htest t Ht (Hall t Ht)) as (_ & H & _).
Qed.

(** The analysis returns (it does not raise) when the campaign's clicks are
    non-negative and within its impressions. *)
Lemma analysis_returns (test_data : list TestDatum) (test_type : string) (I C : Z) :
  (forall d, In d test_data -> td_impressions d = I /\ td_clicks d = C) ->
  (0 <= C <= I)%Z ->
  exists sr, _perform_statistical_analysis M test_data test_type = Ret sr.
Proof.
  intros Hu Hci. unfold _perform_statistical_analysis.
  destruct (length test_data <? 2)%nat; [now eexists|].
  set (vrs := map (fun kv => (fst kv, aggregate_variant (snd kv)))
                  (group_by_variant test_data)).
  assert (Hm : exists tests, _perform_pairwise_tests M vrs test_type = Ret tests).
  { unfold _perform_pairwise_tests. apply mapM_total. intros [a b] Hab.
    apply index_pairs_in in Hab. destruct Hab as [Ha Hb].
    rewrite pairwise_test_on_clicks.
    destruct (lookup_variant_total a vrs Ha) as [va Eva].
    destruct (lookup_variant_total b vrs Hb) as [vb Evb].
    rewrite Eva, Evb. py_step.
    destruct (variant_result_scaled test_data I C a va Hu (lookup_variant_in _ _ _ Eva))
      as [Hia Hca].
    destruct (variant_result_scaled test_data I C b vb Hu (lookup_variant_in _ _ _ Evb))
      as [Hib Hcb].
    destruct (two_proportion_total (vr_clicks va) (vr_impressions va)
                                   (vr_clicks vb) (vr_impressions vb)) as [r ->].
    - rewrite Hia, Hca. nia.
    - rewrite Hib, Hcb. nia.
    - py_step. now eexists. }
  destruct Hm as [tests ->]. py_step. now eexists.
Qed.

End CampaignWideMetrics.

(** *** A two-variant headline test on concrete data *)

Definition creative_named (id : Z) (ad_set : Z) (name : string) (created_at : Z)
    : AdCreative :=
  {| cr_id := id; cr_ad_set := ad_set; cr_name := name;
     cr_creative_type := "text"; cr_headline := "Test Headline";
     cr_description := "Test Description"; cr_call_to_action := "Learn More";
     cr_destination_url := "https://example.com"; cr_image_url := "";
     cr_video_url := ""; cr_ai_confidence_score := 0.8;
     cr_is_winner := false; cr_is_active := true; cr_created_at := created_at |}.

Definition ad_set_of (id campaign : Z) (platform : string) (budget : Q) : AdSet :=
  {| as_id := id; as_campaign := campaign; as_platform := platform;
     as_name := "Spring - " ++ platform; as_allocated_budget := budget |}.

Definition analytics_row (campaign : Z) (ad_set : option Z) (date : Z)
    (impressions clicks conversions : Z) (spend revenue : Q) : CampaignAnalytics :=
  {| an_campaign := campaign; an_ad_set := ad_set; an_date := date;
     an_impressions := impressions; an_clicks := clicks;
     an_conversions := conversions; an_spend := spend; an_revenue := revenue |}.

(** One campaign, one ad set, the two creatives of a running test; the
    analytics table is a parameter. *)
Definition db_two_variants (rows : list CampaignAnalytics) : DB :=
  {| adsets := [ad_set_of 1 1 "google" 1000];
     creatives := [creative_named 1 1 "Spring - Headline Test - Variant 1" 60;
                   creative_named 2 1 "Spring - Headline Test - Variant 2" 60];
     abtests := [ab_six_days];
     analytics := rows;
     optimizations := [] |}.

Definition four_days : Z := 4 * 86400.

(** On the first days of a test there may be no analytics yet: the test
    between A and B is then 'inconclusive', not 'tie'. *)
Definition sr_no_traffic : StatisticalResults :=
  Eval vm_compute in
    match _perform_statistical_analysis ref_math
            (_get_test_data (db_two_variants []) ab_six_days four_days) "headline" with
    | Ret sr => sr
    | Raise _ => AnalysisError ""
    end.

(** C2 as stated: between labels of equal size every pairwise test returns
    winner 'tie' with p-value 1. *)
Definition equal_labels_always_tie : Prop :=
  forall (M : MathLib) (db : DB) (ab_test : ABTest) (now : Z)
         (sr : StatisticalResults) (t : PairTest),
    let test_data := _get_test_data db ab_test now in
    _perform_statistical_analysis M test_data (ab_test_type ab_test) = Ret sr ->
    In t (get_statistical_tests sr) ->
    count_label (pt_variant_a t) test_data = count_label (pt_variant_b t) test_data ->
    pt_winner t = Some "tie"%string /\ pt_p_value t == 1.

(** C2, counterexample: with no impressions recorded, the test between the
    two one-creative labels has winner 'inconclusive'. *)
Lemma equal_labels_not_always_tie : ~ equal_labels_always_tie.
Proof.
  intros H.
  assert (E : _perform_statistical_analysis ref_math
                (_get_test_data (db_two_variants []) ab_six_days four_days)
                (ab_test_type ab_six_days) = Ret sr_no_traffic)
    by (vm_compute; reflexivity).
  destruct (get_statistical_tests sr_no_traffic) as [|t r] eqn:Et;
    [vm_compute in Et; discriminate|].
  assert (Hin : In t (get_statistical_tests sr_no_traffic)) by (rewrite Et; now left).
  vm_compute in Et. injection Et as <- _.
  destruct (H ref_math _ _ _ _ _ E Hin) as [Hw _]; [vm_compute; reflexivity|].
  vm_compute in Hw. discriminate.
Qed.

(** With traffic: 10000 impressions and 700 clicks in the window. *)
Definition rows_with_traffic : list CampaignAnalytics :=
  [analytics_row 1 (Some 1%Z) 1 4000 300 20 50 120;
   analytics_row 1 (Some 1%Z) 2 6000 400 30 70 180].

Definition sr_with_traffic : StatisticalResults :=
  Eval vm_compute in
    match _perform_statistical_analysis ref_math
            (_get_test_data (db_two_variants rows_with_traffic) ab_six_days four_days)
            "headline" with
    | Ret sr => sr
    | Raise _ => AnalysisError ""
    end.

(** A run of C2 (amended): A and B get the same 10000 impressions and 700
    clicks, their test is a tie, and no winner is declared. *)
Lemma equal_labels_show_no_winner_witness :
  _perform_statistical_analysis ref_math
    (_get_test_data (db_two_variants rows_with_traffic) ab_six_days four_days)
    (ab_test_type ab_six_days) = Ret sr_with_traffic
  /\ map pt_winner (get_statistical_tests sr_with_traffic) = [Some "tie"%string]
  /\ w_winner (_declare_winner ab_six_days sr_with_traffic) = None.
Proof.
  assert (E : _perform_statistical_analysis ref_math
    (_get_test_data (db_two_variants rows_with_traffic) ab_six_days four_days)
    (ab_test_type ab_six_days) = Ret sr_with_traffic) by (vm_compute; reflexivity).
  split; [exact E|]. split; [reflexivity|].
  apply (equal_labels_show_no_winner ref_math _ _ _ _ E).
  intros t [<-|[]]. vm_compute. reflexivity.
Defined.

(** ** The metric of a creative test *)

(** Two variants with the same clicks and impressions and different
    conversions. *)
Definition creative_variants : list (string * VariantResult) :=
  [("A"%string, vr_of_counts 1000 100 50); ("B"%string, vr_of_counts 1000 100 10)].

(** The test on conversions over clicks, which the specification asks for. *)
Definition conversion_rate_test (M : MathLib) (data_a data_b : VariantResult)
    : py TestResult :=
  _two_proportion_z_test M (vr_conversions data_a) (vr_clicks data_a)
                           (vr_conversions data_b) (vr_clicks data_b).

(** C6, at the failing input: for a test of type 'creative' the entry
    reports the metric 'conversion_rate', but it is the test on clicks over
    impressions (a tie with p-value 1 here), while the test on conversions
    over clicks finds A ahead of B with p < 0.05. *)
Theorem creative_test_compares_clicks :
  (exists t,
     _perform_pairwise_tests ref_math creative_variants "creative" = Ret [t]
     /\ pt_metric t = "conversion_rate"%string
     /\ pt_winner t = Some "tie"%string /\ pt_p_value t == 1
     /\ (exists r, _two_proportion_z_test ref_math 100 1000 100 1000 = Ret r
                   /\ pt_p_value t = tr_p_value r /\ pt_winner t = Some (tr_winner r)))
  /\ (exists r,
        conversion_rate_test ref_math (vr_of_counts 1000 100 50) (vr_of_counts 1000 100 10)
        = Ret r
        /\ tr_winner r = "A"%string /\ tr_p_value r < 0.05).
Proof.
  split.
  - destruct (_perform_pairwise_tests ref_math creative_variants "creative")
      as [[|t [|t' r']]|e] eqn:E; try (vm_compute in E; discriminate).
    exists t. split; [reflexivity|].
    destruct (_two_proportion_z_test ref_math 100 1000 100 1000) as [r|e] eqn:Er;
      [|vm_compute in Er; discriminate].
    vm_compute in E. apply Ret_inj in E. injection E as <-.
    vm_compute in Er. apply Ret_inj in Er. subst r.
    split; [reflexivity|]. split; [reflexivity|]. split; [reflexivity|].
    eexists. split; [reflexivity|]. split; reflexivity.
  - destruct (conversion_rate_test ref_math _ _) as [r|e] eqn:Er;
      [|vm_compute in Er; discriminate].
    exists r. split; [reflexivity|].
    vm_compute in Er. apply Ret_inj in Er. subst r.
    split; [reflexivity|]. vm_compute. reflexivity.
Qed.

(** ** Requests for analysis *)
Section AnalysisRequests.

Variable M : MathLib.

(** The answer to a request that is refused because of the test's status. *)
Definition refused_for_status (ab_test : ABTest) : AnalysisResult :=
  AFailure ("Test is not running (status: " ++ ab_status ab_test ++ ")").

(** C9 as stated: a request on a draft or a running test is accepted. *)
Definition draft_and_running_accepted : Prop :=
  forall (M : MathLib) (db : DB) (ab_test : ABTest) (now : Z),
    ab_status ab_test = "draft"%string \/ ab_status ab_test = "running"%string ->
    snd (run_ab_test_analysis M db ab_test now) <> refused_for_status ab_test.

Lemma finalize_not_refused (db : DB) (ab_test : ABTest) (sr : StatisticalResults)
    (w : WinnerResult) (stop_reason : string) (now : Z) :
  forall reason, snd (_finalize_test db ab_test sr w stop_reason now) <> AFailure reason.
Proof.
  intros reason. unfold _finalize_test.
  destruct (if has_winner w then _ else _) as [found|e]; cbn; [|discriminate].
  destruct found as [c|]; destruct (_pause_losing_variants _ _ w); cbn; discriminate.
Qed.

(** C9 (amended). [run_ab_test_analysis] accepts a request only when the
    status is 'running': then the answer is never the status refusal.  For
    any other status (draft, completed, cancelled) it returns the failure
    result 'Test is not running (status: ...)' and changes neither the
    database nor the test. *)
Theorem analysis_only_when_running (db : DB) (ab_test : ABTest) (now : Z) :
  (ab_status ab_test <> "running"%string ->
   run_ab_test_analysis M db ab_test now = (db, ab_test, refused_for_status ab_test))
  /\ (ab_status ab_test = "running"%string ->
      snd (run_ab_test_analysis M db ab_test now) <> refused_for_status ab_test).
Proof.
  unfold run_ab_test_analysis, refused_for_status. split.
  - intros H. cbn [str_in existsb].
    apply String.eqb_neq in H. rewrite H. reflexivity.
  - intros H. rewrite H. cbn [str_in existsb String.eqb Ascii.eqb Bool.eqb orb negb].
    destruct (length _ <? 2)%nat; [cbn; discriminate|].
    destruct (_perform_statistical_analysis M _ _) as [sr|e]; [|cbn; discriminate].
    destruct (_should_stop_test ab_test sr now) as [[|] stop_reason].
    + apply finalize_not_refused.
    + cbn. discriminate.
Qed.

End AnalysisRequests.

(** A draft test, as [create_automated_ab_test] leaves it before the launch. *)
Definition ab_draft : ABTest :=
  {| ab_id := 1; ab_campaign := 1; ab_name := "Spring - Headline Test";
     ab_test_type := "headline"; ab_confidence_level := 0.95;
     ab_minimum_sample_size := 100; ab_test_duration_days := 7;
     ab_status := "draft"; ab_winner_creative := None;
     ab_statistical_significance := None;
     ab_started_at := None; ab_completed_at := None |}.

(** C9, counterexample: the request on a draft test is refused. *)
Lemma draft_request_refused : ~ draft_and_running_accepted.
Proof.
  intros H.
  apply (H ref_math (db_two_variants []) ab_draft four_days); [now left|].
  reflexivity.
Qed.

(** A run of C9 (amended) on the draft test and on the running one. *)
Lemma analysis_only_when_running_witness :
  run_ab_test_analysis ref_math (db_two_variants []) ab_draft four_days
  = (db_two_variants [], ab_draft,
     AFailure "Test is not running (status: draft)")
  /\ snd (run_ab_test_analysis ref_math (db_two_variants []) ab_six_days four_days)
     <> refused_for_status ab_six_days.
Proof.
  split.
  - apply (proj1 (analysis_only_when_running ref_math (db_two_variants [])
                    ab_draft four_days)).
    cbn. discriminate.
  - apply (proj2 (analysis_only_when_running ref_math (db_two_variants [])
                    ab_six_days four_days)).
    reflexivity.
Defined.

(** ** Validation of a test configuration *)
Section Validation.

Lemma str_in_In (s : string) (l : list string) : str_in s l = true <-> In s l.
Proof.
  unfold str_in. rewrite existsb_exists. split.
  - intros [x [Hin Hx]]. apply String.eqb_eq in Hx. now subst.
  - intros H. exists s. split; [exact H | apply String.eqb_refl].
Qed.

(** The test types that the validation lets through. *)
Definition accepted_test_types : list string :=
  ["headline"; "description"; "cta"; "creative"]%string.

(** C10 as stated: each of the five model types passes with two variants. *)
Definition five_types_accepted : Prop :=
  forall (config : TestConfig) (test_type : string) (variants : list Variant),
    cfg_test_type config = value test_type -> In test_type TEST_TYPE_CHOICES ->
    cfg_variants config = Some variants -> (2 <= length variants)%nat ->
    _validate_test_config config = Valid.

(** C10 (amended). The validation accepts a configuration exactly when its
    test type is one of headline, description, cta, creative and it has at
    least two variants; 'audience' is rejected as an invalid test type; and
    on a rejected configuration [create_automated_ab_test] returns the
    validation error and leaves the database as it was. *)
Theorem validation_accepts_four_types (config : TestConfig) :
  (_validate_test_config config = Valid <->
   exists test_type variants,
     cfg_test_type config = value test_type /\ cfg_variants config = Some variants
     /\ In test_type accepted_test_types /\ (2 <= length variants)%nat)
  /\ (forall variants, cfg_test_type config = value "audience"%string ->
        cfg_variants config = Some variants ->
        _validate_test_config config = Invalid "Invalid test type")
  /\ (forall error db campaign t_create t_start,
        _validate_test_config config = Invalid error ->
        create_automated_ab_test db campaign config t_create t_start
        = (db, CFailure error)).
Proof.
  split; [|split].
  - unfold _validate_test_config.
    destruct (cfg_test_type config) as [| |ty].
    { split; [discriminate|]. intros (? & ? & ? & _). discriminate. }
    { split; [destruct (cfg_variants config); discriminate|].
      intros (? & ? & ? & _). discriminate. }
    destruct (cfg_variants config) as [vs|]; [|split; [discriminate|]].
    2:{ intros (? & ? & _ & ? & _). discriminate. }
    cbn [entry_in]. destruct (str_in ty _) eqn:Ety; cbn [negb].
    + apply str_in_In in Ety.
      destruct (length vs <? 2)%nat eqn:El.
      * apply Nat.ltb_lt in El. split; [discriminate|].
        intros (? & ? & _ & [= <-] & _ & ?). lia.
      * apply Nat.ltb_ge in El. split; [|reflexivity].
        intros _. exists ty, vs. tauto.
    + split; [discriminate|].
      intros (? & ? & [= <-] & _ & Hin & _).
      apply str_in_In in Hin. unfold accepted_test_types in Hin. congruence.
  - intros variants Hty Hvs. unfold _validate_test_config. rewrite Hty, Hvs. reflexivity.
  - intros error db campaign t_create t_start H.
    unfold create_automated_ab_test. rewrite H. reflexivity.
Qed.

End Validation.

Definition plain_variant (headline : string) : Variant :=
  {| v_creative_type := absent; v_headline := value headline;
     v_description := absent; v_call_to_action := absent;
     v_destination_url := absent; v_image_url := absent;
     v_video_url := absent; v_confidence_score := absent |}.

Definition config_of (test_type : string) : TestConfig :=
  {| cfg_test_type := value test_type;
     cfg_variants := Some [plain_variant "Save 20% today"; plain_variant "Spring sale"];
     cfg_traffic_split := None; cfg_min_sample_size := None;
     cfg_duration_days := None |}.

Definition spring_campaign : Campaign :=
  {| c_id := 1; c_name := "Spring"; c_total_budget := 2000 |}.

(** C10, counterexample: an audience test with two variants is rejected. *)
Lemma audience_test_rejected : ~ five_types_accepted.
Proof.
  intros H.
  assert (E : _validate_test_config (config_of "audience") = Valid).
  { apply (H (config_of "audience") "audience"%string
             [plain_variant "Save 20% today"; plain_variant "Spring sale"]).
    - reflexivity.
    - cbn. tauto.
    - reflexivity.
    - cbn. lia. }
  discriminate E.
Qed.

(** A run of C10 (amended): a headline test is accepted, an audience test is
    not and creates nothing. *)
Lemma validation_accepts_four_types_witness :
  _validate_test_config (config_of "headline") = Valid
  /\ _validate_test_config (config_of "audience") = Invalid "Invalid test type"
  /\ create_automated_ab_test (db_two_variants []) spring_campaign
       (config_of "audience") 0%Z 0%Z
     = (db_two_variants [], CFailure "Invalid test type").
Proof.
  split; [|split].
  - apply (proj1 (validation_accepts_four_types (config_of "headline"))).
    eexists _, _. split; [reflexivity|]. split; [reflexivity|].
    split; [cbn; tauto | cbn; lia].
  - now apply (proj1 (proj2 (validation_accepts_four_types (config_of "audience")))
                 [plain_variant "Save 20% today"; plain_variant "Spring sale"]).
  - now apply (proj2 (proj2 (validation_accepts_four_types (config_of "audience")))).
Defined.

(** ** A launch that fails *)
Section LaunchFailure.

Lemma fresh_id_above (ids : list Z) : forall x, In x ids -> (x < fresh_id ids)%Z.
Proof.
  unfold fresh_id. induction ids as [|y r IH]; cbn; intros x H; [destruct H|].
  destruct H as [<-|H]; [lia|]. specialize (IH x H). lia.
Qed.


Lemma column_entry_get {A : Type} (e : entry A) (default : A) :
  column (entry_get e default)
  = if is_null e then Raise IntegrityError else Ret (entry_value e default).
Proof. destruct e; reflexivity. Qed.

(** A variant without [None] gives a creative: attached to the ad set,
    active, stamped with the clock, under a fresh id. *)
Lemma new_creative_complete (db : DB) (ad_set : AdSet) (ab_test : ABTest) (i : nat)
    (variant : Variant) (now : Z) :
  has_null variant = false ->
  exists creative,
    new_creative db ad_set ab_test i variant now = Ret creative
    /\ cr_ad_set creative = as_id ad_set /\ cr_is_active creative = true
    /\ cr_created_at creative = now
    /\ cr_name creative
       = (ab_name ab_test ++ " - Variant " ++ str_of_nat (i + 1))%string
    /\ cr_headline creative = entry_value (v_headline variant) "Test Headline".
Proof.
  unfold has_null, new_creative. intros H. rewrite !column_entry_get.
  repeat (apply orb_false_iff in H; destruct H as [H ?]).
  repeat match goal with E : is_null _ = false |- _ => rewrite E; clear E end.
  eexists. split; [reflexivity|]. repeat split.
Qed.

(** A variant with a [None] in it gives no row. *)
Lemma new_creative_null (db : DB) (ad_set : AdSet) (ab_test : ABTest) (i : nat)
    (variant : Variant) (now : Z) :
  has_null variant = true ->
  new_creative db ad_set ab_test i variant now = Raise IntegrityError.
Proof.
  unfold has_null, new_creative. rewrite !column_entry_get.
  repeat match goal with
         | |- context [is_null ?e] =>
             destruct (is_null e); cbn [mbind py_bind orb];
             [intros _; reflexivity|]
         end.
  discriminate.
Qed.

(** The variants before the first one that holds a [None]. *)
Fixpoint complete_prefix (variants : list Variant) : list Variant :=
  match variants with
  | [] => []
  | variant :: r => if has_null variant then [] else variant :: complete_prefix r
  end.

Lemma complete_prefix_all (variants : list Variant) :
  existsb has_null variants = false -> complete_prefix variants = variants.
Proof.
  induction variants as [|v r IH]; cbn; [reflexivity|].
  intros H. apply orb_false_iff in H. destruct H as [Hv Hr].
  rewrite Hv, (IH Hr). reflexivity.
Qed.

(** The loop of [_create_test_variants] appends one active creative for
    each variant up to the first that holds a [None], where it stops with
    the error of the insert; it touches nothing else. *)
Lemma create_variants_from_spec (ad_set : AdSet) (ab_test : ABTest) (now : Z)
    (variants : list Variant) :
  forall (db : DB) (i : nat),
    let '(db', result) := create_variants_from db ad_set ab_test i variants now in
    exists created,
      creatives db' = creatives db ++ created
      /\ length created = length (complete_prefix variants)
      /\ Forall (fun c => cr_ad_set c = as_id ad_set /\ cr_is_active c = true
                          /\ cr_created_at c = now) created
      /\ map cr_name created
         = map (fun k => ab_name ab_test ++ " - Variant " ++ str_of_nat (k + 1))%string
               (seq i (length created))
      /\ adsets db' = adsets db /\ abtests db' = abtests db
      /\ analytics db' = analytics db /\ optimizations db' = optimizations db
      /\ result = (if existsb has_null variants then Raise IntegrityError
                   else Ret created).
Proof.
  induction variants as [|v r IH]; intros db i;
    cbn [create_variants_from complete_prefix existsb].
  - exists []. rewrite app_nil_r. repeat split; constructor.
  - destruct (has_null v) eqn:Hn.
    + rewrite (new_creative_null db ad_set ab_test i v now Hn).
      exists []. rewrite app_nil_r. repeat split; constructor.
    + destruct (new_creative_complete db ad_set ab_test i v now Hn)
        as (c & Ec & Had & Hact & Hat & Hname & _).
      rewrite Ec. specialize (IH (insert_creative c db) (S i)).
      destruct (create_variants_from _ ad_set ab_test (S i) r now) as [db' result].
      destruct IH as (created & Hc & Hl & Hf & Hnm & Ha & Hb & Han & Ho & Hr).
      cbn [insert_creative creatives adsets abtests analytics optimizations] in *.
      exists (c :: created).
      split; [rewrite Hc, <- app_assoc; reflexivity|].
      split; [cbn [length]; now rewrite Hl|].
      split; [constructor; [repeat split; assumption | exact Hf]|].
      split; [cbn [map length seq]; now rewrite Hname, Hnm|].
      repeat (split; [assumption|]).
      cbn [orb]. rewrite Hr. destruct (existsb has_null r); reflexivity.
Qed.

(** [create_automated_ab_test] up to the launch, for a valid configuration
    and a campaign whose first ad set is [ad_set]. *)
Lemma create_until_launch (db : DB) (campaign : Campaign) (config : TestConfig)
    (t_create t_start : Z) (ad_set : AdSet) (rest : list AdSet) :
  _validate_test_config config = Valid ->
  adset_set db (c_id campaign) = ad_set :: rest ->
  let ab_test := new_abtest db campaign config in
  let variants := dflt (cfg_variants config) [] in
  exists db1 created,
    creatives db1 = creatives db ++ created
    /\ length created = length (complete_prefix variants)
    /\ Forall (fun c => cr_ad_set c = as_id ad_set /\ cr_is_active c = true
                        /\ cr_created_at c = t_create) created
    /\ abtests db1 = abtests db ++ [ab_test]
    /\ adsets db1 = adsets db /\ analytics db1 = analytics db
    /\ optimizations db1 = optimizations db
    /\ _create_test_variants (insert_abtest ab_test db) ab_test variants t_create
       = (db1, if existsb has_null variants then Raise IntegrityError
               else Ret created)
    /\ create_automated_ab_test db campaign config t_create t_start
       = (if existsb has_null variants then (db1, CError IntegrityError)
          else launch_outcome db1 ab_test created
                 (_launch_test ab_test created config) t_start).
Proof.
  intros Hv Ha ab_test variants.
  unfold create_automated_ab_test. rewrite Hv. fold ab_test. fold variants.
  unfold _create_test_variants.
  change (adset_set (insert_abtest ab_test db) (ab_campaign ab_test))
    with (adset_set db (c_id campaign)).
  rewrite Ha.
  pose proof (create_variants_from_spec ad_set ab_test t_create variants
                (insert_abtest ab_test db) 0) as Hs.
  destruct (create_variants_from _ ad_set ab_test 0 variants t_create)
    as [db1 result].
  destruct Hs as (created & Hc & Hl & Hf & _ & Had & Hab & Han & Hop & Hr).
  cbn [insert_abtest creatives adsets abtests analytics optimizations] in *.
  exists db1, created. subst result.
  repeat (split; [assumption|]).
  split; destruct (existsb has_null variants); reflexivity.
Qed.


End LaunchFailure.


(** ** Opportunity detection *)
Section Opportunities.

Lemma filter_filter_comm {A : Type} (p q : A -> bool) (l : list A) :
  List.filter p (List.filter q l) = List.filter q (List.filter p l).
Proof.
  induction l as [|x r IH]; cbn; [reflexivity|].
  destruct (p x) eqn:Ep, (q x) eqn:Eq; cbn; rewrite ?Ep, ?Eq, IH; reflexivity.
Qed.

Lemma filter_map_comm {A B : Type} (p : B -> bool) (f : A -> B) (l : list A) :
  List.filter p (map f l) = map f (List.filter (fun x => p (f x)) l).
Proof.
  induction l as [|x r IH]; cbn; [reflexivity|].
  destruct (p (f x)); cbn; rewrite IH; reflexivity.
Qed.

Lemma filter_none {A : Type} (p : A -> bool) (l : list A) :
  (forall x, In x l -> p x = false) -> List.filter p l = [].
Proof.
  induction l as [|x r IH]; cbn; intros H; [reflexivity|].
  rewrite (H x) by now left. apply IH. intros y Hy. apply H. now right.
Qed.

(** With one dict per ad set, an id picks one dict. *)
Lemma filter_id_unique (ads : list ScoredAdSet) (x : ScoredAdSet) :
  List.NoDup (map sa_id ads) -> In x ads ->
  List.filter (fun y => (sa_id y =? sa_id x)%Z) ads = [x].
Proof.
  induction ads as [|y r IH]; cbn; intros Hnd Hin; [destruct Hin|].
  inversion Hnd as [|? ? Hnot Hr]; subst.
  destruct Hin as [->|Hin].
  - rewrite Z.eqb_refl. f_equal.
    apply filter_none.
    intros z Hz. apply Z.eqb_neq. intros E. apply Hnot. rewrite <- E. now apply in_map.
  - replace (sa_id y =? sa_id x)%Z with false; [now apply IH|].
    symmetry. apply Z.eqb_neq. intros E. apply Hnot. rewrite E. now apply in_map.
Qed.

Lemma filter_id_of_filter (q : ScoredAdSet -> bool) (ads : list ScoredAdSet)
    (x : ScoredAdSet) :
  List.NoDup (map sa_id ads) -> In x ads ->
  List.filter (fun y => (sa_id y =? sa_id x)%Z) (List.filter q ads)
  = if q x then [x] else [].
Proof.
  intros Hnd Hin. rewrite filter_filter_comm, (filter_id_unique ads x Hnd Hin).
  cbn. now destruct (q x).
Qed.

Lemma scored_eqb_refl (x : ScoredAdSet) : scored_eqb x x = true.
Proof.
  unfold scored_eqb.
  rewrite !Z.eqb_refl, !Qeq_bool_refl, String.eqb_refl. reflexivity.
Qed.

Lemma scored_in_In (x : ScoredAdSet) (l : list ScoredAdSet) :
  In x l -> scored_in x l = true.
Proof.
  intros H. unfold scored_in. apply existsb_exists.
  exists x. split; [exact H | apply scored_eqb_refl].
Qed.

(** The opportunities for one ad set. *)
Definition for_ad_set (id : Z) (opportunities : list Opportunity) : list Opportunity :=
  List.filter (fun o => (opp_ad_set o =? id)%Z) opportunities.

(** C7 as stated: the detection returns exactly one decrease for the ad set. *)
Definition one_decrease_returned : Prop :=
  forall (ads : list ScoredAdSet) (totals : CampaignTotals) (avgs : CampaignAverages)
         (x : ScoredAdSet),
    (2 <= length ads)%nat -> List.NoDup (map sa_id ads) -> In x ads ->
    sa_performance_score x == 0.5 -> sa_spend_utilization x == 0.4 ->
    length (List.filter (fun o => negb (is_increase o))
              (for_ad_set (sa_id x)
                 (_identify_optimization_opportunities (MetricsOf ads totals avgs))))
    = 1%nat.

(** C7 (amended). For an ad set with score 0.5 and utilization 0.4 among at
    least two scored ad sets, the rules build exactly one opportunity: the
    decrease of the underperformance rule, with confidence
    [min(1.0 - score, 1.0)]; the underutilization rule adds no second one.
    That confidence is 0.5, below the threshold 0.7, so the list that
    [_identify_optimization_opportunities] returns has no opportunity for the
    ad set. *)
Theorem underperformer_single_candidate (ads : list ScoredAdSet)
    (totals : CampaignTotals) (avgs : CampaignAverages) (x : ScoredAdSet) :
  (2 <= length ads)%nat -> List.NoDup (map sa_id ads) -> In x ads ->
  sa_performance_score x == 0.5 -> sa_spend_utilization x == 0.4 ->
  for_ad_set (sa_id x) (candidate_opportunities ads)
  = [decrease_budget (sa_id x) (pd_allocated_budget (sa_data x))
       (Qmin (1.0 - sa_performance_score x) 1.0)
       (Qmin 0.3 (1.0 - sa_performance_score x))]
  /\ for_ad_set (sa_id x)
       (_identify_optimization_opportunities (MetricsOf ads totals avgs)) = [].
Proof.
  intros Hlen Hnd Hin Hscore Hutil.
  assert (Hcand : for_ad_set (sa_id x) (candidate_opportunities ads)
    = [decrease_budget (sa_id x) (pd_allocated_budget (sa_data x))
         (Qmin (1.0 - sa_performance_score x) 1.0)
         (Qmin 0.3 (1.0 - sa_performance_score x))]).
  { unfold for_ad_set, candidate_opportunities.
    rewrite !List.filter_app, !filter_map_comm. cbn [opp_ad_set].
    rewrite (filter_id_of_filter _ ads x Hnd Hin).
    replace (Qgtb (sa_performance_score x) 1.2 && Qgtb (sa_spend_utilization x) 0.8)
      with false
      by (symmetry; apply andb_false_iff; left; apply Qgtb_le; lra).
    rewrite (filter_filter_comm (fun y => (sa_id y =? sa_id x)%Z)
               (fun y => Qgtb (sa_spend_utilization y) 0.3)).
    rewrite (filter_id_of_filter _ ads x Hnd Hin).
    replace (Qltb (sa_performance_score x) 0.8) with true
      by (symmetry; apply Qltb_lt; lra).
    cbn [List.filter].
    replace (Qgtb (sa_spend_utilization x) 0.3) with true
      by (symmetry; apply Qgtb_gt; lra).
    rewrite (filter_filter_comm (fun y => (sa_id y =? sa_id x)%Z)
               (fun y => negb (scored_in y _))).
    rewrite (filter_id_of_filter _ ads x Hnd Hin).
    replace (Qltb (sa_spend_utilization x) 0.6) with true
      by (symmetry; apply Qltb_lt; lra).
    cbn [List.filter].
    rewrite scored_in_In; [reflexivity|].
    apply filter_In. split; [exact Hin | apply Qltb_lt; lra]. }
  split; [exact Hcand|].
  unfold _identify_optimization_opportunities. cbn [get_ad_sets].
  replace (length ads <? 2)%nat with false by (symmetry; apply Nat.ltb_ge; lia).
  unfold for_ad_set in *. rewrite filter_filter_comm, Hcand. cbn [List.filter opp_confidence].
  replace (Qgeb _ confidence_threshold) with false; [reflexivity|].
  symmetry. apply Qgeb_lt. unfold confidence_threshold.
  apply Qle_lt_trans with (1.0 - sa_performance_score x); [apply Q.le_min_l | lra].
Qed.

End Opportunities.

(** A scored dict with the given id, platform, budget, score and utilization. *)
Definition scored_of (id : Z) (platform : string) (budget score utilization : Q)
    : ScoredAdSet :=
  {| sa_data :=
       {| pd_ad_set := ad_set_of id 1 platform budget;
          pd_impressions := 0; pd_clicks := 0; pd_conversions := 0;
          pd_spend := utilization * budget; pd_revenue := 0;
          pd_ctr := 0; pd_cpc := 0; pd_cpa := 0; pd_roas := 0;
          pd_conversion_rate := 0;
          pd_allocated_budget := budget; pd_platform := platform |};
     sa_performance_score := score;
     sa_efficiency_score := 0;
     sa_spend_utilization := utilization |}.

Definition no_totals : CampaignTotals :=
  {| total_spend := 0; total_revenue := 0; total_conversions := 0;
     total_clicks := 0; total_impressions := 0 |}.
Definition no_averages : CampaignAverages :=
  {| avg_ctr := 0; avg_cpc := 0; avg_cpa := 0; avg_roas := 0;
     avg_conversion_rate := 0 |}.

(** Two ad sets: an average one, and one with score 0.5 and utilization 0.4. *)
Definition ads_underperformer : list ScoredAdSet :=
  [scored_of 1 "google" 1000 1.0 0.7; scored_of 2 "meta" 1000 0.5 0.4].

Lemma ads_underperformer_nodup : List.NoDup (map sa_id ads_underperformer).
Proof.
  change (List.NoDup [1%Z; 2%Z]).
  apply List.NoDup_cons; [intros [H|[]]; discriminate H|].
  apply List.NoDup_cons; [intros []|]. apply List.NoDup_nil.
Defined.

(** C7, counterexample: no decrease is returned for the ad set, its one
    candidate has confidence 0.5. *)
Lemma underperformer_gets_no_decrease : ~ one_decrease_returned.
Proof.
  intros H.
  specialize (H ads_underperformer no_totals no_averages
                (scored_of 2 "meta" 1000 0.5 0.4)).
  assert (E : 0%nat = 1%nat); [|discriminate E].
  rewrite <- H.
  - reflexivity.
  - cbn. lia.
  - exact ads_underperformer_nodup.
  - cbn. tauto.
  - reflexivity.
  - reflexivity.
Qed.

(** A run of C7 (amended). *)
Lemma underperformer_single_candidate_witness :
  for_ad_set 2 (candidate_opportunities ads_underperformer)
  = [decrease_budget 2 1000 (Qmin (1.0 - 0.5) 1.0) (Qmin 0.3 (1.0 - 0.5))]
  /\ for_ad_set 2 (_identify_optimization_opportunities
                     (MetricsOf ads_underperformer no_totals no_averages)) = [].
Proof.
  apply (underperformer_single_candidate ads_underperformer no_totals no_averages
           (scored_of 2 "meta" 1000 0.5 0.4)).
  - cbn. lia.
  - exact ads_underperformer_nodup.
  - cbn. tauto.
  - reflexivity.
  - reflexivity.
Defined.

(** ** The new allocation and the 20% cap *)
Section Allocation.

Implicit Types (m : gmap Z Q) (opps : list Opportunity).

(** The ad sets that the decrease loop and the increase loop write. *)
Definition dec_ids opps : list Z :=
  map opp_ad_set (List.filter (fun o => negb (is_increase o)) opps).
Definition inc_ids opps : list Z :=
  map opp_ad_set (List.filter is_increase opps).

(** Fractions and weights that do not turn a decrease into an increase or
    the other way round. *)
Definition nonneg_opportunity (o : Opportunity) : Prop :=
  match o with
  | increase_budget _ _ confidence suggested_increase =>
      0 <= confidence * suggested_increase
  | decrease_budget _ _ _ suggested_decrease => 0 <= suggested_decrease
  end.

Lemma alloc_item_ret m (id : Z) (cb : Q) :
  alloc_item m id = Ret cb <-> m !! id = Some cb.
Proof.
  unfold alloc_item, getitem. destruct (m !! id); split; intros H;
    try discriminate; congruence.
Qed.

(** *** The decrease loop *)

Lemma apply_decreases_frame opps : forall m pool m' pool' (id : Z),
  apply_decreases opps m pool = Ret (m', pool') ->
  ~ In id (dec_ids opps) -> m' !! id = m !! id.
Proof.
  induction opps as [|[i b c s|i b c s] r IH]; intros m pool m' pool' id H Hn.
  - cbn in H. apply Ret_inj in H. congruence.
  - cbn [apply_decreases] in H. apply (IH _ _ _ _ _ H). exact Hn.
  - cbn [apply_decreases] in H.
    destruct (alloc_item m i) as [cb|e] eqn:E; py_step; cbn [mbind py_bind] in H;
      [|discriminate].
    unfold dec_ids in Hn. cbn in Hn.
    rewrite (IH _ _ _ _ _ H) by tauto.
    apply lookup_insert_ne. tauto.
Qed.

Lemma apply_decreases_step opps : forall m pool m' pool' (i : Z) (b c s : Q),
  apply_decreases opps m pool = Ret (m', pool') ->
  List.NoDup (dec_ids opps) -> In (decrease_budget i b c s) opps ->
  exists cb, m !! i = Some cb
    /\ m' !! i = Some (cb - Qmin (cb * s) (cb * max_budget_change_per_day)).
Proof.
  induction opps as [|[i0 b0 c0 s0|i0 b0 c0 s0] r IH];
    intros m pool m' pool' i b c s H Hnd Hin.
  - destruct Hin.
  - cbn [apply_decreases] in H. destruct Hin as [Hin|Hin]; [discriminate|].
    apply (IH _ _ _ _ _ _ _ _ H Hnd Hin).
  - cbn [apply_decreases] in H.
    destruct (alloc_item m i0) as [cb|e] eqn:E; cbn [mbind py_bind] in H; [|discriminate].
    apply alloc_item_ret in E.
    unfold dec_ids in Hnd. cbn in Hnd. inversion Hnd as [|? ? Hnot Hr]; subst.
    destruct Hin as [Hin|Hin].
    + injection Hin as -> -> -> ->. exists cb. split; [exact E|].
      rewrite (apply_decreases_frame _ _ _ _ _ _ H Hnot). apply lookup_insert_eq.
    + assert (Hi : In i (dec_ids r)).
      { unfold dec_ids. apply in_map_iff. exists (decrease_budget i b c s).
        split; [reflexivity|]. apply filter_In. split; [exact Hin | reflexivity]. }
      destruct (IH _ _ _ _ _ _ _ _ H Hr Hin) as [cb' [Hm1 Hm']].
      exists cb'. split; [|exact Hm'].
      rewrite lookup_insert_ne in Hm1; [exact Hm1|]. intros ->. contradiction.
Qed.

Lemma apply_decreases_total opps : forall m pool,
  (forall id, In id (dec_ids opps) -> is_Some (m !! id)) ->
  exists m' pool', apply_decreases opps m pool = Ret (m', pool').
Proof.
  induction opps as [|[i b c s|i b c s] r IH]; intros m pool Hk.
  - now eexists _, _.
  - cbn [apply_decreases]. apply IH. exact Hk.
  - cbn [apply_decreases].
    destruct (Hk i) as [cb Hcb]; [unfold dec_ids; cbn; now left|].
    rewrite (proj2 (alloc_item_ret m i cb) Hcb). py_step.
    apply IH. intros id Hid.
    destruct (Z.eq_dec i id) as [->|Hne].
    + rewrite lookup_insert_eq. now eexists.
    + rewrite lookup_insert_ne by exact Hne. apply Hk. unfold dec_ids. cbn. now right.
Qed.

(** *** The increase loop *)

Lemma apply_increases_frame (l : list Opportunity) (pool tw : Q) :
  forall m m' (id : Z),
    apply_increases l pool tw m = Ret m' ->
    ~ In id (map opp_ad_set l) -> m' !! id = m !! id.
Proof.
  induction l as [|o r IH]; intros m m' id H Hn.
  - cbn in H. apply Ret_inj in H. congruence.
  - cbn [apply_increases] in H. cbn in Hn.
    destruct (Qgtb tw 0).
    + destruct (alloc_item m (opp_ad_set o)) as [cb|e]; cbn [mbind py_bind] in H;
        [|discriminate].
      rewrite (IH _ _ _ H) by tauto. apply lookup_insert_ne. tauto.
    + apply (IH _ _ _ H). tauto.
Qed.

Lemma apply_increases_step (l : list Opportunity) (pool tw : Q) :
  forall m m' (o : Opportunity),
    apply_increases l pool tw m = Ret m' ->
    List.NoDup (map opp_ad_set l) -> In o l -> is_Some (m !! opp_ad_set o) ->
    exists cb, m !! opp_ad_set o = Some cb
      /\ m' !! opp_ad_set o
         = Some (if Qgtb tw 0
                 then cb + Qmin (pool * (increase_weight o / tw))
                                (cb * max_budget_change_per_day)
                 else cb).
Proof.
  induction l as [|o0 r IH]; intros m m' o H Hnd Hin [cb0 Hcb0].
  - destruct Hin.
  - cbn [apply_increases] in H. cbn in Hnd.
    inversion Hnd as [|? ? Hnot Hr]; subst.
    destruct Hin as [->|Hin].
    + destruct (Qgtb tw 0).
      * rewrite (proj2 (alloc_item_ret m _ cb0) Hcb0) in H. cbn [mbind py_bind] in H.
        exists cb0. split; [exact Hcb0|].
        rewrite (apply_increases_frame _ _ _ _ _ _ H Hnot). apply lookup_insert_eq.
      * exists cb0. split; [exact Hcb0|].
        rewrite (apply_increases_frame _ _ _ _ _ _ H Hnot). exact Hcb0.
    + assert (Hne : opp_ad_set o0 <> opp_ad_set o).
      { intros E. apply Hnot. rewrite E. now apply in_map. }
      destruct (Qgtb tw 0) eqn:Etw.
      * destruct (alloc_item m (opp_ad_set o0)) as [cb|e]; cbn [mbind py_bind] in H;
          [|discriminate].
        destruct (IH _ _ o H Hr Hin) as [cb' [Hm1 Hm']].
        { rewrite lookup_insert_ne by exact Hne. now exists cb0. }
        rewrite lookup_insert_ne in Hm1 by exact Hne.
        exists cb'. tauto.
      * destruct (IH _ _ o H Hr Hin) as [cb' [Hm1 Hm']]; [now exists cb0|].
        exists cb'. tauto.
Qed.

Lemma apply_increases_total (l : list Opportunity) (pool tw : Q) :
  forall m, (forall id, In id (map opp_ad_set l) -> is_Some (m !! id)) ->
            exists m', apply_increases l pool tw m = Ret m'.
Proof.
  induction l as [|o r IH]; intros m Hk.
  - now eexists.
  - cbn [apply_increases]. destruct (Qgtb tw 0).
    + destruct (Hk (opp_ad_set o)) as [cb Hcb]; [cbn; now left|].
      rewrite (proj2 (alloc_item_ret m _ cb) Hcb). py_step.
      apply IH. intros id Hid.
      destruct (Z.eq_dec (opp_ad_set o) id) as [<-|Hne].
      * rewrite lookup_insert_eq. now eexists.
      * rewrite lookup_insert_ne by exact Hne. apply Hk. cbn. now right.
    + apply IH. intros id Hid. apply Hk. cbn. now right.
Qed.

(** *** The starting allocation *)

Lemma initial_fold_frame (ads : list ScoredAdSet) : forall m (id : Z),
  ~ In id (map sa_id ads) ->
  fold_left (fun m ad_set => <[sa_id ad_set := pd_allocated_budget (sa_data ad_set)]> m)
            ads m !! id = m !! id.
Proof.
  induction ads as [|a r IH]; intros m id Hn; [reflexivity|].
  cbn in *. rewrite IH by tauto. apply lookup_insert_ne. tauto.
Qed.

Lemma initial_fold_lookup (ads : list ScoredAdSet) : forall m (a : ScoredAdSet),
  List.NoDup (map sa_id ads) -> In a ads ->
  fold_left (fun m ad_set => <[sa_id ad_set := pd_allocated_budget (sa_data ad_set)]> m)
            ads m !! sa_id a = Some (pd_allocated_budget (sa_data a)).
Proof.
  induction ads as [|a0 r IH]; intros m a Hnd Hin; [destruct Hin|].
  cbn in *. inversion Hnd as [|? ? Hnot Hr]; subst.
  destruct Hin as [->|Hin].
  - rewrite initial_fold_frame by exact Hnot. apply lookup_insert_eq.
  - now apply IH.
Qed.

(** With one dict per ad set, the starting allocation holds each ad set's
    budget. *)
Lemma initial_allocation_lookup (ads : list ScoredAdSet) (a : ScoredAdSet) :
  List.NoDup (map sa_id ads) -> In a ads ->
  initial_allocation ads !! sa_id a = Some (pd_allocated_budget (sa_data a)).
Proof. apply initial_fold_lookup. Qed.

Lemma initial_allocation_keys (ads : list ScoredAdSet) (id : Z) :
  List.NoDup (map sa_id ads) -> In id (map sa_id ads) ->
  is_Some (initial_allocation ads !! id).
Proof.
  intros Hnd Hin. apply in_map_iff in Hin. destruct Hin as [a [<- Ha]].
  rewrite (initial_allocation_lookup ads a Hnd Ha). now eexists.
Qed.

(** *** No ad set named twice *)

Lemma NoDup_map_filter {A B : Type} (f : A -> B) (p : A -> bool) (l : list A) :
  List.NoDup (map f l) -> List.NoDup (map f (List.filter p l)).
Proof.
  induction l as [|x r IH]; cbn; intros H; [constructor|].
  inversion H as [|? ? Hnot Hr]; subst.
  destruct (p x); cbn; [|now apply IH].
  constructor; [|now apply IH].
  intros Hin. apply Hnot. apply in_map_iff in Hin. destruct Hin as [y [E Hy]].
  apply filter_In in Hy. rewrite <- E. apply in_map. tauto.
Qed.

Lemma NoDup_map_inj {A B : Type} (f : A -> B) (l : list A) (x y : A) :
  List.NoDup (map f l) -> In x l -> In y l -> f x = f y -> x = y.
Proof.
  induction l as [|z r IH]; cbn; intros H Hx Hy E; [destruct Hx|].
  inversion H as [|? ? Hnot Hr]; subst.
  destruct Hx as [->|Hx], Hy as [->|Hy]; try reflexivity.
  - exfalso. apply Hnot. rewrite E. now apply in_map.
  - exfalso. apply Hnot. rewrite <- E. now apply in_map.
  - now apply IH.
Qed.

(** *** The cap *)

(** No ad set's budget moves by more than 20% of what it was. *)
Definition within_cap (ads : list ScoredAdSet) (alloc : gmap Z Q) : Prop :=
  forall a, In a ads ->
    exists new_budget,
      alloc !! sa_id a = Some new_budget
      /\ Qabs (new_budget - pd_allocated_budget (sa_data a))
         <= 0.20 * pd_allocated_budget (sa_data a).

Lemma dec_ids_inv opps (id : Z) :
  In id (dec_ids opps) -> exists b c s, In (decrease_budget id b c s) opps.
Proof.
  unfold dec_ids. intros H. apply in_map_iff in H. destruct H as [o [E Ho]].
  apply filter_In in Ho. destruct Ho as [Ho Hp].
  destruct o as [i b c s|i b c s]; [discriminate|]. cbn in E. subst i. now exists b, c, s.
Qed.

Lemma inc_ids_inv opps (id : Z) :
  In id (inc_ids opps) ->
  exists o, In o (List.filter is_increase opps) /\ opp_ad_set o = id /\ In o opps
            /\ is_increase o = true.
Proof.
  unfold inc_ids. intros H. apply in_map_iff in H. destruct H as [o [E Ho]].
  exists o. pose proof Ho as Ho'. apply filter_In in Ho'. tauto.
Qed.

End Allocation.

(** ** The opportunities that the detection returns respect the cap *)
Section DetectedOpportunities.

Lemma in_filtered_ids (p : ScoredAdSet -> bool) (ads : list ScoredAdSet) (id : Z) :
  In id (map sa_id (List.filter p ads)) ->
  exists y, In y ads /\ p y = true /\ sa_id y = id.
Proof.
  intros H. apply in_map_iff in H. destruct H as [y [E Hy]].
  apply filter_In in Hy. exists y. tauto.
Qed.

(** The three rules exclude each other, so the detection names no ad set
    twice; its fractions and weights are positive. *)
Lemma detected_opportunities_wellformed (ads : list ScoredAdSet)
    (totals : CampaignTotals) (avgs : CampaignAverages) :
  List.NoDup (map sa_id ads) ->
  let opps := _identify_optimization_opportunities (MetricsOf ads totals avgs) in
  List.NoDup (map opp_ad_set opps)
  /\ (forall o, In o opps -> In (opp_ad_set o) (map sa_id ads))
  /\ (forall o, In o opps -> nonneg_opportunity o).
Proof.
  intros Hnd opps. subst opps. unfold _identify_optimization_opportunities.
  cbn [get_ad_sets].
  destruct (length ads <? 2)%nat.
  { split; [constructor|]. split; intros o []. }
  set (high := List.filter (fun a => Qgtb (sa_performance_score a) 1.2
                                     && Qgtb (sa_spend_utilization a) 0.8) ads).
  set (low := List.filter (fun a => Qltb (sa_performance_score a) 0.8) ads).
  set (low' := List.filter (fun a => Qgtb (sa_spend_utilization a) 0.3) low).
  set (under := List.filter (fun a => Qltb (sa_spend_utilization a) 0.6) ads).
  set (under' := List.filter (fun a => negb (scored_in a low)) under).
  assert (Hcand : candidate_opportunities ads
    = map (fun a => increase_budget (sa_id a) (pd_allocated_budget (sa_data a))
                      (Qmin (sa_performance_score a / 1.5) 1.0)
                      (Qmin 0.2 (sa_performance_score a - 1.0))) high
      ++ map (fun a => decrease_budget (sa_id a) (pd_allocated_budget (sa_data a))
                      (Qmin (1.0 - sa_performance_score a) 1.0)
                      (Qmin 0.3 (1.0 - sa_performance_score a))) low'
      ++ map (fun a => decrease_budget (sa_id a) (pd_allocated_budget (sa_data a))
                      (1.0 - sa_spend_utilization a)
                      (Qmin 0.4 (1.0 - sa_spend_utilization a))) under')
    by reflexivity.
  assert (Hids : map opp_ad_set (candidate_opportunities ads)
                 = map sa_id high ++ map sa_id low' ++ map sa_id under').
  { rewrite Hcand, !map_app, !map_map. reflexivity. }
  assert (Hlow' : forall y, In y low' -> In y low /\ In y ads
                            /\ sa_performance_score y < 0.8).
  { intros y Hy. apply filter_In in Hy. destruct Hy as [Hy _].
    split; [exact Hy|]. apply filter_In in Hy. destruct Hy as [Hy Hs].
    apply Qltb_lt in Hs. tauto. }
  split; [|split].
  - apply NoDup_map_filter. rewrite Hids.
    apply List.NoDup_app; [now apply NoDup_map_filter| |].
    + apply List.NoDup_app.
      * unfold low', low. now do 2 apply NoDup_map_filter.
      * unfold under', under. now do 2 apply NoDup_map_filter.
      * intros id Hl Hu.
        apply in_map_iff in Hl, Hu. destruct Hl as [y [Ey Hy]], Hu as [z [Ez Hz]].
        destruct (Hlow' y Hy) as (Hyl & Hya & _).
        apply filter_In in Hz. destruct Hz as [Hz Hnot].
        apply filter_In in Hz. destruct Hz as [Hza _].
        assert (y = z) by (apply (NoDup_map_inj sa_id ads); congruence). subst z.
        rewrite (scored_in_In y low Hyl) in Hnot. discriminate.
    + intros id Hh Hrest.
      destruct (in_filtered_ids _ _ _ Hh) as (y & Hya & Hp & Ey).
      apply andb_true_iff in Hp. destruct Hp as [Hs Hu].
      apply Qgtb_gt in Hs, Hu.
      apply in_app_iff in Hrest. destruct Hrest as [Hl|Hu'].
      * apply in_map_iff in Hl. destruct Hl as [z [Ez Hz]].
        destruct (Hlow' z Hz) as (_ & Hza & Hzs).
        assert (y = z) by (apply (NoDup_map_inj sa_id ads); congruence). subst z. lra.
      * apply in_map_iff in Hu'. destruct Hu' as [z [Ez Hz]].
        apply filter_In in Hz. destruct Hz as [Hz _].
        apply filter_In in Hz. destruct Hz as [Hza Hzu]. apply Qltb_lt in Hzu.
        assert (y = z) by (apply (NoDup_map_inj sa_id ads); congruence). subst z. lra.
  - intros o Ho. apply filter_In in Ho. destruct Ho as [Ho _].
    assert (Hin : In (opp_ad_set o) (map opp_ad_set (candidate_opportunities ads)))
      by now apply in_map.
    rewrite Hids in Hin. rewrite !in_app_iff in Hin.
    destruct Hin as [Hin|[Hin|Hin]]; apply in_map_iff in Hin;
      destruct Hin as [y [<- Hy]]; apply in_map;
      repeat (apply filter_In in Hy; destruct Hy as [Hy _]); exact Hy.
  - intros o Ho. apply filter_In in Ho. destruct Ho as [Ho _].
    rewrite Hcand in Ho. rewrite !in_app_iff in Ho.
    destruct Ho as [Ho|[Ho|Ho]]; apply in_map_iff in Ho; destruct Ho as [y [<- Hy]];
      cbn [nonneg_opportunity].
    + apply filter_In in Hy. destruct Hy as [_ Hp].
      apply andb_true_iff in Hp. destruct Hp as [Hs _]. apply Qgtb_gt in Hs.
      apply Qmult_le_0_compat.
      * apply Q.min_glb; [|lra]. apply Qle_shift_div_l; lra.
      * apply Q.min_glb; lra.
    + destruct (Hlow' y Hy) as (_ & _ & Hs). apply Q.min_glb; lra.
    + apply filter_In in Hy. destruct Hy as [Hy _].
      apply filter_In in Hy. destruct Hy as [_ Hu]. apply Qltb_lt in Hu.
      apply Q.min_glb; lra.
Qed.

(** What the two loops do to the budget of each ad set: one capped
    decrease, then one capped increase.  The new budget lies between the
    previous one less 20% and the previous one plus 20%.  It is the
    previous budget minus [decrease] plus [increase], where [decrease] is
    the suggested fraction of the previous budget, at most 20% of it, and 0
    for an ad set that no decrease names; and [increase] is at most 20% of
    the budget left after the decrease, and 0 for an ad set that no increase
    names. *)
Definition capped_moves (ads : list ScoredAdSet) (opps : list Opportunity)
    (alloc : gmap Z Q) : Prop :=
  forall a, In a ads ->
    let previous := pd_allocated_budget (sa_data a) in
    exists new_budget decrease increase,
      alloc !! sa_id a = Some new_budget
      /\ previous - previous * 0.20 <= new_budget
      /\ new_budget <= previous + previous * 0.20
      /\ new_budget == previous - decrease + increase
      /\ 0 <= decrease /\ decrease <= previous * 0.20
      /\ 0 <= increase /\ increase <= (previous - decrease) * 0.20
      /\ (~ In (sa_id a) (dec_ids opps) -> decrease == 0)
      /\ (~ In (sa_id a) (inc_ids opps) -> increase == 0)
      /\ (forall b c s, In (decrease_budget (sa_id a) b c s) opps ->
            decrease == Qmin (previous * s) (previous * 0.20)).

(** C3 (amended). For scored ad sets with one dict per ad set and
    non-negative budgets: when no ad set is named by two decreases or by two
    increases, every opportunity names an ad set of the list, and the
    suggested decrease fractions and the increase weights (confidence times
    suggested increase) are non-negative, [_calculate_optimal_allocation]
    returns an allocation in which every ad set's budget lies between its
    previous budget less 20% and its previous budget plus 20%: it is the
    previous budget less one decrease of at most 20% of the previous budget,
    plus one increase of at most 20% of the budget so decreased; and the
    opportunities that [_identify_optimization_opportunities] returns are of
    this kind. *)
Theorem allocation_within_cap (campaign : Campaign) (ads : list ScoredAdSet)
    (totals : CampaignTotals) (avgs : CampaignAverages) :
  List.NoDup (map sa_id ads) ->
  (forall a, In a ads -> 0 <= pd_allocated_budget (sa_data a)) ->
  (forall opps : list Opportunity,
     List.NoDup (dec_ids opps) -> List.NoDup (inc_ids opps) ->
     (forall o, In o opps -> In (opp_ad_set o) (map sa_id ads)) ->
     (forall o, In o opps -> nonneg_opportunity o) ->
     exists alloc,
       _calculate_optimal_allocation campaign (MetricsOf ads totals avgs) opps = Ret alloc
       /\ capped_moves ads opps alloc)
  /\ (exists alloc,
        _calculate_optimal_allocation campaign (MetricsOf ads totals avgs)
          (_identify_optimization_opportunities (MetricsOf ads totals avgs)) = Ret alloc
        /\ capped_moves ads
             (_identify_optimization_opportunities (MetricsOf ads totals avgs)) alloc).
Proof.
  intros Hads Hbud.
  assert (General : forall opps : list Opportunity,
     List.NoDup (dec_ids opps) -> List.NoDup (inc_ids opps) ->
     (forall o, In o opps -> In (opp_ad_set o) (map sa_id ads)) ->
     (forall o, In o opps -> nonneg_opportunity o) ->
     exists alloc,
       _calculate_optimal_allocation campaign (MetricsOf ads totals avgs) opps = Ret alloc
       /\ capped_moves ads opps alloc).
  { intros opps Hdec Hinc Hnamed Hnonneg.
    unfold _calculate_optimal_allocation. cbn [item_ad_sets]. py_step.
    assert (Hkeys : forall o, In o opps ->
              is_Some (initial_allocation ads !! opp_ad_set o)).
    { intros o Ho. apply initial_allocation_keys; [exact Hads | now apply Hnamed]. }
    destruct (apply_decreases_total opps (initial_allocation ads) 0.0) as (m1 & pool & E1).
    { intros id Hid. destruct (dec_ids_inv _ _ Hid) as (b & c & s & Ho).
      exact (Hkeys _ Ho). }
    rewrite E1. py_step.
    (* the budgets after the first loop *)
    assert (H1 : forall a, In a ads ->
              let b := pd_allocated_budget (sa_data a) in
              exists cur d,
                m1 !! sa_id a = Some cur /\ cur == b - d
                /\ 0 <= d /\ d <= b * 0.20
                /\ (~ In (sa_id a) (dec_ids opps) -> d == 0)
                /\ (forall b0 c s, In (decrease_budget (sa_id a) b0 c s) opps ->
                      d == Qmin (b * s) (b * 0.20))).
    { intros a Ha b. pose proof (Hbud a Ha) as Hb. fold b in Hb.
      destruct (in_dec Z.eq_dec (sa_id a) (dec_ids opps)) as [Hid|Hid].
      - destruct (dec_ids_inv _ _ Hid) as (b0 & c & s & Ho).
        destruct (apply_decreases_step _ _ _ _ _ _ _ _ _ E1 Hdec Ho) as [cb [Hm Hm1]].
        rewrite (initial_allocation_lookup ads a Hads Ha) in Hm.
        apply (inj Some) in Hm. subst cb. fold b in Hm1.
        unfold max_budget_change_per_day in Hm1.
        pose proof (Hnonneg _ Ho) as Hs. cbn [nonneg_opportunity] in Hs.
        assert (H0 : 0 <= b * s) by now apply Qmult_le_0_compat.
        exists (b - Qmin (b * s) (b * 0.20)), (Qmin (b * s) (b * 0.20)).
        split; [exact Hm1|]. split; [reflexivity|].
        split; [apply Q.min_glb; lra|]. split; [apply Q.le_min_r|].
        split; [intros Hn; contradiction|].
        intros b1 c1 s1 Ho1.
        destruct (apply_decreases_step _ _ _ _ _ _ _ _ _ E1 Hdec Ho1) as [cb [Hm Hm1']].
        rewrite (initial_allocation_lookup ads a Hads Ha) in Hm.
        apply (inj Some) in Hm. subst cb. fold b in Hm1'.
        unfold max_budget_change_per_day in Hm1'.
        rewrite Hm1 in Hm1'. apply (inj Some) in Hm1'.
        assert (E : b - Qmin (b * s) (b * 0.20) == b - Qmin (b * s1) (b * 0.20))
          by (rewrite Hm1'; reflexivity).
        lra.
      - exists b, 0.
        split.
        { rewrite (apply_decreases_frame _ _ _ _ _ _ E1 Hid).
          now apply initial_allocation_lookup. }
        split; [lra|]. split; [lra|]. split; [lra|].
        split; [intros _; reflexivity|].
        intros b0 c s Ho. exfalso. apply Hid. unfold dec_ids.
        apply in_map_iff. exists (decrease_budget (sa_id a) b0 c s).
        split; [reflexivity|]. apply filter_In. split; [exact Ho | reflexivity]. }
    (* an ad set that the second loop does not write *)
    assert (Hkeep : forall (m2 : gmap Z Q) a, In a ads -> m2 !! sa_id a = m1 !! sa_id a ->
              let previous := pd_allocated_budget (sa_data a) in
              exists new_budget decrease increase,
                m2 !! sa_id a = Some new_budget
                /\ previous - previous * 0.20 <= new_budget
                /\ new_budget <= previous + previous * 0.20
                /\ new_budget == previous - decrease + increase
                /\ 0 <= decrease /\ decrease <= previous * 0.20
                /\ 0 <= increase /\ increase <= (previous - decrease) * 0.20
                /\ (~ In (sa_id a) (dec_ids opps) -> decrease == 0)
                /\ (~ In (sa_id a) (inc_ids opps) -> increase == 0)
                /\ (forall b c s, In (decrease_budget (sa_id a) b c s) opps ->
                      decrease == Qmin (previous * s) (previous * 0.20))).
    { intros m2 a Ha Hm2 previous.
      destruct (H1 a Ha) as (cur & d & Hm & Hcur & Hd0 & Hd1 & Hdn & Hds).
      fold previous in Hcur, Hd1, Hds.
      pose proof (Hbud a Ha) as Hb. fold previous in Hb.
      exists cur, d, 0. rewrite Hm2.
      split; [exact Hm|]. split; [lra|]. split; [lra|].
      split; [lra|]. split; [exact Hd0|]. split; [exact Hd1|].
      split; [lra|]. split; [lra|]. split; [exact Hdn|].
      split; [intros _; reflexivity | exact Hds]. }
    destruct (negb (length (List.filter is_increase opps) =? 0)%nat && Qgtb pool 0) eqn:G.
    2:{ exists m1. split; [reflexivity|]. intros a Ha. now apply Hkeep. }
    apply andb_true_iff in G. destruct G as [_ Gpool]. apply Qgtb_gt in Gpool.
    set (tw := sumQ (map increase_weight (List.filter is_increase opps))).
    assert (Hm1keys : forall id, In id (map sa_id ads) -> is_Some (m1 !! id)).
    { intros id Hid. apply in_map_iff in Hid. destruct Hid as [a [<- Ha]].
      destruct (H1 a Ha) as (cur & d & Hm & _). rewrite Hm. now eexists. }
    destruct (apply_increases_total (List.filter is_increase opps) pool tw m1) as [m2 E2].
    { intros id Hid. destruct (inc_ids_inv opps id Hid) as (o & _ & <- & Ho & _).
      apply Hm1keys. now apply Hnamed. }
    exists m2. split; [exact E2|].
    intros a Ha.
    destruct (in_dec Z.eq_dec (sa_id a) (inc_ids opps)) as [Hid|Hid].
    - destruct (inc_ids_inv opps _ Hid) as (o & Hof & Eo & Ho & Hio).
      destruct (H1 a Ha) as (cur & d & Hm & Hcur & Hd0 & Hd1 & Hdn & Hds).
      destruct (apply_increases_step _ _ _ _ _ o E2 Hinc Hof) as [cb [Hm' Hm2]].
      { rewrite Eo, Hm. now eexists. }
      rewrite Eo in Hm', Hm2. rewrite Hm in Hm'. apply (inj Some) in Hm'. subst cb.
      cbv zeta. pose proof (Hbud a Ha) as Hb.
      unfold max_budget_change_per_day in Hm2.
      destruct (Qgtb tw 0) eqn:Etw.
      + apply Qgtb_gt in Etw.
        assert (Hamount : 0 <= pool * (increase_weight o / tw)).
        { apply Qmult_le_0_compat; [lra|].
          apply Qle_shift_div_l; [exact Etw|]. rewrite Qmult_0_l.
          specialize (Hnonneg o Ho). destruct o; [exact Hnonneg | discriminate]. }
        pose proof (Q.le_min_r (pool * (increase_weight o / tw)) (cur * 0.20)) as Hi1.
        assert (Hi0 : 0 <= Qmin (pool * (increase_weight o / tw)) (cur * 0.20))
          by (apply Q.min_glb; lra).
        exists (cur + Qmin (pool * (increase_weight o / tw)) (cur * 0.20)), d,
               (Qmin (pool * (increase_weight o / tw)) (cur * 0.20)).
        split; [exact Hm2|]. split; [lra|]. split; [lra|].
        split; [lra|]. split; [exact Hd0|]. split; [exact Hd1|].
        split; [exact Hi0|]. split; [lra|].
        split; [exact Hdn|]. split; [intros Hn; contradiction | exact Hds].
      + exists cur, d, 0.
        split; [exact Hm2|]. split; [lra|]. split; [lra|].
        split; [lra|]. split; [exact Hd0|]. split; [exact Hd1|].
        split; [lra|]. split; [lra|]. split; [exact Hdn|].
        split; [intros _; reflexivity | exact Hds].
    - apply Hkeep; [exact Ha|].
      now rewrite (apply_increases_frame _ _ _ _ _ _ E2 Hid). }
  split; [exact General|].
  destruct (detected_opportunities_wellformed ads totals avgs Hads) as (H1 & H2 & H3).
  apply General; [| |exact H2|exact H3]; now apply NoDup_map_filter.
Qed.

End DetectedOpportunities.

(** C3 as stated: the cap holds for any list of opportunities. *)
Definition any_opportunities_within_cap : Prop :=
  forall (campaign : Campaign) (ads : list ScoredAdSet) (totals : CampaignTotals)
         (avgs : CampaignAverages) (opps : list Opportunity) (alloc : gmap Z Q),
    List.NoDup (map sa_id ads) ->
    (forall a, In a ads -> 0 <= pd_allocated_budget (sa_data a)) ->
    _calculate_optimal_allocation campaign (MetricsOf ads totals avgs) opps = Ret alloc ->
    within_cap ads alloc.

(** Two decreases for the ad set 2, one per rule. *)
Definition two_decreases : list Opportunity :=
  [decrease_budget 2 1000 0.8 0.3; decrease_budget 2 1000 0.75 0.4].

(** C3, counterexample: each decrease is capped at 20% of the budget that
    the loop has reached, so two of them take 1000 to 800 and then to 640. *)
Lemma two_decreases_exceed_cap : ~ any_opportunities_within_cap.
Proof.
  intros H.
  destruct (_calculate_optimal_allocation spring_campaign
              (MetricsOf ads_underperformer no_totals no_averages) two_decreases)
    as [alloc|e] eqn:E; [|vm_compute in E; discriminate].
  destruct (H _ _ _ _ _ alloc ads_underperformer_nodup
              ltac:(intros a [<-|[<-|[]]]; cbn; lra) E
              (scored_of 2 "meta" 1000 0.5 0.4) ltac:(cbn; tauto))
    as [new_budget [Hm Hb]].
  vm_compute in E. apply Ret_inj in E. subst alloc.
  vm_compute in Hm. apply (inj Some) in Hm. subst new_budget.
  vm_compute in Hb. apply Hb. reflexivity.
Qed.

(** Two increases for the ad set 1, paid for by decreases of two others. *)
Definition ads_three : list ScoredAdSet :=
  [scored_of 1 "google" 100 1.5 0.9; scored_of 2 "meta" 1000 0.5 0.9;
   scored_of 3 "linkedin" 1000 0.5 0.9].
Definition two_increases : list Opportunity :=
  [increase_budget 1 100 1.0 0.2; increase_budget 1 100 1.0 0.2;
   decrease_budget 2 1000 0.5 0.3; decrease_budget 3 1000 0.5 0.3].

(** Likewise two increases for one ad set go past the cap: each is capped
    at 20% of the budget that the loop has reached, 100 becomes 120 and
    then 144. *)
Lemma two_increases_exceed_cap :
  exists alloc new_budget,
    _calculate_optimal_allocation spring_campaign
      (MetricsOf ads_three no_totals no_averages) two_increases = Ret alloc
    /\ alloc !! 1%Z = Some new_budget
    /\ new_budget == 144 /\ 100 + 100 * 0.20 < new_budget.
Proof.
  destruct (_calculate_optimal_allocation spring_campaign
              (MetricsOf ads_three no_totals no_averages) two_increases)
    as [alloc|e] eqn:E; [|vm_compute in E; discriminate].
  vm_compute in E. apply Ret_inj in E. subst alloc.
  eexists _, _. split; [reflexivity|]. split; [vm_compute; reflexivity|].
  split; reflexivity.
Qed.

(** One increase and one decrease, for different ad sets. *)
Definition ads_two : list ScoredAdSet :=
  [scored_of 1 "google" 1000 1.5 0.9; scored_of 2 "meta" 1000 0.5 0.9].
Definition one_each : list Opportunity :=
  [increase_budget 1 1000 1.0 0.2; decrease_budget 2 1000 0.5 0.3].

(** A run of C3 (amended): 1000 and 1000 become 1200 and 800. *)
Lemma allocation_within_cap_witness :
  exists alloc,
    _calculate_optimal_allocation spring_campaign
      (MetricsOf ads_two no_totals no_averages) one_each = Ret alloc
    /\ capped_moves ads_two one_each alloc
    /\ (exists a b, alloc !! 1%Z = Some a /\ alloc !! 2%Z = Some b
                    /\ a == 1200 /\ b == 800).
Proof.
  destruct (allocation_within_cap spring_campaign ads_two no_totals no_averages)
    as [General _].
  { change (List.NoDup [1%Z; 2%Z]).
    apply List.NoDup_cons; [intros [H|[]]; discriminate H|].
    apply List.NoDup_cons; [intros []|]. apply List.NoDup_nil. }
  { intros a [<-|[<-|[]]]; cbn; lra. }
  destruct (General one_each) as [alloc [E Hcap]].
  - change (List.NoDup [2%Z]).
    apply List.NoDup_cons; [intros []|]. apply List.NoDup_nil.
  - change (List.NoDup [1%Z]).
    apply List.NoDup_cons; [intros []|]. apply List.NoDup_nil.
  - intros o [<-|[<-|[]]]; cbn; tauto.
  - intros o [<-|[<-|[]]]; cbn; lra.
  - exists alloc. split; [exact E|]. split; [exact Hcap|].
    vm_compute in E. apply Ret_inj in E. subst alloc.
    eexists _, _. split; [vm_compute; reflexivity|].
    split; [vm_compute; reflexivity|]. split; reflexivity.
Defined.


(** ** The optimisation cycle and its apply gate *)
Section ApplyGate.

(** The efficiency score is asked for before the utilization is stored in
    the dict, so scoring an ad set raises. *)
Lemma score_ad_set_raises (avgs : CampaignAverages) (data : PerformanceData) :
  score_ad_set avgs data = Raise (KeyError "spend_utilization").
Proof. reflexivity. Qed.

Lemma metrics_raise (performance_data : list PerformanceData) :
  performance_data <> [] ->
  _calculate_performance_metrics performance_data = Raise (KeyError "spend_utilization").
Proof.
  destruct performance_data as [|d r]; [contradiction|]. intros _. reflexivity.
Qed.

(** Hence a cycle never gets to the gate: it ends without data or with the
    error, and the database is as it was. *)
Lemma optimize_never_applies (db : DB) (campaign : Campaign) (now : Z) :
  optimize_campaign_budgets db campaign now
  = (db, OFailure "Insufficient performance data")
  \/ optimize_campaign_budgets db campaign now
     = (db, OError (KeyError "spend_utilization")).
Proof.
  unfold optimize_campaign_budgets.
  destruct (_get_performance_data db campaign now) as [|d r] eqn:E; [now left|].
  right. rewrite metrics_raise by discriminate. reflexivity.
Qed.

(** The own-change test of the apply loop. *)
Definition clears_threshold (new_allocation : gmap Z Q) (ad_set : AdSet) : bool :=
  Qgeb (Qabs (alloc_get new_allocation (as_id ad_set) (as_allocated_budget ad_set)
              - as_allocated_budget ad_set))
       (as_allocated_budget ad_set * min_budget_change_threshold).

(** A row that the apply loop writes for one of [ad_sets]. *)
Definition written_row (new_allocation : gmap Z Q) (ad_sets : list AdSet) (x : AdSet)
    : Prop :=
  exists a, In a ad_sets /\ clears_threshold new_allocation a = true
    /\ x = with_allocated_budget a
             (alloc_get new_allocation (as_id a) (as_allocated_budget a)).

Lemma apply_changes_sound (new_allocation : gmap Z Q) (ad_sets : list AdSet) :
  forall (db : DB) (previous : gmap Z Q) (changes : list Change),
    (forall a, In a ad_sets -> ~ as_allocated_budget a == 0) ->
    exists db' previous' changes',
      apply_changes db ad_sets new_allocation previous changes
      = (db', Ret (previous', changes'))
      /\ optimizations db' = optimizations db
      /\ (forall x, In x (adsets db') ->
            In x (adsets db) \/ written_row new_allocation ad_sets x).
Proof.
  induction ad_sets as [|a r IH]; intros db previous changes Hnz.
  - exists db, previous, changes. cbn. tauto.
  - cbn [apply_changes].
    assert (Hr : forall a', In a' r -> ~ as_allocated_budget a' == 0)
      by (intros a' Ha'; apply Hnz; now right).
    destruct (Qgeb _ _) eqn:Ec.
    + rewrite truediv_ret by (apply Hnz; now left).
      match goal with
      | |- context [apply_changes ?d r _ ?p ?c] =>
          destruct (IH d p c Hr) as (db' & p' & c' & E & Ho & Hrows)
      end.
      exists db', p', c'. split; [exact E|]. split; [exact Ho|].
      intros x Hx. destruct (Hrows x Hx) as [Hin|(a' & Ha' & Hc' & ->)].
      * cbn in Hin. apply in_map_iff in Hin. destruct Hin as [y [Ey Hy]].
        destruct (as_id y =? as_id a)%Z; [|left; now subst].
        right. exists a. split; [now left|]. split; [exact Ec | now subst].
      * right. exists a'. split; [now right|]. tauto.
    + destruct (IH db (<[as_id a := as_allocated_budget a]> previous) changes Hr)
        as (db' & p' & c' & E & Ho & Hrows).
      exists db', p', c'. split; [exact E|]. split; [exact Ho|].
      intros x Hx. destruct (Hrows x Hx) as [Hin|(a' & Ha' & Hc' & ->)]; [now left|].
      right. exists a'. split; [now right|]. tauto.
Qed.

(** The apply step, when no ad set of the campaign has a budget of zero:
    one audit record is appended, and a row of the ad sets is new only if it
    is the write of an ad set whose own change is at least 5% of its
    previous budget. *)
Lemma apply_creates_one_record (db : DB) (campaign : Campaign)
    (new_allocation : gmap Z Q) (opportunities : list Opportunity) (now : Z) :
  (forall a, In a (adset_set db (c_id campaign)) -> ~ as_allocated_budget a == 0) ->
  exists db' record changes improvement reason,
    _apply_budget_optimization db campaign new_allocation opportunities now
    = (db', OSuccess (bo_id record) changes improvement reason (length opportunities))
    /\ optimizations db' = optimizations db ++ [record]
    /\ (forall x, In x (adsets db') ->
          In x (adsets db)
          \/ written_row new_allocation (adset_set db (c_id campaign)) x).
Proof.
  intros Hnz. unfold _apply_budget_optimization.
  destruct (apply_changes_sound new_allocation (adset_set db (c_id campaign))
              db ∅ [] Hnz) as (db1 & p & c & E & Ho & Hrows).
  rewrite E. eexists _, _, _, _, _. split; [reflexivity|].
  cbn [insert_optimization optimizations adsets]. rewrite Ho. tauto.
Qed.

End ApplyGate.

(** The scoring of one ad set in the order in which section 4.4 of the
    specification gives it: the utilization first, then the efficiency score
    that reads it. *)
Definition spec_score_ad_set (campaign_averages : CampaignAverages)
    (data : PerformanceData) : py ScoredAdSet :=
  let performance_score := _calculate_performance_score data campaign_averages in
  let spend_utilization :=
    if Qgtb (pd_allocated_budget data) 0
    then pd_spend data / pd_allocated_budget data else 0 in
  efficiency_score ← _calculate_efficiency_score data
    {| k_performance_score := Some performance_score;
       k_efficiency_score := None;
       k_spend_utilization := Some spend_utilization |};
  Ret {| sa_data := data;
         sa_performance_score := performance_score;
         sa_efficiency_score := efficiency_score;
         sa_spend_utilization := spend_utilization |}.

(** The cycle of [optimize_campaign_budgets] from such scores on. *)
Definition spec_cycle (db : DB) (campaign : Campaign) (now : Z) : DB * OptimizeResult :=
  let performance_data := _get_performance_data db campaign now in
  let campaign_totals := campaign_totals_of performance_data in
  let campaign_averages := campaign_averages_of campaign_totals in
  match mapM (spec_score_ad_set campaign_averages) performance_data with
  | Raise e => (db, OError e)
  | Ret scored =>
      let metrics := MetricsOf (sort_by_score scored) campaign_totals campaign_averages in
      let opportunities := _identify_optimization_opportunities metrics in
      match _calculate_optimal_allocation campaign metrics opportunities with
      | Raise e => (db, OError e)
      | Ret new_allocation =>
          if _should_apply_changes db campaign new_allocation
          then _apply_budget_optimization db campaign new_allocation opportunities now
          else (db, OFailure "Budget changes below threshold or too risky")
      end
  end.

(** A campaign with two ad sets of budget 1000 and a week of analytics: the
    first earns 4000 on a spend of 900, the second nothing. *)
Definition db_budget : DB :=
  {| adsets := [ad_set_of 1 1 "google" 1000; ad_set_of 2 1 "meta" 1000];
     creatives := [];
     abtests := [];
     analytics := [analytics_row 1 (Some 1%Z) 2 10000 500 50 900 4000;
                   analytics_row 1 (Some 2%Z) 2 10000 200 0 900 0];
     optimizations := [] |}.

(** The same campaign with a third ad set whose budget is 0. *)
Definition db_zero_budget : DB :=
  {| adsets := [ad_set_of 1 1 "google" 1000; ad_set_of 2 1 "meta" 1000;
                ad_set_of 3 1 "linkedin" 0];
     creatives := [];
     abtests := [];
     analytics := analytics db_budget;
     optimizations := [] |}.

(** 200 moved from the second ad set to the first. *)
Definition alloc_1200_800 : gmap Z Q := <[1%Z := 1200]> (<[2%Z := 800]> ∅).

(** C4, at the failing inputs.  (1) For the campaign with performance data
    the cycle ends with the [KeyError] of the scoring loop: the gate is not
    reached, the answer is neither the below-threshold one nor an applied
    one, and no record is created; with the utilization stored before the
    efficiency score is computed, the same cycle moves 200 from the second ad
    set to the first, a change of 400 on 2000 that passes the gate, and
    creates one record.  (2) Called on the campaign with a zero-budget ad
    set, the apply step passes the gate, writes the budgets 1200 and 800,
    then divides by the budget 0: it returns the error and creates no
    record. *)
Theorem apply_gate_failures :
  (optimize_campaign_budgets db_budget spring_campaign four_days
   = (db_budget, OError (KeyError "spend_utilization"))
   /\ exists db' id changes improvement reason,
        spec_cycle db_budget spring_campaign four_days
        = (db', OSuccess id changes improvement reason 2)
        /\ length (optimizations db') = 1%nat
        /\ map (fun a => Qred (as_allocated_budget a)) (adsets db') = [1200; 800])
  /\ (_should_apply_changes db_zero_budget spring_campaign alloc_1200_800 = true
      /\ exists db',
           _apply_budget_optimization db_zero_budget spring_campaign alloc_1200_800
             one_each four_days = (db', OError ZeroDivisionError)
           /\ optimizations db' = []
           /\ map as_allocated_budget (adsets db') = [1200; 800; 0]).
Proof.
  split; [split|split].
  - reflexivity.
  - destruct (spec_cycle db_budget spring_campaign four_days) as [db' r] eqn:E.
    vm_compute in E. injection E as <- <-.
    eexists _, _, _, _, _. split; [reflexivity|]. split; [reflexivity|].
    vm_compute. reflexivity.
  - vm_compute. reflexivity.
  - eexists. split; [vm_compute; reflexivity|]. split; reflexivity.
Qed.

(** * Further properties of the two engines *)

(** ** The two-proportion test on ordinary counts *)
Section TwoProportionMore.

Variable M : MathLib.

Lemma inject_Z_pos (n : Z) : (0 < n)%Z -> 0 < inject_Z n.
Proof. intros H. change 0 with (inject_Z 0). now rewrite <- Zlt_Qlt. Qed.

(** Rates are compared as the cross products of the counts. *)
Lemma rate_lt_cross (sa ta sb tb : Z) :
  (0 < ta)%Z -> (0 < tb)%Z ->
  (inject_Z sa / inject_Z ta < inject_Z sb / inject_Z tb <-> (sa * tb < sb * ta)%Z).
Proof.
  intros Hta Htb.
  pose proof (inject_Z_pos ta Hta) as Ha. pose proof (inject_Z_pos tb Htb) as Hb.
  rewrite Zlt_Qlt, !inject_Z_mult.
  assert (Hc : 0 < inject_Z ta * inject_Z tb) by (apply Qmult_lt_0_compat; assumption).
  rewrite <- (Qmult_lt_r _ _ _ Hc).
  assert (E1 : inject_Z sa / inject_Z ta * (inject_Z ta * inject_Z tb)
               == inject_Z sa * inject_Z tb) by (field; lra).
  assert (E2 : inject_Z sb / inject_Z tb * (inject_Z ta * inject_Z tb)
               == inject_Z sb * inject_Z ta) by (field; lra).
  rewrite E1, E2. reflexivity.
Qed.

(** X1. With a positive number of trials on both sides, when the test gets
    past its two guards (its result carries a z-score), the winner is 'A',
    'B' or 'tie', never 'inconclusive'.  It is 'A' only when
    [successes_a * trials_b] is the larger cross product of the counts, 'B'
    only when [successes_b * trials_a] is, and it is 'tie' whenever the two
    cross products are equal.  The result carries the two rates. *)
Theorem two_proportion_winner (sa ta sb tb : Z) (r : TestResult) :
  (0 < ta)%Z -> (0 < tb)%Z ->
  _two_proportion_z_test M sa ta sb tb = Ret r -> tr_z_score r <> None ->
  (tr_winner r = "A"%string -> (sb * ta < sa * tb)%Z)
  /\ (tr_winner r = "B"%string -> (sa * tb < sb * ta)%Z)
  /\ ((sa * tb = sb * ta)%Z -> tr_winner r = "tie"%string)
  /\ (tr_winner r = "A"%string \/ tr_winner r = "B"%string
      \/ tr_winner r = "tie"%string)
  /\ tr_p_a r = Some (inject_Z sa / inject_Z ta)
  /\ tr_p_b r = Some (inject_Z sb / inject_Z tb).
Proof.
  intros Hta Htb Hr Hz. unfold _two_proportion_z_test in Hr.
  destruct ((ta =? 0)%Z || (tb =? 0)%Z).
  { apply Ret_inj in Hr. subst r. now contradiction Hz. }
  destruct (pooled_se M sa ta sb tb) as [se|e]; py_step; cbn [mbind py_bind] in Hr;
    [|discriminate].
  destruct (Qeq_bool se 0).
  { apply Ret_inj in Hr. subst r. now contradiction Hz. }
  destruct (py_sqrt M _) as [sd|e]; cbn [mbind py_bind] in Hr; [|discriminate].
  apply Ret_inj in Hr. subst r. cbn [tr_winner tr_p_a tr_p_b].
  pose proof (rate_lt_cross sa ta sb tb Hta Htb) as Hab.
  pose proof (rate_lt_cross sb tb sa ta Htb Hta) as Hba.
  destruct (Qgtb (inject_Z sa / inject_Z ta) (inject_Z sb / inject_Z tb)) eqn:Ea.
  - apply Qgtb_gt in Ea. apply Hba in Ea.
    split; [intros _; exact Ea|]. split; [discriminate|]. split; [lia|].
    split; [now left|]. split; reflexivity.
  - apply Qgtb_le in Ea.
    destruct (Qgtb (inject_Z sb / inject_Z tb) (inject_Z sa / inject_Z ta)) eqn:Eb.
    + apply Qgtb_gt in Eb. apply Hab in Eb.
      split; [discriminate|]. split; [intros _; exact Eb|]. split; [lia|].
      split; [right; now left|]. split; reflexivity.
    + split; [discriminate|]. split; [discriminate|]. split; [reflexivity|].
      split; [right; now right|]. split; reflexivity.
Qed.

(** X2. For counts below 2^52 in size, with trials on both sides: successes
    that add up to more than the trials (or to less than zero) put the
    pooled proportion outside [0, 1], and the square root of the standard
    error raises [ValueError]. *)
Theorem two_proportion_value_error (sa ta sb tb : Z) :
  (0 < ta < 2 ^ 52)%Z -> (0 < tb < 2 ^ 52)%Z ->
  (- 2 ^ 52 < sa < 2 ^ 52)%Z -> (- 2 ^ 52 < sb < 2 ^ 52)%Z ->
  (ta + tb < sa + sb)%Z \/ (sa + sb < 0)%Z ->
  _two_proportion_z_test M sa ta sb tb = Raise (ValueError "math domain error").
Proof.
  intros [Hta _] [Htb _] _ _ Hout. unfold _two_proportion_z_test.
  replace ((ta =? 0)%Z || (tb =? 0)%Z) with false
    by (symmetry; apply orb_false_iff; split; apply Z.eqb_neq; lia).
  unfold pooled_se.
  pose proof (inject_Z_pos (ta + tb) ltac:(lia)) as Hden.
  rewrite truediv_ret by lra. py_step.
  set (p := inject_Z (sa + sb) / inject_Z (ta + tb)).
  assert (Hp : 1 < p \/ p < 0).
  { destruct Hout as [H|H]; [left|right]; unfold p.
    - apply Qlt_shift_div_l; [exact Hden|]. rewrite Qmult_1_l. now rewrite <- Zlt_Qlt.
    - apply Qlt_shift_div_r; [exact Hden|]. rewrite Qmult_0_l.
      change 0 with (inject_Z 0). now rewrite <- Zlt_Qlt. }
  assert (Hinv : 0 < 1 / inject_Z ta + 1 / inject_Z tb).
  { pose proof (inject_Z_pos ta Hta). pose proof (inject_Z_pos tb Htb).
    assert (0 < 1 / inject_Z ta) by (apply Qlt_shift_div_l; lra).
    assert (0 < 1 / inject_Z tb) by (apply Qlt_shift_div_l; lra). lra. }
  assert (Hneg : pooled_radicand p ta tb < 0).
  { unfold pooled_radicand.
    assert (Hpp : p * (1 - p) < 0) by (destruct Hp; nra).
    set (u := p * (1 - p)) in *. set (v := 1 / inject_Z ta + 1 / inject_Z tb) in *. nra. }
  unfold py_sqrt. apply Qltb_lt in Hneg. rewrite Hneg. reflexivity.
Qed.

End TwoProportionMore.

(** ** Exchanging the two sides of the test *)
Section TwoProportionSymmetry.

Variable M : MathLib.

(** ['A'] and ['B'] exchanged. *)
Definition swap_winner (w : string) : string :=
  if String.eqb w "A" then "B" else if String.eqb w "B" then "A" else w.

Lemma py_sqrt_proper (x y : Q) :
  (forall u v, u == v -> msqrt M u == msqrt M v) -> x == y ->
  match py_sqrt M x, py_sqrt M y with
  | Ret a, Ret b => a == b
  | Raise e1, Raise e2 => e1 = e2
  | _, _ => False
  end.
Proof.
  intros Hm E. unfold py_sqrt.
  replace (Qltb y 0) with (Qltb x 0) by (unfold Qltb; now rewrite E).
  destruct (Qltb x 0); [reflexivity | now apply Hm].
Qed.

(** X3. The test does not depend on which variant is called A: with the two
    sides exchanged it returns as well, with the same p-value and with the
    winner's letter exchanged.  ([math.sqrt] is taken to give equal results
    on equal numbers.) *)
Theorem two_proportion_symmetric (sa ta sb tb : Z) (r : TestResult) :
  (forall u v, u == v -> msqrt M u == msqrt M v) ->
  _two_proportion_z_test M sa ta sb tb = Ret r ->
  exists r', _two_proportion_z_test M sb tb sa ta = Ret r'
    /\ tr_p_value r' == tr_p_value r
    /\ tr_winner r' = swap_winner (tr_winner r).
Proof.
  intros Hm Hr. unfold _two_proportion_z_test in *.
  rewrite (orb_comm (tb =? 0)%Z).
  destruct ((ta =? 0)%Z || (tb =? 0)%Z).
  { apply Ret_inj in Hr. subst r. eexists. split; [reflexivity|].
    split; reflexivity. }
  unfold pooled_se in *. rewrite (Z.add_comm sb sa), (Z.add_comm tb ta).
  destruct (truediv _ _) as [p|e]; py_step; cbn [mbind py_bind] in Hr; [|discriminate].
  assert (Erad : pooled_radicand p tb ta == pooled_radicand p ta tb)
    by (unfold pooled_radicand; ring).
  pose proof (py_sqrt_proper _ _ Hm Erad) as Hse.
  destruct (py_sqrt M (pooled_radicand p ta tb)) as [se|e]; cbn [mbind py_bind] in Hr;
    [|discriminate].
  destruct (py_sqrt M (pooled_radicand p tb ta)) as [se'|e]; [|contradiction].
  py_step.
  replace (Qeq_bool se' 0) with (Qeq_bool se 0) by now rewrite Hse.
  destruct (Qeq_bool se 0) eqn:Ese.
  { apply Ret_inj in Hr. subst r. eexists. split; [reflexivity|].
    split; reflexivity. }
  set (pa := inject_Z sa / inject_Z ta) in *.
  set (pb := inject_Z sb / inject_Z tb) in *.
  assert (Ediff : pb * (1 - pb) / inject_Z tb + pa * (1 - pa) / inject_Z ta
                  == pa * (1 - pa) / inject_Z ta + pb * (1 - pb) / inject_Z tb)
    by ring.
  pose proof (py_sqrt_proper _ _ Hm Ediff) as Hsd.
  destruct (py_sqrt M (pa * (1 - pa) / inject_Z ta + pb * (1 - pb) / inject_Z tb))
    as [sd|e]; cbn [mbind py_bind] in Hr; [|discriminate].
  destruct (py_sqrt M (pb * (1 - pb) / inject_Z tb + pa * (1 - pa) / inject_Z ta))
    as [sd'|e]; [|contradiction].
  py_step. apply Ret_inj in Hr. subst r.
  eexists. split; [reflexivity|]. cbn [tr_p_value tr_winner].
  split.
  - assert (Ez : Qabs ((pb - pa) / se') == Qabs ((pa - pb) / se)).
    { assert (E : (pb - pa) / se' == - ((pa - pb) / se)).
      { rewrite Hse. unfold Qdiv. ring. }
      rewrite E. apply Qabs_opp. }
    assert (Ec : norm_cdf M (Qabs ((pb - pa) / se')) == norm_cdf M (Qabs ((pa - pb) / se)))
      by (apply norm_cdf_proper; exact Ez).
    rewrite Ec. reflexivity.
  - unfold swap_winner.
    destruct (Qgtb pa pb) eqn:Ea, (Qgtb pb pa) eqn:Eb; try reflexivity.
    apply Qgtb_gt in Ea, Eb. lra.
Qed.

End TwoProportionSymmetry.

(** ** The declared winner *)
Section DeclaredWinner.

Lemma min_by_p_value_spec (l : list PairTest) : forall best,
  In (min_by_p_value best l) (best :: l)
  /\ forall t, In t (best :: l) -> pt_p_value (min_by_p_value best l) <= pt_p_value t.
Proof.
  induction l as [|x r IH]; intros best; cbn [min_by_p_value].
  - split; [now left|]. intros t [<-|[]]. apply Qle_refl.
  - destruct (Qltb (pt_p_value x) (pt_p_value best)) eqn:E.
    + apply Qltb_lt in E. destruct (IH x) as [Hin Hmin]. split.
      * destruct Hin as [<-|Hin]; [right; now left | right; now right].
      * intros t [<-|[<-|Ht]].
        -- apply Qle_trans with (pt_p_value x); [apply Hmin; now left | lra].
        -- apply Hmin. now left.
        -- apply Hmin. now right.
    + apply Qltb_ge in E. destruct (IH best) as [Hin Hmin]. split.
      * destruct Hin as [<-|Hin]; [now left | right; now right].
      * intros t [<-|[<-|Ht]].
        -- apply Hmin. now left.
        -- apply Qle_trans with (pt_p_value best); [apply Hmin; now left | exact E].
        -- apply Hmin. now right.
Qed.

(** X4. When at least one pairwise test is significant, the winner is taken
    from a significant test whose p-value no other significant test
    undercuts: its winner letter is declared, the confidence is one minus its
    p-value, the improvement its effect size in percent.  When none is
    significant there is no winner and the confidence is 0. *)
Theorem declare_winner_lowest_p (ab_test : ABTest) (sr : StatisticalResults) :
  let tests := get_statistical_tests sr in
  let w := _declare_winner ab_test sr in
  ((exists t, In t tests /\ pt_is_significant t = true) ->
   exists best,
     In best tests /\ pt_is_significant best = true
     /\ (forall t, In t tests -> pt_is_significant t = true ->
                   pt_p_value best <= pt_p_value t)
     /\ w_winner w = pt_winner best
     /\ w_confidence w = 1 - pt_p_value best
     /\ w_improvement w = pt_effect_size best * 100
     /\ w_p_value w = Some (pt_p_value best))
  /\ ((forall t, In t tests -> pt_is_significant t = false) ->
      w_winner w = None /\ w_confidence w = 0.0 /\ has_winner w = false).
Proof.
  intros tests w. subst w. unfold _declare_winner. fold tests. split.
  - intros [t0 [Hin0 Hs0]].
    destruct (List.filter pt_is_significant tests) as [|t r] eqn:E.
    { assert (H : In t0 (List.filter pt_is_significant tests))
        by (apply filter_In; tauto).
      rewrite E in H. destruct H. }
    destruct (min_by_p_value_spec r t) as [Hin Hmin].
    rewrite <- E in Hin. apply filter_In in Hin. destruct Hin as [Hin Hs].
    exists (min_by_p_value t r). cbn.
    split; [exact Hin|]. split; [exact Hs|].
    split; [|repeat split].
    intros t' Ht' Hs'. apply Hmin. rewrite <- E. apply filter_In. tauto.
  - intros Hnone.
    destruct (List.filter pt_is_significant tests) as [|t r] eqn:E.
    + cbn. tauto.
    + assert (H : In t (List.filter pt_is_significant tests)) by (rewrite E; now left).
      apply filter_In in H. destruct H as [H Hs]. rewrite (Hnone t H) in Hs. discriminate.
Qed.

End DeclaredWinner.

(** ** What an analysis changes in the database *)
Section AnalysisEffects.

Variable M : MathLib.

(** The tables apart from the flags of creatives and the row of the test. *)
Definition same_rows (db db' : DB) : Prop :=
  adsets db' = adsets db /\ analytics db' = analytics db
  /\ optimizations db' = optimizations db
  /\ map cr_id (creatives db') = map cr_id (creatives db)
  /\ map ab_id (abtests db') = map ab_id (abtests db).

Lemma same_rows_refl (db : DB) : same_rows db db.
Proof. unfold same_rows. tauto. Qed.

Lemma same_rows_trans (db1 db2 db3 : DB) :
  same_rows db1 db2 -> same_rows db2 db3 -> same_rows db1 db3.
Proof. unfold same_rows. intros (?&?&?&?&?) (?&?&?&?&?). repeat split; congruence. Qed.

Lemma save_creative_same_rows (c : AdCreative) (db : DB) :
  same_rows db (save_creative c db).
Proof.
  unfold same_rows. cbn. repeat split. rewrite map_map. apply map_ext.
  intros x. destruct (cr_id x =? cr_id c)%Z eqn:E; [|reflexivity].
  apply Z.eqb_eq in E. now rewrite E.
Qed.

Lemma save_abtest_same_rows (t : ABTest) (db : DB) :
  same_rows db (save_abtest t db).
Proof.
  unfold same_rows. cbn. repeat split. rewrite map_map. apply map_ext.
  intros x. destruct (ab_id x =? ab_id t)%Z eqn:E; [|reflexivity].
  apply Z.eqb_eq in E. now rewrite E.
Qed.

Lemma save_abtest_row (t : ABTest) (db : DB) (x : ABTest) :
  In x (abtests (save_abtest t db)) -> ab_id x = ab_id t -> x = t.
Proof.
  cbn. intros Hx Hid. apply in_map_iff in Hx. destruct Hx as [y [Ey Hy]].
  destruct (ab_id y =? ab_id t)%Z eqn:E; [now subst|].
  subst y. apply Z.eqb_neq in E. contradiction.
Qed.

Lemma fold_deactivate_rows (q : AdCreative -> bool) (l : list AdCreative) :
  forall d,
    let d' := fold_left (fun db c => if q c then save_creative (deactivate c) db else db)
                l d in
    same_rows d d' /\ abtests d' = abtests d.
Proof.
  induction l as [|c r IH]; intros d; cbn [fold_left].
  - split; [apply same_rows_refl | reflexivity].
  - destruct (q c).
    + destruct (IH (save_creative (deactivate c) d)) as [H1 H2]. split.
      * eapply same_rows_trans; [apply save_creative_same_rows | exact H1].
      * rewrite H2. reflexivity.
    + apply IH.
Qed.

Lemma pause_rows (db db' : DB) (ab_test : ABTest) (w : WinnerResult) :
  _pause_losing_variants db ab_test w = Ret db' ->
  same_rows db db' /\ abtests db' = abtests db
  /\ (has_winner w = false -> db' = db).
Proof.
  unfold _pause_losing_variants.
  destruct (has_winner w); cbn [negb].
  2:{ intros H. apply Ret_inj in H. subst.
      split; [apply same_rows_refl | split; reflexivity]. }
  destruct (test_creatives db ab_test) as [l|e]; py_step; [|discriminate].
  intros H. apply Ret_inj in H. subst db'.
  destruct (fold_deactivate_rows
              (fun c => negb (label_matches (w_winner_name w)
                                (_get_variant_type c (ab_test_type ab_test)))) l db)
    as [H1 H2].
  split; [exact H1 | split; [exact H2 | discriminate]].
Qed.

Ltac completed_case Hab Hw :=
  match goal with
  | H : ACompleted _ _ _ _ = ACompleted _ _ _ _ |- _ =>
      injection H as <- <- <- _; intros; try reflexivity; try congruence;
      match goal with
      | Hx : In _ (abtests _) |- _ =>
          rewrite Hab in Hx; apply save_abtest_row in Hx; assumption
      end
  end.

Lemma finalize_effects (db : DB) (ab_test : ABTest) (sr : StatisticalResults)
    (w : WinnerResult) (stop_reason : string) (now : Z) :
  let '(db', ab', r) := _finalize_test db ab_test sr w stop_reason now in
  same_rows db db'
  /\ ab_id ab' = ab_id ab_test /\ ab_started_at ab' = ab_started_at ab_test
  /\ ab_status ab' = "completed"%string /\ ab_completed_at ab' = Some now
  /\ ab_statistical_significance ab' = Some (w_confidence w)
  /\ (forall w' sr' reason' recs, r = ACompleted w' sr' reason' recs ->
        w' = w /\ sr' = sr /\ reason' = stop_reason
        /\ (forall x, In x (abtests db') -> ab_id x = ab_id ab_test -> x = ab')
        /\ (has_winner w = false -> creatives db' = creatives db)).
Proof.
  unfold _finalize_test.
  destruct (has_winner w) eqn:Hw.
  - destruct (_find_winning_creative db _ _) as [found|e].
    2:{ cbn. repeat split; try apply same_rows_refl; discriminate. }
    destruct found as [c|].
    + destruct (_pause_losing_variants _ _ w) as [db'|e] eqn:Ep.
      * destruct (pause_rows _ _ _ _ Ep) as (Hp & Hab & _).
        split; [|cbn; repeat split; completed_case Hab Hw].
        eapply same_rows_trans; [apply save_creative_same_rows|].
        eapply same_rows_trans; [apply save_abtest_same_rows | exact Hp].
      * split; [|cbn; repeat split; discriminate].
        eapply same_rows_trans; [apply save_creative_same_rows|].
        apply save_abtest_same_rows.
    + destruct (_pause_losing_variants _ _ w) as [db'|e] eqn:Ep.
      * destruct (pause_rows _ _ _ _ Ep) as (Hp & Hab & _).
        split; [|cbn; repeat split; completed_case Hab Hw].
        eapply same_rows_trans; [apply save_abtest_same_rows | exact Hp].
      * split; [|cbn; repeat split; discriminate].
        apply save_abtest_same_rows.
  - unfold _pause_losing_variants. rewrite Hw. cbn [negb].
    split; [apply save_abtest_same_rows|]. cbn. repeat split.
    + now injection H as <- _ _ _.
    + now injection H as _ <- _ _.
    + now injection H as _ _ <- _.
    + intros x Hx Hid. apply in_map_iff in Hx. destruct Hx as [y [Ey Hy]].
      destruct (ab_id y =? ab_id ab_test)%Z eqn:E; [now subst|].
      subst y. apply Z.eqb_neq in E. contradiction.
Qed.

Lemma finalize_outcome (db : DB) (ab_test : ABTest) (sr : StatisticalResults)
    (w : WinnerResult) (stop_reason : string) (now : Z) :
  let '(_, _, r) := _finalize_test db ab_test sr w stop_reason now in
  (exists recs, r = ACompleted w sr stop_reason recs) \/ (exists e, r = AError e).
Proof.
  unfold _finalize_test.
  destruct (if has_winner w then _ else _) as [found|e];
    [|right; eexists; reflexivity].
  destruct found as [c|];
    destruct (_pause_losing_variants _ _ w) as [db'|e];
    [left; eexists; reflexivity | right; eexists; reflexivity
    |left; eexists; reflexivity | right; eexists; reflexivity].
Qed.

(** X5. Whatever the outcome, an analysis adds and deletes no row: ad sets,
    analytics and optimization records are untouched, and the creatives
    and tests keep their ids in the same order; the test keeps its id.  When
    the answer is a refusal or 'continue', nothing at all is written and the
    test object is unchanged. *)
Theorem analysis_keeps_rows (db : DB) (ab_test : ABTest) (now : Z) :
  let '(db', ab', r) := run_ab_test_analysis M db ab_test now in
  same_rows db db' /\ ab_id ab' = ab_id ab_test
  /\ ((forall w sr reason recs, r <> ACompleted w sr reason recs) ->
      (forall e, r <> AError e) -> db' = db /\ ab' = ab_test).
Proof.
  unfold run_ab_test_analysis.
  destruct (negb (str_in _ _)).
  { split; [apply same_rows_refl|]. split; reflexivity || (intros; split; reflexivity). }
  destruct (length _ <? 2)%nat.
  { split; [apply same_rows_refl|]. split; reflexivity || (intros; split; reflexivity). }
  destruct (_perform_statistical_analysis _ _ _) as [sr|e].
  2:{ split; [apply same_rows_refl|]. split; reflexivity || (intros; split; reflexivity). }
  destruct (_should_stop_test ab_test sr now) as [[|] reason].
  2:{ split; [apply same_rows_refl|]. split; reflexivity || (intros; split; reflexivity). }
  pose proof (finalize_effects db ab_test sr (_declare_winner ab_test sr) reason now) as H.
  pose proof (finalize_outcome db ab_test sr (_declare_winner ab_test sr) reason now) as Ho.
  destruct (_finalize_test _ _ _ _ _ _) as [[db' ab'] r].
  destruct H as (Hrows & Hid & _).
  split; [exact Hrows|]. split; [exact Hid|].
  intros Hc He. exfalso. destruct Ho as [[recs Hr]|[e Hr]].
  - exact (Hc _ _ _ _ Hr).
  - exact (He _ Hr).
Qed.

(** X6. When an analysis completes a test, the stop rule said stop with the
    reported reason, the winner is the one [_declare_winner] computes from
    the reported statistics, the returned test is 'completed' at the time of
    the call with the winner's confidence as its significance, the row
    stored under the test's id is that object, and with no winner declared
    no creative is changed. *)
Theorem analysis_completion (db db' : DB) (ab_test ab' : ABTest) (now : Z)
    (w : WinnerResult) (sr : StatisticalResults) (reason : string)
    (recs : list Recommendation) :
  run_ab_test_analysis M db ab_test now = (db', ab', ACompleted w sr reason recs) ->
  ab_status ab_test = "running"%string
  /\ _perform_statistical_analysis M (_get_test_data db ab_test now)
       (ab_test_type ab_test) = Ret sr
  /\ _should_stop_test ab_test sr now = (true, reason)
  /\ w = _declare_winner ab_test sr
  /\ ab_status ab' = "completed"%string /\ ab_completed_at ab' = Some now
  /\ ab_started_at ab' = ab_started_at ab_test
  /\ ab_statistical_significance ab' = Some (w_confidence w)
  /\ (forall x, In x (abtests db') -> ab_id x = ab_id ab_test -> x = ab')
  /\ (has_winner w = false -> creatives db' = creatives db).
Proof.
  unfold run_ab_test_analysis.
  destruct (negb (str_in _ _)) eqn:Es; [discriminate|].
  destruct (length _ <? 2)%nat; [discriminate|].
  destruct (_perform_statistical_analysis _ _ _) as [sr0|e]; [|discriminate].
  destruct (_should_stop_test ab_test sr0 now) as [[|] reason0] eqn:Estop;
    [|discriminate].
  pose proof (finalize_effects db ab_test sr0 (_declare_winner ab_test sr0) reason0 now)
    as H.
  destruct (_finalize_test _ _ _ _ _ _) as [[db1 ab1] r].
  intros E. injection E as -> -> ->.
  destruct H as (_ & _ & Hst & Hs & Hc & Hsig & Hr).
  destruct (Hr _ _ _ _ eq_refl) as (-> & -> & -> & Hrow & Hcr).
  split.
  { apply negb_false_iff in Es. unfold str_in in Es. cbn in Es.
    rewrite orb_false_r in Es. now apply String.eqb_eq in Es. }
  repeat split; assumption || reflexivity.
Qed.

End AnalysisEffects.

(** ** Which creatives a finished test pauses *)
Section PausedVariants.

Lemma find_by_id_filter (g : AdCreative -> bool) (rows : list AdCreative)
    (x : AdCreative) :
  List.NoDup (map cr_id rows) -> In x rows ->
  find (fun c => (cr_id c =? cr_id x)%Z) (List.filter g rows)
  = if g x then Some x else None.
Proof.
  induction rows as [|c r IH]; intros Hnd Hin; [destruct Hin|].
  cbn [map] in Hnd. apply List.NoDup_cons_iff in Hnd. destruct Hnd as [Hc Hnd].
  assert (Hother : forall y, In y r -> (cr_id c =? cr_id y)%Z = false).
  { intros y Hy. apply Z.eqb_neq. intros E. apply Hc. rewrite E.
    now apply in_map. }
  cbn [List.filter]. destruct Hin as [->|Hin].
  - destruct (g x) eqn:Eg.
    + cbn [find]. now rewrite Z.eqb_refl.
    + destruct (find _ (List.filter g r)) as [y|] eqn:Ef; [|reflexivity].
      apply find_some in Ef. destruct Ef as [Hy Ey].
      apply filter_In in Hy. destruct Hy as [Hy _].
      apply Z.eqb_eq in Ey. exfalso. apply Hc. rewrite <- Ey. now apply in_map.
  - destruct (g c).
    + cbn [find]. rewrite (Hother x Hin). now apply IH.
    + now apply IH.
Qed.

Lemma fold_save_creatives (f : AdCreative -> AdCreative) (q : AdCreative -> bool) :
  (forall c, cr_id (f c) = cr_id c) ->
  forall l db, List.NoDup (map cr_id l) ->
    creatives (fold_left (fun db c => if q c then save_creative (f c) db else db) l db)
    = map (fun x => match find (fun c => (cr_id c =? cr_id x)%Z) (List.filter q l) with
                    | Some c => f c
                    | None => x
                    end) (creatives db).
Proof.
  intros Hf. induction l as [|c r IH]; intros db Hnd; cbn [fold_left].
  - cbn. symmetry. apply map_id.
  - cbn [map] in Hnd. apply List.NoDup_cons_iff in Hnd. destruct Hnd as [Hc Hnd].
    rewrite (IH _ Hnd). cbn [List.filter]. destruct (q c); [|reflexivity].
    cbn [save_creative creatives]. rewrite map_map. apply map_ext. intros x.
    cbn [find]. rewrite Hf. rewrite (Z.eqb_sym (cr_id x) (cr_id c)).
    destruct (cr_id c =? cr_id x)%Z eqn:E; [|reflexivity].
    rewrite Hf.
    destruct (find _ (List.filter q r)) as [y|] eqn:Ef; [|reflexivity].
    apply find_some in Ef. destruct Ef as [Hy Ey].
    apply filter_In in Hy. destruct Hy as [Hy _]. apply Z.eqb_eq in Ey.
    exfalso. apply Hc. rewrite <- Ey. now apply in_map.
Qed.

Lemma NoDup_map_filter_ids (g : AdCreative -> bool) (rows : list AdCreative) :
  List.NoDup (map cr_id rows) -> List.NoDup (map cr_id (List.filter g rows)).
Proof.
  induction rows as [|c r IH]; intros Hnd; [constructor|].
  cbn [map] in Hnd. apply List.NoDup_cons_iff in Hnd. destruct Hnd as [Hc Hnd].
  cbn [List.filter]. destruct (g c); [|now apply IH].
  cbn [map]. apply List.NoDup_cons; [|now apply IH].
  intros Hin. apply Hc. apply in_map_iff in Hin. destruct Hin as [y [Ey Hy]].
  apply filter_In in Hy. rewrite <- Ey. apply in_map. tauto.
Qed.

Lemma filter_filter_and {A : Type} (p q : A -> bool) (l : list A) :
  List.filter q (List.filter p l) = List.filter (fun x => p x && q x) l.
Proof.
  induction l as [|x r IH]; cbn; [reflexivity|].
  destruct (p x) eqn:Ep; cbn; [destruct (q x)|]; rewrite IH; reflexivity.
Qed.

(** The creatives of the test that do not carry the winner's label. *)
Definition loses (db : DB) (ab_test : ABTest) (started_at : Z) (winner_name : string)
    (c : AdCreative) : bool :=
  creative_in_campaign db (ab_campaign ab_test) c
  && (started_at <=? cr_created_at c)%Z
  && negb (label_matches winner_name (_get_variant_type c (ab_test_type ab_test))).

(** The pause loop, once a winner is declared. *)
Lemma pause_returns (db : DB) (ab_test : ABTest) (w : WinnerResult) (t : Z) :
  List.NoDup (map cr_id (creatives db)) ->
  ab_started_at ab_test = Some t ->
  has_winner w = true ->
  exists db',
    _pause_losing_variants db ab_test w = Ret db'
    /\ creatives db'
       = map (fun c => if loses db ab_test t (w_winner_name w) c then deactivate c else c)
             (creatives db).
Proof.
  intros Hnd Ht Hw.
  unfold _pause_losing_variants. rewrite Hw. cbn [negb].
  unfold test_creatives. rewrite Ht. py_step.
  eexists. split; [reflexivity|].
  rewrite (fold_save_creatives deactivate
             (fun c => negb (label_matches (w_winner_name w)
                               (_get_variant_type c (ab_test_type ab_test)))));
    [|reflexivity | apply NoDup_map_filter_ids; exact Hnd].
  apply map_ext_in. intros x Hx. unfold test_creatives_since.
  rewrite filter_filter_and.
  rewrite (find_by_id_filter _ _ x Hnd Hx). unfold loses.
  cbv beta.
  destruct (creative_in_campaign db (ab_campaign ab_test) x),
           (t <=? cr_created_at x)%Z; cbn [andb]; try reflexivity;
    destruct (negb _); reflexivity.
Qed.

(** X7. With a declared winner and creative ids that are unique,
    [_pause_losing_variants] deactivates exactly the creatives of the
    campaign created since the test started whose label is not the winner's:
    every other creative, and every other table, is left as it was. *)
Theorem pause_deactivates_losers (db db' : DB) (ab_test : ABTest) (w : WinnerResult)
    (t : Z) :
  List.NoDup (map cr_id (creatives db)) ->
  ab_started_at ab_test = Some t ->
  has_winner w = true ->
  _pause_losing_variants db ab_test w = Ret db' ->
  creatives db'
  = map (fun c => if loses db ab_test t (w_winner_name w) c then deactivate c else c)
        (creatives db)
  /\ adsets db' = adsets db /\ abtests db' = abtests db
  /\ analytics db' = analytics db /\ optimizations db' = optimizations db.
Proof.
  intros Hnd Ht Hw Hp.
  destruct (pause_rows _ _ _ _ Hp) as ((Ha & Han & Ho & _ & _) & Hab & _).
  split; [|tauto].
  destruct (pause_returns db ab_test w t Hnd Ht Hw) as (db1 & E & Hc).
  rewrite E in Hp. apply Ret_inj in Hp. subst db1. exact Hc.
Qed.

End PausedVariants.

(** ** Tests that are created and launched *)
Section CreatedTests.

Variable M : MathLib.

Lemma save_inserted_abtest (db : DB) (t t' : ABTest) :
  ab_id t = fresh_id (map ab_id (abtests db)) -> ab_id t' = ab_id t ->
  map (fun x => if (ab_id x =? ab_id t')%Z then t' else x) (abtests db ++ [t])
  = abtests db ++ [t'].
Proof.
  intros Hid Hid'. rewrite map_app. cbn [map]. rewrite Hid', Z.eqb_refl. f_equal.
  rewrite <- (map_id (abtests db)) at 2. apply map_ext_in. intros x Hx.
  pose proof (fresh_id_above (map ab_id (abtests db)) (ab_id x) (in_map _ _ _ Hx)).
  destruct (ab_id x =? ab_id t)%Z eqn:E; [|reflexivity].
  apply Z.eqb_eq in E. lia.
Qed.

(** What creating a test leaves behind: a running test and one creative per
    variant, or, when a variant holds a [None], the error of the insert, the
    draft and the creatives made before it. *)
Lemma create_outcome (db : DB) (campaign : Campaign) (config : TestConfig)
    (t_create t_start : Z) :
  _validate_test_config config = Valid -> adset_set db (c_id campaign) <> [] ->
  exists db' variants,
    creatives db' = creatives db ++ variants
    /\ length variants = length (complete_prefix (dflt (cfg_variants config) []))
    /\ Forall (fun c => cr_created_at c = t_create /\ cr_is_active c = true) variants
    /\ adsets db' = adsets db /\ analytics db' = analytics db
    /\ optimizations db' = optimizations db
    /\ if existsb has_null (dflt (cfg_variants config) [])
       then create_automated_ab_test db campaign config t_create t_start
            = (db', CError IntegrityError)
            /\ abtests db' = abtests db ++ [new_abtest db campaign config]
       else exists ab_test launch,
            create_automated_ab_test db campaign config t_create t_start
            = (db', CSuccess ab_test variants launch)
            /\ ab_status ab_test = "running"%string
            /\ ab_started_at ab_test = Some t_start
            /\ ab_campaign ab_test = c_id campaign
            /\ ab_id ab_test = fresh_id (map ab_id (abtests db))
            /\ abtests db' = abtests db ++ [ab_test].
Proof.
  intros Hv Ha.
  destruct (adset_set db (c_id campaign)) as [|ad_set rest] eqn:Ea; [contradiction|].
  destruct (create_until_launch db campaign config t_create t_start ad_set rest Hv Ea)
    as (db1 & variants & Hc & Hl & Hf & Hab & Had & Han & Hop & _ & E).
  assert (Hf' : Forall (fun c => cr_created_at c = t_create /\ cr_is_active c = true)
                       variants)
    by (revert Hf; apply List.Forall_impl; tauto).
  destruct (existsb has_null (dflt (cfg_variants config) [])) eqn:Hn.
  - exists db1, variants. tauto.
  - exists (save_abtest (started (new_abtest db campaign config) t_start) db1),
           variants.
    cbn [save_abtest creatives adsets analytics optimizations abtests].
    repeat (split; [assumption|]).
    eexists _, _. split; [exact E|].
    repeat (split; [reflexivity|]).
    rewrite Hab. apply save_inserted_abtest; reflexivity.
Qed.

(** X8. For a valid configuration and a campaign with an ad set.  When no
    key of a variant holds [None], creating a test answers success: the test
    is stored under a fresh id as the last row, 'running' and started at the
    clock of the launch; one active creative per variant is appended,
    stamped with the clock of its creation.  When a key of some variant
    holds [None], the insert of that variant's creative fails: the call
    answers the error, the draft test stays as the last row, never started,
    and the creatives of the variants before that one stay as well.  Ad
    sets, analytics and optimizations are untouched either way. *)
Theorem create_stores_running_test (db : DB) (campaign : Campaign) (config : TestConfig)
    (t_create t_start : Z) :
  _validate_test_config config = Valid -> adset_set db (c_id campaign) <> [] ->
  (existsb has_null (dflt (cfg_variants config) []) = false ->
   exists db' ab_test variants launch,
     create_automated_ab_test db campaign config t_create t_start
     = (db', CSuccess ab_test variants launch)
     /\ ab_status ab_test = "running"%string
     /\ ab_started_at ab_test = Some t_start
     /\ ab_id ab_test = fresh_id (map ab_id (abtests db))
     /\ abtests db' = abtests db ++ [ab_test]
     /\ creatives db' = creatives db ++ variants
     /\ length variants = length (dflt (cfg_variants config) [])
     /\ Forall (fun c => cr_created_at c = t_create /\ cr_is_active c = true) variants
     /\ adsets db' = adsets db /\ analytics db' = analytics db
     /\ optimizations db' = optimizations db)
  /\ (existsb has_null (dflt (cfg_variants config) []) = true ->
      exists db' draft created,
        create_automated_ab_test db campaign config t_create t_start
        = (db', CError IntegrityError)
        /\ abtests db' = abtests db ++ [draft]
        /\ ab_status draft = "draft"%string /\ ab_started_at draft = None
        /\ ab_campaign draft = c_id campaign
        /\ creatives db' = creatives db ++ created
        /\ length created = length (complete_prefix (dflt (cfg_variants config) []))
        /\ Forall (fun c => cr_created_at c = t_create /\ cr_is_active c = true) created
        /\ adsets db' = adsets db /\ analytics db' = analytics db
        /\ optimizations db' = optimizations db).
Proof.
  intros Hv Ha.
  destruct (create_outcome db campaign config t_create t_start Hv Ha)
    as (db' & variants & Hc & Hl & Hf & Had & Han & Hop & H).
  split; intros Hn; rewrite Hn in H.
  - destruct H as (ab_test & launch & E & H1 & H2 & _ & H3 & H4).
    rewrite (complete_prefix_all _ Hn) in Hl.
    exists db', ab_test, variants, launch. tauto.
  - destruct H as [E Hab].
    exists db', (new_abtest db campaign config), variants.
    split; [exact E|]. split; [exact Hab|].
    split; [reflexivity|]. split; [reflexivity|]. split; [reflexivity|]. tauto.
Qed.

(** X9. The variants are created before [started_at] is stamped, and the
    test's data are the creatives created at or after [started_at].  So when
    the clock has advanced in between and every creative already there is
    older than the start, a test that was just launched has no data: every
    analysis of it, at any later time, answers 'Insufficient test data' and
    changes nothing. *)
Theorem launched_test_has_no_data (db db' : DB) (campaign : Campaign)
    (config : TestConfig) (t_create t_start now : Z) (ab_test : ABTest)
    (variants : list AdCreative) (launch : LaunchResult) :
  create_automated_ab_test db campaign config t_create t_start
  = (db', CSuccess ab_test variants launch) ->
  (t_create < t_start)%Z ->
  Forall (fun c => (cr_created_at c < t_start)%Z) (creatives db) ->
  _get_test_data db' ab_test now = []
  /\ run_ab_test_analysis M db' ab_test now
     = (db', ab_test, AFailure "Insufficient test data").
Proof.
  intros E Hlt Hold.
  destruct (_validate_test_config config) eqn:Hv.
  2:{ unfold create_automated_ab_test in E. rewrite Hv in E. discriminate. }
  destruct (adset_set db (c_id campaign)) as [|a rest] eqn:Ha.
  { unfold create_automated_ab_test, _create_test_variants in E. rewrite Hv in E.
    cbn [ab_campaign new_abtest] in E.
    change (adset_set (insert_abtest ?t db) (c_id campaign))
      with (adset_set db (c_id campaign)) in E.
    rewrite Ha in E. discriminate. }
  destruct (create_outcome db campaign config t_create t_start Hv) as
    (db1 & vs1 & Hcr & _ & Hf & _ & _ & _ & H).
  { rewrite Ha. discriminate. }
  destruct (existsb has_null (dflt (cfg_variants config) [])).
  { destruct H as [E1 _]. rewrite E1 in E. discriminate. }
  destruct H as (ab1 & l1 & E1 & Hs & Hst & Hcamp & _).
  rewrite E1 in E. injection E as -> -> -> ->.
  assert (Hd : _get_test_data db' ab_test now = []).
  { unfold _get_test_data. rewrite Hst. unfold test_creatives_since.
    rewrite Hcr.
    rewrite (filter_none _ (creatives db ++ variants)); [reflexivity|].
    intros c Hc. apply andb_false_iff. right. apply Z.leb_gt.
    apply in_app_or in Hc. destruct Hc as [Hc|Hc].
    - exact (proj1 (List.Forall_forall _ _) Hold c Hc).
    - rewrite (proj1 (proj1 (List.Forall_forall _ _) Hf c Hc)). exact Hlt. }
  split; [exact Hd|].
  unfold run_ab_test_analysis. rewrite Hs, Hd. reflexivity.
Qed.

(** X10. When the campaign has no ad set, creating a test answers the error
    'No ad set found for campaign'; the draft test created just before is
    not removed: it stays as the last row of the table, and no creative is
    created. *)
Theorem create_without_ad_set (db : DB) (campaign : Campaign)
    (config : TestConfig) (t_create t_start : Z) :
  _validate_test_config config = Valid -> adset_set db (c_id campaign) = [] ->
  exists db' draft,
    create_automated_ab_test db campaign config t_create t_start
    = (db', CError (ValueError "No ad set found for campaign"))
    /\ abtests db' = abtests db ++ [draft]
    /\ ab_status draft = "draft"%string /\ ab_started_at draft = None
    /\ ab_campaign draft = c_id campaign
    /\ ~ In (ab_id draft) (map ab_id (abtests db))
    /\ creatives db' = creatives db.
Proof.
  intros Hv Ha. unfold create_automated_ab_test. rewrite Hv.
  set (ab_test := new_abtest db campaign config).
  unfold _create_test_variants.
  change (adset_set (insert_abtest ab_test db) (ab_campaign ab_test))
    with (adset_set db (c_id campaign)).
  rewrite Ha. exists (insert_abtest ab_test db), ab_test.
  repeat split; try reflexivity.
  intros Hin. pose proof (fresh_id_above _ _ Hin) as H.
  cbn [ab_id ab_test new_abtest] in H. lia.
Qed.

End CreatedTests.

Ltac py_step_in H := cbn [mbind py_bind mret py_ret] in H.

(** ** The shape of an analysis *)
Section AnalysisShape.

Variable M : MathLib.

(** A sum over the lists under all keys. *)
Definition grouped_total (f : TestDatum -> Z) (variants : list (string * list TestDatum))
    : Z :=
  sumZ (map (fun kv => sumZ (map f (snd kv))) variants).

Lemma sumZ_app (l1 l2 : list Z) : sumZ (l1 ++ l2) = (sumZ l1 + sumZ l2)%Z.
Proof.
  unfold sumZ. induction l1 as [|x r IH]; cbn [app fold_right]; [reflexivity|].
  rewrite IH. lia.
Qed.

Lemma grouped_total_cons (f : TestDatum -> Z) (k : string) (ds : list TestDatum)
    variants :
  grouped_total f ((k, ds) :: variants)
  = (sumZ (map f ds) + grouped_total f variants)%Z.
Proof. reflexivity. Qed.

Lemma group_append_total (f : TestDatum -> Z) (v : string) (d : TestDatum) variants :
  grouped_total f (group_append v d variants) = (grouped_total f variants + f d)%Z.
Proof.
  induction variants as [|[k ds] r IH]; cbn [group_append].
  - cbn. lia.
  - destruct (String.eqb k v).
    + rewrite !grouped_total_cons, map_app, sumZ_app. cbn. lia.
    + rewrite !grouped_total_cons, IH. lia.
Qed.

Lemma group_fold_total (f : TestDatum -> Z) (test_data : list TestDatum) :
  forall variants,
    grouped_total f (fold_left (fun variants data =>
                       group_append (td_variant_type data) data variants)
                     test_data variants)
    = (grouped_total f variants + sumZ (map f test_data))%Z.
Proof.
  induction test_data as [|d r IH]; intros variants; cbn [fold_left map].
  - cbn. lia.
  - rewrite IH, group_append_total.
    change (sumZ (f d :: map f r)) with (f d + sumZ (map f r))%Z. lia.
Qed.

Lemma group_fold_keys (test_data : list TestDatum) :
  forall variants k,
    In k (map fst (fold_left (fun variants data =>
                     group_append (td_variant_type data) data variants)
                   test_data variants))
    <-> In k (map fst variants) \/ In k (map td_variant_type test_data).
Proof.
  induction test_data as [|d r IH]; intros variants k; cbn [fold_left map].
  - cbn. tauto.
  - rewrite IH, group_append_keys. cbn. intuition congruence.
Qed.

Lemma aggregated_total (f : TestDatum -> Z) (g : VariantResult -> Z)
    (variants : list (string * list TestDatum)) :
  (forall ds, g (aggregate_variant ds) = sumZ (map f ds)) ->
  sumZ (map (fun kv => g (snd kv))
            (map (fun kv => (fst kv, aggregate_variant (snd kv))) variants))
  = grouped_total f variants.
Proof.
  intros Hg. unfold grouped_total. rewrite map_map. f_equal. apply map_ext.
  intros [k ds]. cbn [snd]. apply Hg.
Qed.

(** X11. An analysis that returns statistics puts every datum under exactly
    one label: the labels of the variant results are distinct and are the
    labels that occur in the data, and the impressions, clicks and
    conversions summed over the variants are those summed over the data.
    The sample size of a variant is its impressions. *)
Theorem analysis_partitions_data (test_data : list TestDatum) (test_type : string)
    (vrs : list (string * VariantResult)) (tests : list PairTest) (sig : bool) :
  _perform_statistical_analysis M test_data test_type = Ret (Analysis vrs tests sig) ->
  List.NoDup (map fst vrs)
  /\ (forall k, In k (map fst vrs) <-> In k (map td_variant_type test_data))
  /\ sumZ (map (fun kv => vr_impressions (snd kv)) vrs)
     = sumZ (map td_impressions test_data)
  /\ sumZ (map (fun kv => vr_clicks (snd kv)) vrs) = sumZ (map td_clicks test_data)
  /\ sumZ (map (fun kv => vr_conversions (snd kv)) vrs)
     = sumZ (map td_conversions test_data)
  /\ Forall (fun kv => vr_sample_size (snd kv) = vr_impressions (snd kv)) vrs.
Proof.
  unfold _perform_statistical_analysis.
  destruct (length test_data <? 2)%nat; [discriminate|].
  destruct (_perform_pairwise_tests M _ test_type) as [ts|e]; py_step; [|discriminate].
  intros H. apply Ret_inj in H. injection H as <- _ _.
  assert (Hkeys : map fst (map (fun kv : string * list TestDatum =>
                                  (fst kv, aggregate_variant (snd kv)))
                               (group_by_variant test_data))
                  = map fst (group_by_variant test_data)).
  { rewrite map_map. reflexivity. }
  split; [rewrite Hkeys; apply group_by_variant_spec|].
  split.
  { intros k. rewrite Hkeys. unfold group_by_variant. rewrite group_fold_keys.
    cbn. tauto. }
  assert (Htot : forall f, grouped_total f (group_by_variant test_data)
                           = sumZ (map f test_data)).
  { intros f. unfold group_by_variant. rewrite group_fold_total. reflexivity. }
  split; [rewrite (aggregated_total td_impressions vr_impressions);
          [apply Htot | reflexivity]|].
  split; [rewrite (aggregated_total td_clicks vr_clicks); [apply Htot | reflexivity]|].
  split; [rewrite (aggregated_total td_conversions vr_conversions);
          [apply Htot | reflexivity]|].
  apply List.Forall_forall. intros kv Hkv. apply in_map_iff in Hkv.
  destruct Hkv as [[k ds] [<- _]]. reflexivity.
Qed.

Lemma mapM_ret_map {A B C : Type} (f : A -> py B) (g : B -> C) (h : A -> C)
    (l : list A) (ys : list B) :
  (forall x y, f x = Ret y -> g y = h x) ->
  mapM f l = Ret ys -> map g ys = map h l.
Proof.
  intros Hf. revert ys. induction l as [|x r IH]; cbn [mapM]; intros ys H.
  - apply Ret_inj in H. subst ys. reflexivity.
  - destruct (f x) as [y|e] eqn:Ex; py_step_in H; [|discriminate].
    destruct (mapM f r) as [ys0|e]; py_step_in H; [|discriminate].
    apply Ret_inj in H. subst ys. cbn [map]. rewrite (Hf x y Ex), (IH ys0 eq_refl).
    reflexivity.
Qed.

Lemma index_pairs_length {A : Type} (l : list A) :
  (2 * length (index_pairs l) = length l * (length l - 1))%nat.
Proof.
  induction l as [|x r IH]; [reflexivity|].
  cbn [index_pairs length]. rewrite length_app, length_map. nia.
Qed.

(** X12. When the pairwise tests return, there is one test for every pair
    of variants, in the order of the double loop over the labels: n(n-1)/2
    tests for n variants.  Each test names its pair, reports the primary
    metric of the test type, and is flagged significant exactly when its
    p-value is below 0.05. *)
Theorem pairwise_tests_cover_pairs (vrs : list (string * VariantResult))
    (test_type : string) (tests : list PairTest) :
  _perform_pairwise_tests M vrs test_type = Ret tests ->
  map (fun t => (pt_variant_a t, pt_variant_b t)) tests = index_pairs (map fst vrs)
  /\ (2 * length tests = length vrs * (length vrs - 1))%nat
  /\ Forall (fun t => pt_metric t = primary_metric_of test_type
                      /\ (pt_is_significant t = true <-> pt_p_value t < 0.05)) tests.
Proof.
  unfold _perform_pairwise_tests. intros H.
  assert (Hp : map (fun t => (pt_variant_a t, pt_variant_b t)) tests
               = index_pairs (map fst vrs)).
  { rewrite <- (map_id (index_pairs (map fst vrs))).
    revert H. apply mapM_ret_map. intros [a b] t Ht.
    rewrite pairwise_test_on_clicks in Ht.
    destruct (lookup_variant a vrs) as [va|e]; py_step_in Ht; [|discriminate].
    destruct (lookup_variant b vrs) as [vb|e]; py_step_in Ht; [|discriminate].
    destruct (_two_proportion_z_test M _ _ _ _) as [r|e]; py_step_in Ht;
      [|discriminate].
    apply Ret_inj in Ht. subst t. reflexivity. }
  split; [exact Hp|]. split.
  - rewrite <- (length_map (fun t => (pt_variant_a t, pt_variant_b t)) tests), Hp.
    rewrite index_pairs_length, length_map. reflexivity.
  - apply List.Forall_forall. intros t Ht.
    destruct (statistical_test_inv M vrs test_type tests t H Ht)
      as (va & vb & r & _ & _ & _ & Hpv & _ & _ & Hs & Hm).
    split; [exact Hm|]. rewrite Hs, <- Hpv. unfold significance_threshold.
    split; [apply Qltb_lt|]. intros Hlt.
    destruct (Qltb (pt_p_value t) 0.05) eqn:E; [reflexivity|].
    apply Qltb_ge in E. lra.
Qed.

End AnalysisShape.

(** ** How many variants an analysis can tell apart *)
Section VariantLabels.

Variable M : MathLib.

Lemma variant_type_ABC (creative : AdCreative) (test_type : string) :
  In (_get_variant_type creative test_type) ["A"; "B"; "C"]%string.
Proof.
  unfold _get_variant_type.
  destruct (contains "Variant 1" _); [cbn; tauto|].
  destruct (contains "Variant 2" _); [cbn; tauto|].
  destruct (contains "Variant 3" _); cbn; tauto.
Qed.

(** X13. The label of a creative is 'A', 'B' or 'C', so however many
    creatives a test has, the analysis of its data distinguishes at most
    three variants and runs at most three pairwise tests. *)
Theorem analysis_at_most_three_variants (db : DB) (ab_test : ABTest) (now : Z)
    (vrs : list (string * VariantResult)) (tests : list PairTest) (sig : bool) :
  _perform_statistical_analysis M (_get_test_data db ab_test now)
    (ab_test_type ab_test) = Ret (Analysis vrs tests sig) ->
  (forall k, In k (map fst vrs) -> In k ["A"; "B"; "C"]%string)
  /\ (length vrs <= 3)%nat /\ (length tests <= 3)%nat.
Proof.
  intros H.
  assert (Hk : forall k, In k (map fst vrs) -> In k ["A"; "B"; "C"]%string).
  { intros k Hin.
    unfold _perform_statistical_analysis in H.
    destruct (length _ <? 2)%nat; [discriminate|].
    destruct (_perform_pairwise_tests M _ _) as [ts|e]; py_step_in H; [|discriminate].
    apply Ret_inj in H. injection H as <- _ _.
    rewrite map_map in Hin. cbn [fst] in Hin.
    unfold group_by_variant in Hin. rewrite group_fold_keys in Hin.
    destruct Hin as [[]|Hin]. unfold _get_test_data in Hin. rewrite map_map in Hin.
    apply in_map_iff in Hin. destruct Hin as [c [<- _]]. cbn [td_variant_type].
    apply variant_type_ABC. }
  assert (Hn : (length vrs <= 3)%nat).
  { rewrite <- (length_map fst vrs).
    change 3%nat with (length ["A"; "B"; "C"]%string).
    apply List.NoDup_incl_length; [|exact Hk].
    unfold _perform_statistical_analysis in H.
    destruct (length _ <? 2)%nat; [discriminate|].
    destruct (_perform_pairwise_tests M _ _) as [ts|e]; py_step_in H; [|discriminate].
    apply Ret_inj in H. injection H as <- _ _.
    rewrite map_map. cbn [fst]. apply group_by_variant_spec. }
  split; [exact Hk|]. split; [exact Hn|].
  unfold _perform_statistical_analysis in H.
  destruct (length _ <? 2)%nat; [discriminate|].
  destruct (_perform_pairwise_tests M _ _) as [ts|e] eqn:Ep; py_step_in H;
    [|discriminate].
  apply Ret_inj in H. injection H as Hv <- _.
  unfold _perform_pairwise_tests in Ep.
  assert (Hl : map (fun t => (pt_variant_a t, pt_variant_b t)) ts
               = index_pairs (map fst vrs)).
  { rewrite <- Hv, <- (map_id (index_pairs _)).
    revert Ep. apply mapM_ret_map. intros [a b] t Ht.
    unfold pairwise_test in Ht.
    destruct (lookup_variant a _) as [va|e]; py_step_in Ht; [|discriminate].
    destruct (lookup_variant b _) as [vb|e]; py_step_in Ht; [|discriminate].
    destruct (if str_in _ _ then _ else _) as [r|e]; py_step_in Ht; [|discriminate].
    apply Ret_inj in Ht. subst t. reflexivity. }
  pose proof (index_pairs_length (map fst vrs)) as Hi.
  rewrite <- Hl, !length_map in Hi. nia.
Qed.

End VariantLabels.

(** ** Welch's test on small samples *)
Section WelchSmallSample.

Variable M : MathLib.




End WelchSmallSample.

(** * Further properties of the budget optimizer *)

(** ** The performance data and the outcome of a cycle *)
Section OptimizerCycle.

(** The rows of the last [performance_lookback_days] days that belong to an
    ad set. *)
Definition recent_rows (db : DB) (campaign : Campaign) (now : Z) (ad_set : AdSet)
    : list CampaignAnalytics :=
  List.filter (fun r => match an_ad_set r with
                        | Some a => (a =? as_id ad_set)%Z
                        | None => false
                        end)
    (analytics_window db (c_id campaign)
       (date_of now - performance_lookback_days)%Z (date_of now)).

Definition has_recent_rows (db : DB) (campaign : Campaign) (now : Z) (ad_set : AdSet)
    : bool :=
  match recent_rows db campaign now ad_set with [] => false | _ :: _ => true end.

(** X15. [_get_performance_data] returns one entry for each ad set of the
    campaign that has an analytics row of its own in the last seven days,
    in the order of the ad sets, and none for the others; the entry carries
    the ad set's allocated budget and platform and the sums over its rows. *)
Theorem performance_data_per_ad_set (db : DB) (campaign : Campaign) (now : Z) :
  let data := _get_performance_data db campaign now in
  map pd_ad_set data
  = List.filter (has_recent_rows db campaign now) (adset_set db (c_id campaign))
  /\ Forall (fun d =>
       let rows := recent_rows db campaign now (pd_ad_set d) in
       rows <> []
       /\ pd_allocated_budget d = as_allocated_budget (pd_ad_set d)
       /\ pd_platform d = as_platform (pd_ad_set d)
       /\ pd_impressions d = sumZ (map an_impressions rows)
       /\ pd_clicks d = sumZ (map an_clicks rows)
       /\ pd_conversions d = sumZ (map an_conversions rows)
       /\ pd_spend d = sumQ (map an_spend rows)
       /\ pd_revenue d = sumQ (map an_revenue rows)) data.
Proof.
  cbv zeta. unfold _get_performance_data. cbv zeta.
  set (f := fun ad_set : AdSet => match List.filter _ _ with [] => [] | _ :: _ => _ end).
  split.
  - induction (adset_set db (c_id campaign)) as [|a r IH];
      cbn [flat_map List.filter]; [reflexivity|].
    rewrite map_app, IH. unfold has_recent_rows, recent_rows, f.
    destruct (List.filter _ (analytics_window _ _ _ _)); reflexivity.
  - apply List.Forall_forall. intros d Hd. apply in_flat_map in Hd.
    destruct Hd as [a [_ Hd]]. unfold f in Hd.
    destruct (List.filter _ (analytics_window _ _ _ _)) as [|row rows] eqn:E;
      [destruct Hd|].
    destruct Hd as [<-|[]]. cbn [pd_ad_set]. unfold recent_rows.
    rewrite E. cbn. repeat split. discriminate.
Qed.

(** A cycle changes nothing and never succeeds: without recent rows of an
    ad set it has no data, and otherwise scoring the first ad set reads the
    key 'spend_utilization' before it is set. *)
Lemma optimize_cycle_outcome (db : DB) (campaign : Campaign) (now : Z) :
  optimize_campaign_budgets db campaign now
  = (db, if existsb (has_recent_rows db campaign now) (adset_set db (c_id campaign))
         then OError (KeyError "spend_utilization")
         else OFailure "Insufficient performance data").
Proof.
  unfold optimize_campaign_budgets.
  pose proof (proj1 (performance_data_per_ad_set db campaign now)) as Hd.
  cbv zeta in Hd.
  destruct (_get_performance_data db campaign now) as [|d r] eqn:E.
  - replace (existsb _ _) with false; [reflexivity|].
    symmetry. apply not_true_iff_false. intros Hex.
    apply existsb_exists in Hex. destruct Hex as [a [Ha Hr]].
    assert (Hin : In a (List.filter (has_recent_rows db campaign now)
                          (adset_set db (c_id campaign))))
      by (apply filter_In; tauto).
    rewrite <- Hd in Hin. destruct Hin.
  - rewrite metrics_raise by discriminate.
    replace (existsb _ _) with true; [reflexivity|].
    symmetry. apply existsb_exists. exists (pd_ad_set d).
    apply filter_In. rewrite <- Hd. now left.
Qed.

End OptimizerCycle.

(** ** Bounds of the two scores *)
Section Scores.

Lemma Qmin_weight_le (x w : Q) : 0 <= w -> Qmin x 2.0 * w <= 2.0 * w.
Proof. intros Hw. pose proof (Q.le_min_r x 2.0). nra. Qed.

Lemma Qmin_weight_ge (x w : Q) : 0 <= w -> 0 <= x -> 0 <= Qmin x 2.0 * w.
Proof.
  intros Hw Hx.
  assert (H : 0 <= Qmin x 2.0) by (apply Q.min_glb; lra).
  nra.
Qed.

Lemma ratio_nonneg (x y : Q) : 0 <= x -> 0 < y -> 0 <= x / y.
Proof. intros Hx Hy. apply Qle_shift_div_l; [exact Hy | lra]. Qed.

(** X17. The performance score of an ad set is at most 2.0, and it is not
    negative when the ad set's ROAS, conversion rate and CTR are not.  With
    no positive campaign average it is 0. *)
Theorem performance_score_bounds (ad_set_data : PerformanceData)
    (campaign_averages : CampaignAverages) :
  _calculate_performance_score ad_set_data campaign_averages <= 2.0
  /\ (0 <= pd_roas ad_set_data -> 0 <= pd_conversion_rate ad_set_data ->
      0 <= pd_ctr ad_set_data ->
      0 <= _calculate_performance_score ad_set_data campaign_averages)
  /\ (avg_roas campaign_averages <= 0 -> avg_conversion_rate campaign_averages <= 0 ->
      avg_ctr campaign_averages <= 0 -> avg_cpa campaign_averages <= 0 ->
      _calculate_performance_score ad_set_data campaign_averages == 0).
Proof.
  unfold _calculate_performance_score. cbv zeta.
  pose proof (Qmin_weight_le (pd_roas ad_set_data / avg_roas campaign_averages) 0.4) as U1.
  pose proof (Qmin_weight_le (pd_conversion_rate ad_set_data
                              / avg_conversion_rate campaign_averages) 0.25) as U2.
  pose proof (Qmin_weight_le (pd_ctr ad_set_data / avg_ctr campaign_averages) 0.2) as U3.
  pose proof (Qmin_weight_le (avg_cpa campaign_averages / pd_cpa ad_set_data) 0.15) as U4.
  pose proof (Qmin_weight_ge (pd_roas ad_set_data / avg_roas campaign_averages) 0.4) as L1.
  pose proof (Qmin_weight_ge (pd_conversion_rate ad_set_data
                              / avg_conversion_rate campaign_averages) 0.25) as L2.
  pose proof (Qmin_weight_ge (pd_ctr ad_set_data / avg_ctr campaign_averages) 0.2) as L3.
  pose proof (Qmin_weight_ge (avg_cpa campaign_averages / pd_cpa ad_set_data) 0.15) as L4.
  destruct (Qgtb (avg_roas campaign_averages) 0) eqn:E1;
    [apply Qgtb_gt in E1 | apply Qgtb_le in E1];
    (destruct (Qgtb (avg_conversion_rate campaign_averages) 0) eqn:E2;
      [apply Qgtb_gt in E2 | apply Qgtb_le in E2]);
    (destruct (Qgtb (avg_ctr campaign_averages) 0) eqn:E3;
      [apply Qgtb_gt in E3 | apply Qgtb_le in E3]);
    (destruct (Qgtb (avg_cpa campaign_averages) 0) eqn:E4;
      [apply Qgtb_gt in E4 | apply Qgtb_le in E4]);
    (destruct (Qgtb (pd_cpa ad_set_data) 0) eqn:E5;
      [apply Qgtb_gt in E5 | apply Qgtb_le in E5]);
    cbn [andb];
    (split; [lra|]); (split; [intros H1 H2 H3|intros; lra]).
  all: try (pose proof (ratio_nonneg _ _ H1 E1) as R1; specialize (L1 ltac:(lra) R1)).
  all: try (pose proof (ratio_nonneg _ _ H2 E2) as R2; specialize (L2 ltac:(lra) R2)).
  all: try (pose proof (ratio_nonneg _ _ H3 E3) as R3; specialize (L3 ltac:(lra) R3)).
  all: try (pose proof (ratio_nonneg (avg_cpa campaign_averages) _ ltac:(lra) E5) as R4;
            specialize (L4 ltac:(lra) R4)).
  all: lra.
Qed.

(** X18. [_calculate_efficiency_score] raises KeyError when the dict has no
    'spend_utilization' yet.  When it has, the score is at most 1.0, it is
    not negative for a utilization that is not negative, and it is at least
    0.3 once the utilization is 0.8 or more. *)
Theorem efficiency_score_bounds (ad_set_data : PerformanceData) (keys : ScoreKeys) :
  match k_spend_utilization keys with
  | None => _calculate_efficiency_score ad_set_data keys
            = Raise (KeyError "spend_utilization")
  | Some utilization =>
      exists score, _calculate_efficiency_score ad_set_data keys = Ret score
        /\ score <= 1.0
        /\ (0 <= utilization -> 0 <= score)
        /\ (0.8 <= utilization -> 0.3 <= score)
  end.
Proof.
  unfold _calculate_efficiency_score.
  destruct (k_spend_utilization keys) as [u|]; [|reflexivity].
  cbn [getitem]. py_step. eexists. split; [reflexivity|].
  assert (Hr : 0 <= (if Qgtb (pd_roas ad_set_data) 0
                     then Qmin (pd_roas ad_set_data / 3.0) 1.0 else 0) <= 1.0).
  { destruct (Qgtb (pd_roas ad_set_data) 0) eqn:E; [|lra].
    apply Qgtb_gt in E. split; [|apply Q.le_min_r].
    apply Q.min_glb; [|lra]. apply ratio_nonneg; lra. }
  set (roas_score := if Qgtb (pd_roas ad_set_data) 0 then _ else 0) in *.
  unfold Qleb.
  destruct (Qle_bool 0.8 u) eqn:E1.
  - apply Qle_bool_iff in E1.
    destruct (Qle_bool u 0.95) eqn:E2; cbn [andb].
    + repeat split; intros; lra.
    + replace (Qltb u 0.8) with false by (symmetry; apply Qltb_ge; lra).
      assert (H5 : 0.5 <= Qmax 0.5 (1.0 - (u - 0.95) * 2)) by apply Q.le_max_l.
      assert (H1 : Qmax 0.5 (1.0 - (u - 0.95) * 2) <= 1.0).
      { apply Q.max_lub; [lra|].
        assert (Hu : ~ u <= 0.95) by (rewrite <- Qle_bool_iff, E2; discriminate).
        apply Qnot_le_lt in Hu. lra. }
      repeat split; intros; lra.
  - cbn [andb].
    assert (Hu : u < 0.8).
    { apply Qnot_le_lt. rewrite <- Qle_bool_iff, E1. discriminate. }
    replace (Qltb u 0.8) with true by (symmetry; apply Qltb_lt; exact Hu).
    assert (Hd : u / 0.8 == u * 1.25) by (field).
    repeat split; intros; rewrite ?Hd; try lra.
Qed.

End Scores.

(** ** The opportunities that the detection returns *)
Section DetectionShape.

(** X19. With fewer than two scored ad sets the detection returns nothing.
    Otherwise every opportunity it returns has a confidence of at least 0.7
    and belongs to a scored ad set, whose allocated budget it carries.  An
    increase is for a score above 1.2 with a utilization above 0.8, and it
    always suggests exactly 20%; every such ad set gets one.  A decrease is
    either that of an underperformer, whose score [s] has [1.0 - s] at least
    0.7, with a utilization above 0.3, and suggests exactly 30%; or that of
    an underutilized ad set, whose utilization [u] has [1.0 - u] at least
    0.7, with a score of at least 0.8, and suggests exactly 40%. *)
Theorem detected_opportunities_shape (ads : list ScoredAdSet)
    (totals : CampaignTotals) (avgs : CampaignAverages) :
  let opps := _identify_optimization_opportunities (MetricsOf ads totals avgs) in
  ((length ads < 2)%nat -> opps = [])
  /\ (forall o, In o opps ->
        0.7 <= opp_confidence o
        /\ exists a, In a ads /\ sa_id a = opp_ad_set o
           /\ match o with
              | increase_budget _ current_budget _ suggested_increase =>
                  current_budget = pd_allocated_budget (sa_data a)
                  /\ suggested_increase == 0.2
                  /\ 1.2 < sa_performance_score a /\ 0.8 < sa_spend_utilization a
              | decrease_budget _ current_budget _ suggested_decrease =>
                  current_budget = pd_allocated_budget (sa_data a)
                  /\ ((suggested_decrease == 0.3
                       /\ 0.7 <= 1.0 - sa_performance_score a
                       /\ 0.3 < sa_spend_utilization a)
                      \/ (suggested_decrease == 0.4
                          /\ 0.7 <= 1.0 - sa_spend_utilization a
                          /\ 0.8 <= sa_performance_score a))
              end)
  /\ ((2 <= length ads)%nat ->
      forall a, In a ads -> 1.2 < sa_performance_score a ->
                0.8 < sa_spend_utilization a ->
        In (increase_budget (sa_id a) (pd_allocated_budget (sa_data a))
              (Qmin (sa_performance_score a / 1.5) 1.0)
              (Qmin 0.2 (sa_performance_score a - 1.0))) opps).
Proof.
  cbv zeta. unfold _identify_optimization_opportunities. cbn [get_ad_sets].
  split; [|split].
  - intros Hl. apply Nat.ltb_lt in Hl. rewrite Hl. reflexivity.
  - intros o Ho. destruct (length ads <? 2)%nat; [destruct Ho|].
    apply filter_In in Ho. destruct Ho as [Ho Hc].
    unfold Qgeb, confidence_threshold in Hc. apply Qle_bool_iff in Hc.
    split; [exact Hc|].
    unfold candidate_opportunities in Ho. rewrite !in_app_iff in Ho.
    destruct Ho as [Ho|[Ho|Ho]]; apply in_map_iff in Ho; destruct Ho as [a [<- Ha]];
      cbn [opp_confidence opp_ad_set] in *.
    + apply filter_In in Ha. destruct Ha as [Ha Hp].
      apply andb_true_iff in Hp. destruct Hp as [Hs Hu]. apply Qgtb_gt in Hs, Hu.
      exists a. repeat split; try assumption.
      apply Q.min_l. lra.
    + apply filter_In in Ha. destruct Ha as [Ha Hu]. apply Qgtb_gt in Hu.
      apply filter_In in Ha. destruct Ha as [Ha Hs]. apply Qltb_lt in Hs.
      assert (Hm : Qmin (1.0 - sa_performance_score a) 1.0
                   <= 1.0 - sa_performance_score a) by apply Q.le_min_l.
      exists a. split; [exact Ha|]. split; [reflexivity|]. split; [reflexivity|].
      left. split; [apply Q.min_l; lra|]. split; [lra | exact Hu].
    + apply filter_In in Ha. destruct Ha as [Ha Hn].
      apply filter_In in Ha. destruct Ha as [Ha Hu]. apply Qltb_lt in Hu.
      exists a. split; [exact Ha|]. split; [reflexivity|]. split; [reflexivity|].
      right. split; [apply Q.min_l; lra|]. split; [lra|].
      destruct (Qltb (sa_performance_score a) 0.8) eqn:Es.
      * rewrite scored_in_In in Hn; [discriminate|]. apply filter_In. tauto.
      * apply Qltb_ge in Es. exact Es.
  - intros Hl a Ha Hs Hu.
    replace (length ads <? 2)%nat with false by (symmetry; apply Nat.ltb_ge; lia).
    apply filter_In. split.
    + unfold candidate_opportunities. apply in_app_iff. left.
      apply in_map_iff. exists a. split; [reflexivity|].
      apply filter_In. split; [exact Ha|].
      apply andb_true_iff. split; apply Qgtb_gt; assumption.
    + cbn [opp_confidence]. unfold Qgeb, confidence_threshold. apply Qle_bool_iff.
      apply Q.min_glb; [|lra]. apply Qle_shift_div_l; lra.
Qed.

End DetectionShape.

(** ** What the allocation does with the budget *)
Section AllocationBudget.

Implicit Types (m : gmap Z Q) (opps : list Opportunity).

Lemma apply_decreases_increases_only opps m (pool : Q) :
  Forall (fun o => is_increase o = true) opps ->
  apply_decreases opps m pool = Ret (m, pool).
Proof.
  induction opps as [|[i b c s|i b c s] r IH]; intros H.
  - reflexivity.
  - cbn [apply_decreases]. apply IH. now inversion H.
  - inversion H as [|? ? Hd _]. discriminate Hd.
Qed.

(** X20. Increases alone move no budget: when every opportunity is an
    increase, nothing is freed, and [_calculate_optimal_allocation] returns
    the allocation it started from, each ad set at its allocated budget.
    Without the key 'ad_sets' in the metrics it raises KeyError. *)
Theorem increases_alone_change_nothing (campaign : Campaign) (ads : list ScoredAdSet)
    (totals : CampaignTotals) (avgs : CampaignAverages) opps :
  Forall (fun o => is_increase o = true) opps ->
  _calculate_optimal_allocation campaign (MetricsOf ads totals avgs) opps
  = Ret (initial_allocation ads)
  /\ _calculate_optimal_allocation campaign NoMetrics opps = Raise (KeyError "ad_sets").
Proof.
  intros H. split; [|reflexivity].
  unfold _calculate_optimal_allocation. cbn [item_ad_sets]. py_step.
  rewrite (apply_decreases_increases_only opps _ _ H). py_step.
  replace (Qgtb 0.0 0) with false by reflexivity.
  rewrite andb_false_r. reflexivity.
Qed.

(** X21. A decrease for an ad set that is not among the scored ones makes
    the allocation raise KeyError with the ad set's id, when only increases
    come before it in the list. *)
Theorem decrease_of_unknown_ad_set (campaign : Campaign) (ads : list ScoredAdSet)
    (totals : CampaignTotals) (avgs : CampaignAverages)
    (before after : list Opportunity) (ad_set_id : Z)
    (current_budget confidence suggested_decrease : Q) :
  Forall (fun o => is_increase o = true) before ->
  ~ In ad_set_id (map sa_id ads) ->
  _calculate_optimal_allocation campaign (MetricsOf ads totals avgs)
    (before ++ decrease_budget ad_set_id current_budget confidence suggested_decrease
            :: after)
  = Raise (KeyError (str_of_Z ad_set_id)).
Proof.
  intros Hb Hn. unfold _calculate_optimal_allocation. cbn [item_ad_sets]. py_step.
  assert (Hd : forall m (pool : Q), m !! ad_set_id = None ->
            apply_decreases (before ++ decrease_budget ad_set_id current_budget
                                         confidence suggested_decrease :: after) m pool
            = Raise (KeyError (str_of_Z ad_set_id))).
  { induction before as [|[i b c s|i b c s] r IH]; intros m pool Hm.
    - cbn [app apply_decreases]. unfold alloc_item. rewrite Hm. reflexivity.
    - cbn [app apply_decreases]. apply IH; [now inversion Hb | exact Hm].
    - inversion Hb as [|? ? Hd _]. discriminate Hd. }
  rewrite Hd; [reflexivity|].
  unfold initial_allocation. rewrite initial_fold_frame by exact Hn.
  apply lookup_empty.
Qed.

End AllocationBudget.

(** ** The gate and the apply step *)
Section GateAndApply.

Lemma total_change_cons (a : AdSet) (r : list AdSet) (alloc : gmap Z Q) :
  total_change (a :: r) alloc
  = Qabs (alloc_get alloc (as_id a) (as_allocated_budget a) - as_allocated_budget a)
    + total_change r alloc.
Proof. reflexivity. Qed.

Lemma total_budget_cons (a : AdSet) (r : list AdSet) :
  total_budget (a :: r) = as_allocated_budget a + total_budget r.
Proof. reflexivity. Qed.

(** An allocation that leaves every ad set where it is adds up to no
    change. *)
Lemma total_change_none (ad_sets : list AdSet) (alloc : gmap Z Q) :
  (forall a, In a ad_sets ->
     alloc_get alloc (as_id a) (as_allocated_budget a) == as_allocated_budget a) ->
  total_change ad_sets alloc == 0.
Proof.
  induction ad_sets as [|a r IH]; intros H; [reflexivity|].
  rewrite total_change_cons, IH by (intros a' Ha'; apply H; now right).
  assert (E : alloc_get alloc (as_id a) (as_allocated_budget a) - as_allocated_budget a
              == 0) by (rewrite (H a (or_introl eq_refl)); ring).
  rewrite E. reflexivity.
Qed.

(** X23. When [_should_apply_changes] lets an allocation through, the
    budgets of the campaign's ad sets sum to more than zero and the
    allocation gives at least one ad set of the campaign a budget other than
    the one it has: an allocation that changes no ad set of the campaign
    never passes the gate. *)
Theorem gate_passes_only_with_a_change (db : DB) (campaign : Campaign)
    (new_allocation : gmap Z Q) :
  _should_apply_changes db campaign new_allocation = true ->
  0 < total_budget (adset_set db (c_id campaign))
  /\ exists ad_set, In ad_set (adset_set db (c_id campaign))
       /\ ~ alloc_get new_allocation (as_id ad_set) (as_allocated_budget ad_set)
            == as_allocated_budget ad_set.
Proof.
  unfold _should_apply_changes.
  set (ad_sets := adset_set db (c_id campaign)).
  destruct (Qgtb (total_budget ad_sets) 0) eqn:Et; [|discriminate].
  apply Qgtb_gt in Et. intros Hg. split; [exact Et|].
  unfold Qgeb, min_budget_change_threshold in Hg. apply Qle_bool_iff in Hg.
  set (moved := fun a : AdSet =>
         negb (Qeq_bool (alloc_get new_allocation (as_id a) (as_allocated_budget a))
                        (as_allocated_budget a))).
  destruct (existsb moved ad_sets) eqn:Ex.
  - apply existsb_exists in Ex. destruct Ex as [a [Ha Hm]]. exists a.
    split; [exact Ha|]. intros E. apply Qeq_bool_iff in E.
    unfold moved in Hm. rewrite E in Hm. discriminate.
  - exfalso.
    assert (Hall : forall a, In a ad_sets ->
              alloc_get new_allocation (as_id a) (as_allocated_budget a)
              == as_allocated_budget a).
    { intros a Ha. apply Qeq_bool_iff.
      destruct (Qeq_bool _ _) eqn:E; [reflexivity|].
      assert (Ht : existsb moved ad_sets = true).
      { apply existsb_exists. exists a. split; [exact Ha|]. unfold moved.
        now rewrite E. }
      rewrite Ht in Ex. discriminate. }
    pose proof (total_change_none ad_sets new_allocation Hall) as H0.
    assert (Hq : total_change ad_sets new_allocation / total_budget ad_sets == 0).
    { rewrite H0. unfold Qdiv. ring. }
    rewrite Hq in Hg. lra.
Qed.

End GateAndApply.

(** ** What the apply step writes *)
Section AppliedBudgets.

Variable new_allocation : gmap Z Q.

(** [new_allocation.get(ad_set.id, previous)] for an ad set. *)
Definition new_budget_of (ad_set : AdSet) : Q :=
  alloc_get new_allocation (as_id ad_set) (as_allocated_budget ad_set).

Lemma find_adset_by_id (g : AdSet -> bool) (rows : list AdSet) (x : AdSet) :
  List.NoDup (map as_id rows) -> In x rows ->
  find (fun a => (as_id a =? as_id x)%Z) (List.filter g rows)
  = if g x then Some x else None.
Proof.
  induction rows as [|c r IH]; intros Hnd Hin; [destruct Hin|].
  cbn [map] in Hnd. apply List.NoDup_cons_iff in Hnd. destruct Hnd as [Hc Hnd].
  cbn [List.filter]. destruct Hin as [->|Hin].
  - destruct (g x) eqn:Eg.
    + cbn [find]. now rewrite Z.eqb_refl.
    + destruct (find _ (List.filter g r)) as [y|] eqn:Ef; [|reflexivity].
      apply find_some in Ef. destruct Ef as [Hy Ey].
      apply filter_In in Hy. destruct Hy as [Hy _].
      apply Z.eqb_eq in Ey. exfalso. apply Hc. rewrite <- Ey. now apply in_map.
  - assert (Hne : (as_id c =? as_id x)%Z = false).
    { apply Z.eqb_neq. intros E. apply Hc. rewrite E. now apply in_map. }
    destruct (g c).
    + cbn [find]. rewrite Hne. now apply IH.
    + now apply IH.
Qed.

Lemma previous_fold_frame (ad_sets : list AdSet) : forall (p : gmap Z Q) (id : Z),
  ~ In id (map as_id ad_sets) ->
  fold_left (fun p a => <[as_id a := as_allocated_budget a]> p) ad_sets p !! id = p !! id.
Proof.
  induction ad_sets as [|a r IH]; intros p id Hn; [reflexivity|].
  cbn [fold_left]. cbn [map] in Hn. rewrite IH by (intros H; apply Hn; now right).
  apply lookup_insert_ne. intros E. apply Hn. now left.
Qed.

Lemma previous_fold_lookup (ad_sets : list AdSet) : forall (p : gmap Z Q) (a : AdSet),
  List.NoDup (map as_id ad_sets) -> In a ad_sets ->
  fold_left (fun p a => <[as_id a := as_allocated_budget a]> p) ad_sets p !! as_id a
  = Some (as_allocated_budget a).
Proof.
  induction ad_sets as [|a0 r IH]; intros p a Hnd Hin; [destruct Hin|].
  cbn [map] in Hnd. apply List.NoDup_cons_iff in Hnd. destruct Hnd as [Hc Hnd].
  cbn [fold_left]. destruct Hin as [->|Hin].
  - rewrite previous_fold_frame by exact Hc. apply lookup_insert_eq.
  - now apply IH.
Qed.

(** The loop of the apply step when no budget is zero. *)
Lemma apply_changes_writes (ad_sets : list AdSet) :
  forall (db : DB) (previous : gmap Z Q) (changes : list Change),
    List.NoDup (map as_id ad_sets) ->
    (forall a, In a ad_sets -> ~ as_allocated_budget a == 0) ->
    exists db' changes',
      apply_changes db ad_sets new_allocation previous changes
      = (db', Ret (fold_left (fun p a => <[as_id a := as_allocated_budget a]> p)
                     ad_sets previous, changes'))
      /\ adsets db'
         = map (fun x =>
                  match find (fun a => (as_id a =? as_id x)%Z)
                             (List.filter (clears_threshold new_allocation) ad_sets) with
                  | Some a => with_allocated_budget a (new_budget_of a)
                  | None => x
                  end) (adsets db)
      /\ map (fun c => (ch_ad_set c, ch_previous_budget c, ch_new_budget c)) changes'
         = map (fun c => (ch_ad_set c, ch_previous_budget c, ch_new_budget c)) changes
           ++ map (fun a => (as_name a, as_allocated_budget a, new_budget_of a))
                  (List.filter (clears_threshold new_allocation) ad_sets)
      /\ optimizations db' = optimizations db /\ creatives db' = creatives db
      /\ abtests db' = abtests db /\ analytics db' = analytics db.
Proof.
  induction ad_sets as [|a r IH]; intros db previous changes Hnd Hnz.
  - exists db, changes. cbn [apply_changes fold_left List.filter find map].
    rewrite app_nil_r, map_id. repeat split.
  - cbn [map] in Hnd. apply List.NoDup_cons_iff in Hnd. destruct Hnd as [Ha Hnd].
    assert (Hr : forall a', In a' r -> ~ as_allocated_budget a' == 0)
      by (intros a' Ha'; apply Hnz; now right).
    cbn [apply_changes fold_left List.filter].
    change (Qgeb (Qabs (alloc_get new_allocation (as_id a) (as_allocated_budget a)
                        - as_allocated_budget a))
                 (as_allocated_budget a * min_budget_change_threshold))
      with (clears_threshold new_allocation a).
    destruct (clears_threshold new_allocation a) eqn:Ec.
    + rewrite truediv_ret by (apply Hnz; now left).
      match goal with
      | |- context [apply_changes ?d r _ ?p ?c] =>
          destruct (IH d p c Hnd Hr) as (db' & c' & E & Hads & Hch & Ho & Hcr & Hab & Han)
      end.
      exists db', c'. split; [exact E|]. split.
      { rewrite Hads. cbn [save_adset adsets]. rewrite map_map. apply map_ext.
        intros x. cbn [find as_id with_allocated_budget].
        rewrite (Z.eqb_sym (as_id x) (as_id a)).
        destruct (as_id a =? as_id x)%Z eqn:Ex; [|reflexivity].
        cbn [as_id with_allocated_budget].
        destruct (find _ (List.filter _ r)) as [y|] eqn:Ef; [|reflexivity].
        apply find_some in Ef. destruct Ef as [Hy Ey].
        apply filter_In in Hy. destruct Hy as [Hy _]. apply Z.eqb_eq in Ey.
        exfalso. apply Ha. rewrite <- Ey. now apply in_map. }
      split.
      { rewrite Hch, map_app. cbn [map ch_ad_set ch_previous_budget ch_new_budget].
        rewrite <- app_assoc. reflexivity. }
      cbn [save_adset optimizations creatives abtests analytics] in *. tauto.
    + destruct (IH db (<[as_id a := as_allocated_budget a]> previous) changes Hnd Hr)
        as (db' & c' & E & Hads & Hch & Hrest).
      exists db', c'. split; [exact E|]. split; [exact Hads|]. split; [exact Hch|].
      exact Hrest.
Qed.

(** X25. When the ad sets have distinct ids and no ad set of the campaign
    has a budget of zero, the apply step succeeds and writes exactly the ad
    sets of the campaign whose own change is at least 5% of their budget:
    these get the budget of the new allocation, every other row is as it
    was, and [changes_made] lists them in order with the previous and the
    new budget.  One optimization record is appended; for each ad set of the
    campaign it holds the previous budget and the budget of the new
    allocation, also for the ad sets that were not written. *)
Theorem apply_writes_changed_budgets (db : DB) (campaign : Campaign)
    (opportunities : list Opportunity) (now : Z) :
  List.NoDup (map as_id (adsets db)) ->
  (forall a, In a (adset_set db (c_id campaign)) -> ~ as_allocated_budget a == 0) ->
  exists db' record changes,
    _apply_budget_optimization db campaign new_allocation opportunities now
    = (db', OSuccess (bo_id record) changes
              (_calculate_expected_improvement opportunities)
              (_generate_optimization_summary opportunities) (length opportunities))
    /\ adsets db'
       = map (fun x => if (as_campaign x =? c_id campaign)%Z
                          && clears_threshold new_allocation x
                       then with_allocated_budget x (new_budget_of x) else x)
             (adsets db)
    /\ map (fun c => (ch_ad_set c, ch_previous_budget c, ch_new_budget c)) changes
       = map (fun a => (as_name a, as_allocated_budget a, new_budget_of a))
             (List.filter (clears_threshold new_allocation)
                          (adset_set db (c_id campaign)))
    /\ optimizations db' = optimizations db ++ [record]
    /\ bo_campaign record = c_id campaign
    /\ (forall a, In a (adset_set db (c_id campaign)) ->
          bo_previous_allocation record !! as_id a = Some (as_allocated_budget a)
          /\ bo_new_allocation record !! as_id a = Some (new_budget_of a)).
Proof.
  intros Hnd Hnz. unfold _apply_budget_optimization.
  assert (Hnd' : List.NoDup (map as_id (adset_set db (c_id campaign))))
    by (unfold adset_set; now apply NoDup_map_filter).
  destruct (apply_changes_writes (adset_set db (c_id campaign)) db ∅ [] Hnd' Hnz)
    as (db' & changes & E & Hads & Hch & Ho & _).
  rewrite E. eexists _, _, changes. split; [reflexivity|].
  cbn [insert_optimization adsets optimizations bo_campaign bo_previous_allocation
       bo_new_allocation].
  split.
  { rewrite Hads. apply map_ext_in. intros x Hx. unfold adset_set.
    rewrite filter_filter_and. rewrite (find_adset_by_id _ _ x Hnd Hx).
    destruct (_ && _)%bool; reflexivity. }
  split; [exact Hch|]. split; [rewrite Ho; reflexivity|]. split; [reflexivity|].
  intros a Ha.
  pose proof (previous_fold_lookup _ ∅ a Hnd' Ha) as Hp.
  split; [exact Hp|].
  rewrite map_lookup_imap, Hp. reflexivity.
Qed.

(** The loop over two lists in a row. *)
Lemma apply_changes_app (l1 l2 : list AdSet) :
  forall (db : DB) (previous : gmap Z Q) (changes : list Change),
    apply_changes db (l1 ++ l2) new_allocation previous changes
    = match apply_changes db l1 new_allocation previous changes with
      | (db1, Ret (previous1, changes1)) =>
          apply_changes db1 l2 new_allocation previous1 changes1
      | (db1, Raise e) => (db1, Raise e)
      end.
Proof.
  induction l1 as [|a r IH]; intros db previous changes; [reflexivity|].
  cbn [app apply_changes].
  destruct (Qgeb _ _); [|apply IH].
  destruct (truediv _ _); [apply IH | reflexivity].
Qed.

Lemma find_adset_among (g : AdSet -> bool) (all rows : list AdSet) (x : AdSet) :
  List.NoDup (map as_id all) -> (forall a, In a rows -> In a all) -> In x all ->
  find (fun a => (as_id a =? as_id x)%Z) (List.filter g rows)
  = if existsb (fun a => (as_id a =? as_id x)%Z) rows && g x then Some x else None.
Proof.
  intros Hnd Hsub Hx. induction rows as [|c r IH]; [reflexivity|].
  assert (Hr : forall a, In a r -> In a all) by (intros a Ha; apply Hsub; now right).
  specialize (IH Hr). cbn [List.filter existsb].
  destruct (as_id c =? as_id x)%Z eqn:Ec.
  - apply Z.eqb_eq in Ec.
    assert (c = x).
    { apply (NoDup_map_inj as_id all); [exact Hnd | apply Hsub; now left | exact Hx
                                        | exact Ec]. }
    subst c. cbn [orb andb]. destruct (g x) eqn:Eg.
    + cbn [find]. now rewrite Z.eqb_refl.
    + rewrite IH, ?Eg, andb_false_r. reflexivity.
  - cbn [orb]. destruct (g c); [cbn [find]; rewrite Ec|]; exact IH.
Qed.

(** X24. An ad set of the campaign with an allocated budget of zero makes
    the apply step fail.  Its own-change test is [|new - 0| >= 0], which
    holds, so its new budget is saved; the change percentage then divides by
    the previous budget, and the call answers ZeroDivisionError.  No
    optimization record is created, although the budgets written up to and
    including that ad set stay written: with distinct ids, the ad sets of
    the campaign before it whose own change is at least 5% of their budget,
    and the zero-budget ad set itself, hold the budget of the new
    allocation; the ad sets after it and every other row are as they were. *)
Theorem apply_fails_on_zero_budget (db : DB) (campaign : Campaign)
    (opportunities : list Opportunity) (now : Z)
    (before after : list AdSet) (zero : AdSet) :
  List.NoDup (map as_id (adsets db)) ->
  adset_set db (c_id campaign) = before ++ zero :: after ->
  (forall a, In a before -> ~ as_allocated_budget a == 0) ->
  as_allocated_budget zero == 0 ->
  exists db',
    _apply_budget_optimization db campaign new_allocation opportunities now
    = (db', OError ZeroDivisionError)
    /\ optimizations db' = optimizations db
    /\ creatives db' = creatives db /\ abtests db' = abtests db
    /\ analytics db' = analytics db
    /\ clears_threshold new_allocation zero = true
    /\ adsets db'
       = map (fun x =>
                if existsb (fun a => (as_id a =? as_id x)%Z) (before ++ [zero])
                   && clears_threshold new_allocation x
                then with_allocated_budget x (new_budget_of x) else x)
             (adsets db).
Proof.
  intros Hnd Hs Hnz Hz. unfold _apply_budget_optimization. rewrite Hs.
  assert (Hin : forall a, In a (before ++ zero :: after) -> In a (adsets db)).
  { rewrite <- Hs. unfold adset_set. intros a Ha. apply filter_In in Ha. tauto. }
  assert (Hndb : List.NoDup (map as_id before)).
  { assert (H : List.NoDup (map as_id (adset_set db (c_id campaign))))
      by (unfold adset_set; now apply NoDup_map_filter).
    rewrite Hs, map_app in H. exact (List.NoDup_app_remove_r _ _ H). }
  assert (Hcl : clears_threshold new_allocation zero = true).
  { unfold clears_threshold, Qgeb. apply Qle_bool_iff.
    unfold min_budget_change_threshold.
    match goal with |- _ <= Qabs ?x => pose proof (Qabs_nonneg x) end. lra. }
  rewrite apply_changes_app.
  destruct (apply_changes_writes before db ∅ [] Hndb Hnz)
    as (db1 & c1 & E & Hads & _ & Ho & Hcr & Hab & Han).
  rewrite E. cbn [apply_changes].
  change (Qgeb (Qabs (alloc_get new_allocation (as_id zero) (as_allocated_budget zero)
                      - as_allocated_budget zero))
               (as_allocated_budget zero * min_budget_change_threshold))
    with (clears_threshold new_allocation zero).
  rewrite Hcl. unfold truediv.
  replace (Qeq_bool (as_allocated_budget zero) 0) with true
    by (symmetry; apply Qeq_bool_iff; exact Hz).
  eexists. split; [reflexivity|].
  cbn [save_adset optimizations creatives abtests analytics adsets].
  split; [exact Ho|]. split; [exact Hcr|]. split; [exact Hab|]. split; [exact Han|].
  split; [reflexivity|].
  rewrite Hads, map_map. apply map_ext_in. intros x Hx.
  rewrite (find_adset_among (clears_threshold new_allocation) (adsets db) before x Hnd)
    by (try exact Hx; intros a Ha; apply Hin, in_or_app; now left).
  rewrite existsb_app. cbn [existsb]. rewrite orb_false_r.
  destruct (existsb (fun a => (as_id a =? as_id x)%Z) before
            && clears_threshold new_allocation x)%bool eqn:Eb;
    cbv beta iota; cbn [as_id with_allocated_budget];
    rewrite (Z.eqb_sym (as_id zero) (as_id x));
    (destruct (as_id x =? as_id zero)%Z eqn:Ex;
     [apply Z.eqb_eq in Ex;
      assert (x = zero)
        by (apply (NoDup_map_inj as_id (adsets db));
            [exact Hnd | exact Hx | apply Hin, in_or_app; right; now left | exact Ex]);
      subst x; rewrite Hcl, orb_true_r; reflexivity|]).
  - apply andb_true_iff in Eb. destruct Eb as [-> ->]. reflexivity.
  - rewrite orb_false_r, Eb. reflexivity.
Qed.

End AppliedBudgets.

(** * The views that call the engines ([neuro_ads/views.py]) *)
Module Views.

(** The JSON answer of [optimize_campaign_budget]. *)
Inductive OptimizeResponse : Type :=
| OptimizationCompleted (changes_made : list Change) (expected_improvement : Q)
                        (optimization_id : Z)
| OptimizationRefused (error : string).

(** [optimize_campaign_budget(request, campaign_id)], once the campaign is
    found; [auto_budget_reallocation] is the campaign's flag.  The engine
    catches its own exceptions, so the view's [except] branch is not
    reached. *)
Definition optimize_campaign_budget (auto_budget_reallocation : bool) (db : DB)
    (campaign : Campaign) (now : Z) : DB * OptimizeResponse :=
  if negb auto_budget_reallocation
  then (db, OptimizationRefused "Auto budget reallocation is disabled")
  else
    match optimize_campaign_budgets db campaign now with
    | (db, OSuccess optimization_id changes_made expected_improvement _ _) =>
        (db, OptimizationCompleted changes_made expected_improvement optimization_id)
    | (db, OFailure reason) => (db, OptimizationRefused reason)
    | (db, OError _) => (db, OptimizationRefused "Optimization failed")
    end.

(** The [analysis_result] that [ab_test_detail] puts in its context. *)
Inductive DetailResult : Type :=
| DetailAnalysis (analysis_result : AnalysisResult)
| DetailStatus (status : string).      (* [{'success': True, 'status': ...}] *)

(** [ab_test_detail(request, test_id)], once the test is found: the analysis
    result and the creatives listed on the page. *)
Definition ab_test_detail (M : MathLib) (db : DB) (ab_test : ABTest) (now : Z)
    : DB * ABTest * DetailResult * list AdCreative :=
  let '(db, ab_test, analysis_result) :=
    if String.eqb (ab_status ab_test) "running"
    then let '(db, ab_test, r) := run_ab_test_analysis M db ab_test now in
         (db, ab_test, DetailAnalysis r)
    else (db, ab_test, DetailStatus (ab_status ab_test)) in
  let test_creatives :=
    List.filter (fun c => creative_in_campaign db (ab_campaign ab_test) c
                          && (match ab_started_at ab_test with
                              | Some t => t | None => now end <=? cr_created_at c)%Z)
                (creatives db) in
  (db, ab_test, analysis_result, test_creatives).

End Views.
Import Views.

Section ViewsOfTheEngines.

Variable M : MathLib.

(** X16. A cycle of [optimize_campaign_budgets] changes nothing and never
    succeeds.  When no ad set of the campaign has an analytics row of its
    own in the last seven days the answer is 'Insufficient performance
    data'; otherwise scoring the first ad set reads the key
    'spend_utilization' before it is set, and the answer is that KeyError.
    The view that triggers the cycle therefore never answers success
    either: it answers 'Auto budget reallocation is disabled' when the
    campaign's flag is off, and else the engine's reason or, for the
    KeyError, which has no 'reason', 'Optimization failed'. *)
Theorem optimization_never_succeeds (auto_budget_reallocation : bool) (db : DB)
    (campaign : Campaign) (now : Z) :
  let has_data :=
    existsb (has_recent_rows db campaign now) (adset_set db (c_id campaign)) in
  optimize_campaign_budgets db campaign now
  = (db, if has_data then OError (KeyError "spend_utilization")
         else OFailure "Insufficient performance data")
  /\ optimize_campaign_budget auto_budget_reallocation db campaign now
     = (db, OptimizationRefused
              (if negb auto_budget_reallocation
               then "Auto budget reallocation is disabled"
               else if has_data then "Optimization failed"
               else "Insufficient performance data")).
Proof.
  cbv zeta. pose proof (optimize_cycle_outcome db campaign now) as H.
  split; [exact H|].
  unfold optimize_campaign_budget.
  destruct (negb auto_budget_reallocation); [reflexivity|].
  rewrite H. destruct (existsb _ _); reflexivity.
Qed.

(** X26. The detail view asks for an analysis exactly when the test is
    'running', so it never shows the engine's refusal 'Test is not running':
    for a running test its result, its test object and its database are
    those of [run_ab_test_analysis], which may complete the test; for any
    other status it shows the status and changes nothing. *)
Theorem detail_view_analyses_running_tests (db : DB) (ab_test : ABTest) (now : Z) :
  let '(db', ab', result, _) := ab_test_detail M db ab_test now in
  (ab_status ab_test = "running"%string ->
   exists r, result = DetailAnalysis r
     /\ run_ab_test_analysis M db ab_test now = (db', ab', r)
     /\ r <> AFailure ("Test is not running (status: " ++ ab_status ab_test ++ ")"))
  /\ (ab_status ab_test <> "running"%string ->
      result = DetailStatus (ab_status ab_test) /\ db' = db /\ ab' = ab_test).
Proof.
  unfold ab_test_detail.
  destruct (String.eqb (ab_status ab_test) "running") eqn:Es.
  - apply String.eqb_eq in Es.
    pose proof (finalize_outcome db ab_test) as Hfin.
    unfold run_ab_test_analysis in *. rewrite Es. cbn [str_in existsb negb orb].
    rewrite String.eqb_refl. cbn [negb orb].
    destruct (length _ <? 2)%nat.
    { split; [|congruence]. intros _. eexists. split; [reflexivity|].
      split; [reflexivity | discriminate]. }
    destruct (_perform_statistical_analysis M _ _) as [sr|e].
    2:{ split; [|congruence]. intros _. eexists. split; [reflexivity|].
        split; [reflexivity | discriminate]. }
    destruct (_should_stop_test ab_test sr now) as [[|] reason].
    2:{ split; [|congruence]. intros _. eexists. split; [reflexivity|].
        split; [reflexivity | discriminate]. }
    specialize (Hfin sr (_declare_winner ab_test sr) reason now).
    destruct (_finalize_test db ab_test sr _ reason now) as [[db' ab'] r].
    split; [|congruence]. intros _. exists r. split; [reflexivity|].
    split; [reflexivity|].
    destruct Hfin as [[recs ->]|[e ->]]; discriminate.
  - apply String.eqb_neq in Es. split; [contradiction|]. intros _. tauto.
Qed.

End ViewsOfTheEngines.

(** * Runs of the further properties on concrete data *)

Lemma sqrt_ref_proper (u v : Q) : u == v -> sqrt_ref u == sqrt_ref v.
Proof. intros H. unfold sqrt_ref. rewrite (Qred_complete _ _ H). reflexivity. Qed.

Lemma nodup_1_2 : List.NoDup [1%Z; 2%Z].
Proof.
  apply List.NoDup_cons; [intros [H|[]]; discriminate H|].
  apply List.NoDup_cons; [intros []|]. apply List.NoDup_nil.
Defined.

(** 800 clicks against 600 on 10000 impressions each. *)
Definition test_800_600 : TestResult :=
  Eval vm_compute in
    match _two_proportion_z_test ref_math 800 10000 600 10000 with
    | Ret r => r
    | Raise _ => inconclusive
    end.

(** A run of X1: A has the higher rate and is the winner. *)
Lemma two_proportion_winner_witness :
  _two_proportion_z_test ref_math 800 10000 600 10000 = Ret test_800_600
  /\ tr_winner test_800_600 = "A"%string
  /\ tr_p_a test_800_600 = Some (inject_Z 800 / inject_Z 10000).
Proof.
  assert (E : _two_proportion_z_test ref_math 800 10000 600 10000 = Ret test_800_600)
    by (vm_compute; reflexivity).
  destruct (two_proportion_winner ref_math 800 10000 600 10000 test_800_600)
    as (_ & _ & _ & _ & Hpa & _).
  - reflexivity.
  - reflexivity.
  - exact E.
  - discriminate.
  - split; [exact E|]. split; [reflexivity | exact Hpa].
Defined.

(** A run of X2: five successes in one trial on both sides. *)
Lemma two_proportion_value_error_witness :
  _two_proportion_z_test ref_math 5 1 5 1 = Raise (ValueError "math domain error").
Proof.
  apply (two_proportion_value_error ref_math 5 1 5 1).
  - split; reflexivity.
  - split; reflexivity.
  - split; reflexivity.
  - split; reflexivity.
  - left. reflexivity.
Defined.

(** A run of X3: with the sides exchanged B is the winner. *)
Lemma two_proportion_symmetric_witness :
  exists r', _two_proportion_z_test ref_math 600 10000 800 10000 = Ret r'
    /\ tr_p_value r' == tr_p_value test_800_600 /\ tr_winner r' = "B"%string.
Proof.
  destruct (two_proportion_symmetric ref_math 800 10000 600 10000 test_800_600)
    as (r' & E & Hp & Hw).
  - exact sqrt_ref_proper.
  - vm_compute. reflexivity.
  - exists r'. split; [exact E|]. split; [exact Hp | exact Hw].
Defined.

(** A run of X6: eight days in, the planned duration of seven days is over,
    and the tied test is completed with no winner. *)
Lemma analysis_completion_witness :
  match run_ab_test_analysis ref_math (db_two_variants rows_with_traffic) ab_six_days
          (8 * 86400) with
  | (db', ab', ACompleted w sr reason recs) =>
      ab_status ab' = "completed"%string
      /\ ab_completed_at ab' = Some (8 * 86400)%Z
      /\ reason = "Planned test duration completed"%string
      /\ w_winner w = None
      /\ creatives db' = creatives (db_two_variants rows_with_traffic)
  | _ => False
  end.
Proof.
  destruct (run_ab_test_analysis ref_math (db_two_variants rows_with_traffic)
              ab_six_days (8 * 86400)) as [[db' ab'] r] eqn:E.
  destruct r as [reason|e|sr|w sr reason recs];
    try (vm_compute in E; discriminate E).
  destruct (analysis_completion ref_math _ _ _ _ _ _ _ _ _ E)
    as (_ & _ & Hstop & Hw & Hs & Hc & _ & _ & _ & Hcr).
  assert (Hr : reason = "Planned test duration completed"%string).
  { vm_compute in E. now injection E as _ _ _ _ <- _. }
  assert (Hn : w_winner w = None).
  { vm_compute in E. now injection E as _ _ <- _ _ _. }
  split; [exact Hs|]. split; [exact Hc|]. split; [exact Hr|]. split; [exact Hn|].
  apply Hcr. unfold has_winner. rewrite Hn. reflexivity.
Defined.

(** The winner that [sr_six_days] declares: variant A. *)
Definition winner_six_days : WinnerResult :=
  Eval vm_compute in _declare_winner ab_six_days sr_six_days.

(** A run of X7: with A the winner, the creative of variant 2 is
    deactivated and the creative of variant 1 is not. *)
Lemma pause_deactivates_losers_witness :
  match _pause_losing_variants (db_two_variants []) ab_six_days winner_six_days with
  | Ret db' => map cr_is_active (creatives db') = [true; false]
               /\ abtests db' = abtests (db_two_variants [])
  | Raise _ => False
  end.
Proof.
  destruct (_pause_losing_variants (db_two_variants []) ab_six_days winner_six_days)
    as [db'|e] eqn:E; [|vm_compute in E; discriminate E].
  destruct (pause_deactivates_losers (db_two_variants []) db' ab_six_days
              winner_six_days 0 nodup_1_2 eq_refl eq_refl E) as (Hc & _ & Hab & _).
  split; [rewrite Hc; vm_compute; reflexivity | exact Hab].
Defined.

(** A variant as the view [create_ab_test] builds it from the form: the
    three keys are always there, with [None] for a field that was not sent. *)
Definition form_variant (headline description call_to_action : entry string)
    : Variant :=
  {| v_creative_type := absent; v_headline := headline;
     v_description := description; v_call_to_action := call_to_action;
     v_destination_url := absent; v_image_url := absent;
     v_video_url := absent; v_confidence_score := absent |}.

(** A headline test whose second variant came without its call to action. *)
Definition config_without_cta : TestConfig :=
  {| cfg_test_type := value "headline"%string;
     cfg_variants :=
       Some [form_variant (value "Save 20% today"%string)
                          (value "This week only"%string) (value "Shop now"%string);
             form_variant (value "Spring sale"%string)
                          (value "All items"%string) null];
     cfg_traffic_split := None; cfg_min_sample_size := Some 1000%Z;
     cfg_duration_days := Some 7%Z |}.

(** A run of X8: a headline test with two variants is stored as running;
    the one whose second variant lacks a field answers the error and leaves
    the draft and the first variant's creative. *)
Lemma create_stores_running_test_witness :
  (exists db' ab_test variants launch,
     create_automated_ab_test (db_two_variants []) spring_campaign
       (config_of "headline") 100 101
     = (db', CSuccess ab_test variants launch)
     /\ ab_status ab_test = "running"%string
     /\ ab_started_at ab_test = Some 101%Z
     /\ length variants = 2%nat)
  /\ (exists db' draft created,
        create_automated_ab_test (db_two_variants []) spring_campaign
          config_without_cta 100 101
        = (db', CError IntegrityError)
        /\ abtests db' = [ab_six_days; draft]
        /\ ab_status draft = "draft"%string
        /\ creatives db' = creatives (db_two_variants []) ++ created
        /\ length created = 1%nat).
Proof.
  split.
  - destruct (create_stores_running_test (db_two_variants []) spring_campaign
                (config_of "headline") 100 101) as [H _].
    + reflexivity.
    + cbn. discriminate.
    + destruct (H eq_refl)
        as (db' & ab_test & variants & launch & E & Hs & Hst & _ & _ & _ & Hl & _).
      exists db', ab_test, variants, launch.
      split; [exact E|]. split; [exact Hs|]. split; [exact Hst | exact Hl].
  - destruct (create_stores_running_test (db_two_variants []) spring_campaign
                config_without_cta 100 101) as [_ H].
    + reflexivity.
    + cbn. discriminate.
    + destruct (H eq_refl)
        as (db' & draft & created & E & Hab & Hs & _ & _ & Hcr & Hl & _).
      exists db', draft, created.
      split; [exact E|]. split; [exact Hab|]. split; [exact Hs|].
      split; [exact Hcr | exact Hl].
Defined.

(** A run of X9: ten days after that launch the test still has no data. *)
Lemma launched_test_has_no_data_witness :
  match create_automated_ab_test (db_two_variants []) spring_campaign
          (config_of "headline") 100 101 with
  | (db', CSuccess ab_test variants launch) =>
      length variants = 2%nat
      /\ _get_test_data db' ab_test (10 * 86400) = []
      /\ run_ab_test_analysis ref_math db' ab_test (10 * 86400)
         = (db', ab_test, AFailure "Insufficient test data")
  | _ => False
  end.
Proof.
  destruct (create_automated_ab_test (db_two_variants []) spring_campaign
              (config_of "headline") 100 101) as [db' r] eqn:E.
  destruct r as [reason|e|ab_test variants launch];
    try (vm_compute in E; discriminate E).
  split.
  - vm_compute in E. now injection E as _ _ <- _.
  - apply (launched_test_has_no_data ref_math _ _ _ _ _ _ _ _ _ _ E).
    + reflexivity.
    + repeat constructor.
Defined.

Definition summer_campaign : Campaign :=
  {| c_id := 2; c_name := "Summer"; c_total_budget := 500 |}.

(** A run of X10: the campaign 'Summer' has no ad set. *)
Lemma create_without_ad_set_witness :
  exists db' draft,
    create_automated_ab_test (db_two_variants []) summer_campaign
      (config_of "headline") 100 101
    = (db', CError (ValueError "No ad set found for campaign"))
    /\ abtests db' = [ab_six_days; draft]
    /\ ab_status draft = "draft"%string
    /\ creatives db' = creatives (db_two_variants []).
Proof.
  destruct (create_without_ad_set (db_two_variants []) summer_campaign
              (config_of "headline") 100 101)
    as (db' & draft & E & Hab & Hs & _ & _ & _ & Hcr).
  - reflexivity.
  - reflexivity.
  - exists db', draft. split; [exact E|]. split; [exact Hab|].
    split; [exact Hs | exact Hcr].
Defined.

(** A run of X11: both creatives carry the 10000 impressions and 700 clicks
    of the campaign, so the two variants sum to twice that. *)
Lemma analysis_partitions_data_witness :
  map fst (get_variant_results sr_with_traffic) = ["A"; "B"]%string
  /\ sumZ (map (fun kv => vr_impressions (snd kv)) (get_variant_results sr_with_traffic))
     = 20000%Z
  /\ sumZ (map (fun kv => vr_clicks (snd kv)) (get_variant_results sr_with_traffic))
     = 1400%Z.
Proof.
  assert (E : _perform_statistical_analysis ref_math
                (_get_test_data (db_two_variants rows_with_traffic) ab_six_days four_days)
                "headline" = Ret sr_with_traffic) by (vm_compute; reflexivity).
  unfold sr_with_traffic in E.
  destruct (analysis_partitions_data ref_math _ _ _ _ _ E) as (_ & _ & Hi & Hc & _).
  split; [reflexivity|]. split.
  - etransitivity; [exact Hi | vm_compute; reflexivity].
  - etransitivity; [exact Hc | vm_compute; reflexivity].
Defined.

(** A run of X12: two variants, one test, on the pair (A, B). *)
Lemma pairwise_tests_cover_pairs_witness :
  match _perform_pairwise_tests ref_math creative_variants "creative" with
  | Ret tests =>
      map (fun t => (pt_variant_a t, pt_variant_b t)) tests = [("A", "B")]%string
      /\ map pt_metric tests = ["conversion_rate"]%string
  | Raise _ => False
  end.
Proof.
  destruct (_perform_pairwise_tests ref_math creative_variants "creative")
    as [tests|e] eqn:E; [|vm_compute in E; discriminate E].
  destruct (pairwise_tests_cover_pairs ref_math _ _ _ E) as (Hp & _ & _).
  split; [exact Hp|]. vm_compute in E. apply Ret_inj in E. subst tests. reflexivity.
Defined.

(** A run of X13 on the two-variant test. *)
Lemma analysis_at_most_three_variants_witness :
  (length (get_variant_results sr_with_traffic) <= 3)%nat
  /\ (length (get_statistical_tests sr_with_traffic) <= 3)%nat.
Proof.
  assert (E : _perform_statistical_analysis ref_math
                (_get_test_data (db_two_variants rows_with_traffic) ab_six_days four_days)
                (ab_test_type ab_six_days) = Ret sr_with_traffic)
    by (vm_compute; reflexivity).
  unfold sr_with_traffic in E.
  destruct (analysis_at_most_three_variants ref_math _ _ _ _ _ _ E) as (_ & Hv & Ht).
  split; [exact Hv | exact Ht].
Defined.


(** A run of X20: one increase and no decrease. *)
Lemma increases_alone_change_nothing_witness :
  _calculate_optimal_allocation spring_campaign
    (MetricsOf ads_two no_totals no_averages) [increase_budget 1 1000 1.0 0.2]
  = Ret (initial_allocation ads_two).
Proof.
  apply (increases_alone_change_nothing spring_campaign ads_two no_totals no_averages
           [increase_budget 1 1000 1.0 0.2]).
  repeat constructor.
Defined.

(** A run of X21: a decrease for ad set 7, which is not scored. *)
Lemma decrease_of_unknown_ad_set_witness :
  _calculate_optimal_allocation spring_campaign
    (MetricsOf ads_two no_totals no_averages)
    [increase_budget 1 1000 1.0 0.2; decrease_budget 7 1000 0.8 0.3]
  = Raise (KeyError "7").
Proof.
  apply (decrease_of_unknown_ad_set spring_campaign ads_two no_totals no_averages
           [increase_budget 1 1000 1.0 0.2] [] 7 1000 0.8 0.3).
  - repeat constructor.
  - intros [H|[H|[]]]; discriminate H.
Defined.

(** A run of X23: the allocation 1200/800 on budgets of 1000 each. *)
Lemma gate_passes_only_with_a_change_witness :
  _should_apply_changes db_budget spring_campaign alloc_1200_800 = true
  /\ exists ad_set, In ad_set (adset_set db_budget (c_id spring_campaign))
       /\ ~ alloc_get alloc_1200_800 (as_id ad_set) (as_allocated_budget ad_set)
            == as_allocated_budget ad_set.
Proof.
  assert (E : _should_apply_changes db_budget spring_campaign alloc_1200_800 = true)
    by (vm_compute; reflexivity).
  split; [exact E|].
  exact (proj2 (gate_passes_only_with_a_change db_budget spring_campaign
                  alloc_1200_800 E)).
Defined.

(** A run of X24: the third ad set has a budget of zero; the budgets 1200
    and 800 of the first two are written before the step fails. *)
Lemma apply_fails_on_zero_budget_witness :
  exists db',
    _apply_budget_optimization db_zero_budget spring_campaign alloc_1200_800 []
      four_days = (db', OError ZeroDivisionError)
    /\ optimizations db' = []
    /\ map (fun a => Qred (as_allocated_budget a)) (adsets db') = [1200; 800; 0].
Proof.
  destruct (apply_fails_on_zero_budget alloc_1200_800 db_zero_budget spring_campaign []
              four_days [ad_set_of 1 1 "google" 1000; ad_set_of 2 1 "meta" 1000] []
              (ad_set_of 3 1 "linkedin" 0)) as (db' & E & Ho & _ & _ & _ & _ & Ha).
  - change (List.NoDup [1%Z; 2%Z; 3%Z]).
    repeat (apply List.NoDup_cons; [cbn; intuition discriminate|]).
    apply List.NoDup_nil.
  - reflexivity.
  - intros a [<-|[<-|[]]]; intros H; vm_compute in H; discriminate H.
  - reflexivity.
  - exists db'. split; [exact E|]. split; [exact Ho|].
    rewrite Ha. vm_compute. reflexivity.
Defined.

(** A run of X25: both budgets change by 20% and are written. *)
Lemma apply_writes_changed_budgets_witness :
  exists db' record changes,
    _apply_budget_optimization db_budget spring_campaign alloc_1200_800 [] four_days
    = (db', OSuccess (bo_id record) changes (_calculate_expected_improvement [])
              (_generate_optimization_summary []) 0)
    /\ map (fun a => Qred (as_allocated_budget a)) (adsets db') = [1200; 800]
    /\ optimizations db' = [record].
Proof.
  destruct (apply_writes_changed_budgets alloc_1200_800 db_budget spring_campaign []
              four_days nodup_1_2) as (db' & record & changes & E & Ha & _ & Ho & _).
  - intros a [<-|[<-|[]]]; intros H; vm_compute in H; discriminate H.
  - exists db', record, changes. split; [exact E|].
    split; [rewrite Ha; vm_compute; reflexivity | exact Ho].
Defined.

(** * What the analysis of campaign-wide numbers can find *)
Section EqualRates.

Variable M : MathLib.

(** Equal rates on the two sides: the test finds no difference. *)
Lemma two_proportion_equal_rates (sa ta sb tb : Z) (r : TestResult) :
  (sa * tb = sb * ta)%Z ->
  _two_proportion_z_test M sa ta sb tb = Ret r ->
  tr_p_value r == 1
  /\ (tr_winner r = "tie"%string \/ tr_winner r = "inconclusive"%string).
Proof.
  intros Hx. unfold _two_proportion_z_test.
  destruct (ta =? 0)%Z eqn:Eta.
  { cbn [orb]. intros H. apply Ret_inj in H. subst r. split; [reflexivity | now right]. }
  destruct (tb =? 0)%Z eqn:Etb.
  { cbn [orb]. intros H. apply Ret_inj in H. subst r. split; [reflexivity | now right]. }
  cbn [orb]. apply Z.eqb_neq in Eta, Etb.
  destruct (pooled_se M sa ta sb tb) as [se|e]; py_step; [|discriminate].
  destruct (Qeq_bool se 0) eqn:Ese.
  { intros H. apply Ret_inj in H. subst r. split; [reflexivity | now right]. }
  assert (Hta : ~ inject_Z ta == 0).
  { intros H. apply Eta. change 0 with (inject_Z 0) in H.
    exact (proj1 (inject_Z_injective _ _) H). }
  assert (Htb : ~ inject_Z tb == 0).
  { intros H. apply Etb. change 0 with (inject_Z 0) in H.
    exact (proj1 (inject_Z_injective _ _) H). }
  assert (Hse : ~ se == 0).
  { intros H. apply Qeq_bool_iff in H. rewrite H in Ese. discriminate. }
  assert (Hrate : inject_Z sa / inject_Z ta == inject_Z sb / inject_Z tb).
  { assert (Hq : inject_Z sa * inject_Z tb == inject_Z sb * inject_Z ta).
    { rewrite <- !inject_Z_mult. now rewrite Hx. }
    apply (Qmult_inj_r _ _ (inject_Z ta * inject_Z tb)).
    - intros H. apply Qmult_integral in H. tauto.
    - transitivity (inject_Z sa * inject_Z tb); [field; exact Hta|].
      rewrite Hq. field. exact Htb. }
  set (p_a := inject_Z sa / inject_Z ta) in *.
  set (p_b := inject_Z sb / inject_Z tb) in *.
  destruct (py_sqrt M _) as [sd|e]; py_step; [|discriminate].
  intros H. apply Ret_inj in H. subst r. cbn [tr_p_value tr_winner].
  assert (Hz : Qabs ((p_a - p_b) / se) == 0).
  { assert (E : (p_a - p_b) / se == 0) by (rewrite Hrate; field; exact Hse).
    rewrite E. reflexivity. }
  split.
  - assert (Hc : norm_cdf M (Qabs ((p_a - p_b) / se)) == 0.5).
    { transitivity (norm_cdf M 0); [apply norm_cdf_proper; exact Hz | apply norm_cdf_0]. }
    rewrite Hc. reflexivity.
  - left. replace (Qgtb p_a p_b) with false
      by (symmetry; apply Qgtb_le; rewrite Hrate; apply Qle_refl).
    replace (Qgtb p_b p_a) with false
      by (symmetry; apply Qgtb_le; rewrite Hrate; apply Qle_refl).
    reflexivity.
Qed.



Lemma variant_counts_cross (test_data : list TestDatum) (I C : Z)
    (vrs : list (string * VariantResult)) (a b : string) (va vb : VariantResult) :
  vrs = map (fun kv => (fst kv, aggregate_variant (snd kv))) (group_by_variant test_data) ->
  (forall d, In d test_data -> td_impressions d = I /\ td_clicks d = C) ->
  In (a, va) vrs -> In (b, vb) vrs ->
  (vr_clicks va * vr_impressions vb = vr_clicks vb * vr_impressions va)%Z.
Proof.
  intros -> Hu Ha Hb.
  destruct (variant_result_scaled test_data I C a va Hu Ha) as [Hia Hca].
  destruct (variant_result_scaled test_data I C b vb Hu Hb) as [Hib Hcb].
  rewrite Hia, Hca, Hib, Hcb. ring.
Qed.

(** The analysis of the data of a test: every pairwise test has p-value 1. *)
Lemma test_data_show_no_difference (db : DB) (ab_test : ABTest) (now : Z)
    (sr : StatisticalResults) :
  _perform_statistical_analysis M (_get_test_data db ab_test now)
    (ab_test_type ab_test) = Ret sr ->
  forall t, In t (get_statistical_tests sr) ->
    pt_p_value t == 1 /\ pt_is_significant t = false.
Proof.
  intros Hsr t Ht.
  set (test_data := _get_test_data db ab_test now) in *.
  assert (Hc : exists I C, forall d, In d test_data ->
                 td_impressions d = I /\ td_clicks d = C).
  { destruct test_data as [|d0 r] eqn:E.
    - exists 0%Z, 0%Z. intros d [].
    - exists (td_impressions d0), (td_clicks d0). intros d Hd.
      assert (Hd0 : In d0 (_get_test_data db ab_test now))
        by (fold test_data; rewrite E; now left).
      assert (Hd' : In d (_get_test_data db ab_test now))
        by (fold test_data; rewrite E; exact Hd).
      destruct (get_test_data_uniform db ab_test now d d0 Hd' Hd0) as (?&?&_). tauto. }
  destruct Hc as [I [C Hc]].
  unfold _perform_statistical_analysis in Hsr.
  destruct (length test_data <? 2)%nat.
  { apply Ret_inj in Hsr. subst sr. destruct Ht. }
  set (vrs := map (fun kv => (fst kv, aggregate_variant (snd kv)))
                  (group_by_variant test_data)) in Hsr.
  destruct (_perform_pairwise_tests M vrs (ab_test_type ab_test)) as [tests|e] eqn:Et;
    py_step_in Hsr; [|discriminate].
  apply Ret_inj in Hsr. subst sr. cbn [get_statistical_tests] in Ht.
  destruct (statistical_test_inv M vrs _ tests t Et Ht)
    as (va & vb & r & Ha & Hb & Hr & Hp & _ & _ & Hs & _).
  pose proof (variant_counts_cross test_data I C vrs _ _ va vb eq_refl Hc Ha Hb) as Hx.
  destruct (two_proportion_equal_rates _ _ _ _ _ Hx Hr) as [Hp1 _].
  rewrite Hp, Hs. split; [exact Hp1|].
  apply Qltb_ge. rewrite Hp1. unfold significance_threshold. lra.
Qed.

(** X28. [run_ab_test_analysis] never finds a winner.  Every creative of a
    test is given the same campaign-wide clicks and impressions, so all
    variants have the same click rate, whatever their sizes: every pairwise
    test has p-value 1 and none is significant.  Hence an analysis that
    completes a test does so because a duration has run out, it declares no
    winner, and no analysis ever changes a creative. *)
Theorem analysis_never_finds_a_winner (db : DB) (ab_test : ABTest) (now : Z) :
  let '(db', ab', r) := run_ab_test_analysis M db ab_test now in
  creatives db' = creatives db
  /\ (forall sr, r = AContinue sr ->
        forall t, In t (get_statistical_tests sr) ->
          pt_p_value t == 1 /\ pt_is_significant t = false)
  /\ (forall w sr reason recs, r = ACompleted w sr reason recs ->
        w_winner w = None
        /\ ab_winner_creative ab' = ab_winner_creative ab_test
        /\ (reason = "Maximum test duration reached"%string
            \/ reason = "Planned test duration completed"%string)
        /\ forall t, In t (get_statistical_tests sr) ->
             pt_p_value t == 1 /\ pt_is_significant t = false).
Proof.
  unfold run_ab_test_analysis.
  destruct (negb (str_in _ _)).
  { split; [reflexivity|]. split; intros; discriminate. }
  destruct (length _ <? 2)%nat.
  { split; [reflexivity|]. split; intros; discriminate. }
  destruct (_perform_statistical_analysis M _ _) as [sr|e] eqn:Esr.
  2:{ split; [reflexivity|]. split; intros; discriminate. }
  pose proof (test_data_show_no_difference db ab_test now sr Esr) as Hno.
  assert (Hnone : w_winner (_declare_winner ab_test sr) = None).
  { apply declare_no_winner. intros t Ht. exact (proj2 (Hno t Ht)). }
  assert (Hnot : forall thr, thr <= 0.05 ->
            existsb (fun test => Qltb (pt_p_value test) thr
                                 && Qgtb (pt_effect_size test) minimum_effect_size)
                    (get_statistical_tests sr)
            = false).
  { intros thr Hthr. apply not_true_iff_false. intros Hex.
    apply existsb_exists in Hex. destruct Hex as [t [Ht Hc]].
    apply andb_true_iff in Hc. destruct Hc as [Hc _]. apply Qltb_lt in Hc.
    destruct (Hno t Ht) as [Hp _]. rewrite Hp in Hc. lra. }
  destruct (_should_stop_test ab_test sr now) as [[|] reason] eqn:Estop.
  2:{ split; [reflexivity|]. split; [|intros; discriminate].
      intros sr' H. injection H as <-. exact Hno. }
  pose proof (finalize_effects db ab_test sr (_declare_winner ab_test sr) reason now)
    as Hfin.
  assert (Hw : has_winner (_declare_winner ab_test sr) = false)
    by (unfold has_winner; rewrite Hnone; reflexivity).
  assert (Hab : forall db' ab' r,
            _finalize_test db ab_test sr (_declare_winner ab_test sr) reason now
            = (db', ab', r) ->
            creatives db' = creatives db
            /\ ab_winner_creative ab' = ab_winner_creative ab_test).
  { unfold _finalize_test, _pause_losing_variants. rewrite Hw. cbn [negb].
    intros db' ab' r H. injection H as <- <- _. split; reflexivity. }
  pose proof (finalize_outcome db ab_test sr (_declare_winner ab_test sr) reason now)
    as Hout.
  destruct (_finalize_test db ab_test sr _ reason now) as [[db' ab'] r].
  destruct (Hab db' ab' r eq_refl) as [Hcr Hwc].
  split; [exact Hcr|]. split.
  { destruct Hout as [[recs ->]|[e ->]]; intros; discriminate. }
  intros w sr' reason' recs H.
  destruct Hfin as (_ & _ & _ & _ & _ & _ & Hr).
  destruct (Hr _ _ _ _ H) as (-> & -> & -> & _).
  split; [exact Hnone|]. split; [exact Hwc|]. split; [|exact Hno].
  unfold _should_stop_test in Estop.
  destruct (match days_running ab_test now with Some d => (d <? 3)%Z | None => false end);
    [discriminate|].
  destruct (match days_running ab_test now with
            | Some d => (max_test_duration_days <=? d)%Z | None => false end).
  { injection Estop as <-. now left. }
  destruct (negb (forallb _ (get_variant_results sr))); [discriminate|].
  unfold early_stopping_threshold, significance_threshold in Estop.
  rewrite (Hnot 0.01) in Estop by lra.
  rewrite (Hnot 0.05) in Estop by lra.
  cbn [andb] in Estop.
  destruct (match days_running ab_test now with
            | Some d => (ab_test_duration_days ab_test <=? d)%Z | None => false end);
    [|discriminate].
  injection Estop as <-. now right.
Qed.

End EqualRates.

(** * A test that is finalized with a winner *)
Section FinalizedWinner.

(** X29. Finalizing a test with a declared winner, when creative ids are
    unique: the test is completed; the first creative of the test that
    carries the winner's label, if there is one, is marked as the winner and
    becomes the test's winner creative; every creative of the test with
    another label is deactivated; and no other creative changes.  With no
    creative under the winner's label, every creative of the test is
    deactivated. *)
Theorem finalize_marks_winner_and_pauses_losers (db : DB) (ab_test : ABTest)
    (sr : StatisticalResults) (w : WinnerResult) (stop_reason : string) (now t : Z) :
  List.NoDup (map cr_id (creatives db)) ->
  ab_started_at ab_test = Some t ->
  has_winner w = true ->
  let found :=
    find (fun c => label_matches (w_winner_name w)
                     (_get_variant_type c (ab_test_type ab_test)))
         (test_creatives_since db ab_test t) in
  exists db' ab' recs,
    _finalize_test db ab_test sr w stop_reason now
    = (db', ab', ACompleted w sr stop_reason recs)
    /\ ab_status ab' = "completed"%string
    /\ ab_winner_creative ab'
       = match found with
         | Some f => Some (cr_id f)
         | None => ab_winner_creative ab_test
         end
    /\ creatives db'
       = map (fun c =>
                if loses db ab_test t (w_winner_name w) c then deactivate c
                else match found with
                     | Some f => if (cr_id c =? cr_id f)%Z then mark_winner c else c
                     | None => c
                     end)
             (creatives db).
Proof.
  intros Hnd Ht Hw. cbv zeta.
  unfold _finalize_test. rewrite Hw.
  assert (Hfind : _find_winning_creative db (completed ab_test now (w_confidence w))
                    (w_winner_name w)
                  = Ret (find (fun c => label_matches (w_winner_name w)
                                          (_get_variant_type c (ab_test_type ab_test)))
                              (test_creatives_since db ab_test t))).
  { unfold _find_winning_creative, test_creatives. cbn [completed ab_started_at].
    rewrite Ht. reflexivity. }
  rewrite Hfind.
  destruct (find _ (test_creatives_since db ab_test t)) as [f|] eqn:Ef.
  - apply find_some in Ef. destruct Ef as [Hf Hlab].
    unfold test_creatives_since in Hf. apply filter_In in Hf. destruct Hf as [Hf _].
    set (ab1 := with_winner_creative (completed ab_test now (w_confidence w)) (cr_id f)).
    set (db2 := save_abtest ab1 (save_creative (mark_winner f) db)).
    assert (Hcr2 : creatives db2
                   = map (fun x => if (cr_id x =? cr_id f)%Z then mark_winner f else x)
                         (creatives db)) by reflexivity.
    assert (Hnd2 : List.NoDup (map cr_id (creatives db2))).
    { rewrite Hcr2, map_map.
      replace (map (fun x => cr_id (if (cr_id x =? cr_id f)%Z then mark_winner f else x))
                   (creatives db)) with (map cr_id (creatives db)); [exact Hnd|].
      apply map_ext. intros x. destruct (cr_id x =? cr_id f)%Z eqn:E; [|reflexivity].
      apply Z.eqb_eq in E. exact E. }
    destruct (pause_returns db2 ab1 w t Hnd2 Ht Hw) as (db' & E & Hc).
    rewrite E. eexists _, _, _. split; [reflexivity|].
    split; [reflexivity|]. split; [reflexivity|].
    rewrite Hc, Hcr2, map_map. apply map_ext_in. intros x Hx.
    destruct (cr_id x =? cr_id f)%Z eqn:Ex.
    + apply Z.eqb_eq in Ex.
      assert (x = f) by (apply (NoDup_map_inj cr_id (creatives db)); assumption).
      subst x.
      change (loses db2 ab1 t (w_winner_name w) (mark_winner f))
        with (loses db ab_test t (w_winner_name w) f).
      unfold loses. rewrite Hlab. cbn [negb]. rewrite andb_false_r. reflexivity.
    + change (loses db2 ab1 t (w_winner_name w) x)
        with (loses db ab_test t (w_winner_name w) x).
      reflexivity.
  - set (ab1 := completed ab_test now (w_confidence w)).
    set (db2 := save_abtest ab1 db).
    destruct (pause_returns db2 ab1 w t Hnd Ht Hw) as (db' & E & Hc).
    rewrite E. eexists _, _, _. split; [reflexivity|].
    split; [reflexivity|]. split; [reflexivity|].
    rewrite Hc. apply map_ext. intros x.
    change (loses db2 ab1 t (w_winner_name w) x)
      with (loses db ab_test t (w_winner_name w) x).
    destruct (loses db ab_test t (w_winner_name w) x); reflexivity.
Qed.

End FinalizedWinner.

(** * Analyses that do not fail *)
Section AnalysisTotal.

Variable M : MathLib.

(** X30. When the clicks recorded for a test lie between zero and the
    impressions, [run_ab_test_analysis] does not fail: its answer is a
    refusal, 'continue' or 'completed', never an error. *)
Theorem analysis_never_errors (db : DB) (ab_test : ABTest) (now : Z) :
  (forall d, In d (_get_test_data db ab_test now) ->
             (0 <= td_clicks d <= td_impressions d)%Z) ->
  forall e, snd (run_ab_test_analysis M db ab_test now) <> AError e.
Proof.
  intros Hsane e. unfold run_ab_test_analysis.
  destruct (negb (str_in _ _)); [discriminate|].
  destruct (length _ <? 2)%nat; [discriminate|].
  assert (Hret : exists sr, _perform_statistical_analysis M
                   (_get_test_data db ab_test now) (ab_test_type ab_test) = Ret sr).
  { destruct (_get_test_data db ab_test now) as [|d0 r] eqn:E.
    - now eexists.
    - apply (analysis_returns M _ _ (td_impressions d0) (td_clicks d0)).
      + intros d Hd.
        assert (Hd0 : In d0 (_get_test_data db ab_test now)) by (rewrite E; now left).
        assert (Hd' : In d (_get_test_data db ab_test now)) by (rewrite E; exact Hd).
        destruct (get_test_data_uniform db ab_test now d d0 Hd' Hd0) as (?&?&_). tauto.
      + apply Hsane. now left. }
  destruct Hret as [sr Esr]. rewrite Esr.
  pose proof (test_data_show_no_difference M db ab_test now sr Esr) as Hno.
  assert (Hnone : w_winner (_declare_winner ab_test sr) = None).
  { apply declare_no_winner. intros t Ht. exact (proj2 (Hno t Ht)). }
  destruct (_should_stop_test ab_test sr now) as [[|] reason]; [|discriminate].
  unfold _finalize_test, _pause_losing_variants, has_winner. rewrite Hnone.
  cbn [negb]. discriminate.
Qed.

End AnalysisTotal.

(** * Runs with a winner *)





(** A run of X29: the creative of variant 1 is marked as the winner, the
    creative of variant 2 is deactivated. *)
Lemma finalize_marks_winner_and_pauses_losers_witness :
  exists db' ab' recs,
    _finalize_test (db_two_variants []) ab_six_days sr_six_days winner_six_days
      "Statistically significant result" (6 * 86400 + 120)
    = (db', ab', ACompleted winner_six_days sr_six_days
                   "Statistically significant result" recs)
    /\ ab_winner_creative ab' = Some 1%Z
    /\ map cr_is_winner (creatives db') = [true; false]
    /\ map cr_is_active (creatives db') = [true; false].
Proof.
  destruct (finalize_marks_winner_and_pauses_losers (db_two_variants []) ab_six_days
              sr_six_days winner_six_days "Statistically significant result"
              (6 * 86400 + 120) 0 nodup_1_2 eq_refl eq_refl)
    as (db' & ab' & recs & E & _ & Hwc & Hc).
  exists db', ab', recs. split; [exact E|]. split; [exact Hwc|].
  rewrite Hc. split; vm_compute; reflexivity.
Defined.

(** A run of X30 on the test with traffic. *)
Lemma analysis_never_errors_witness :
  snd (run_ab_test_analysis ref_math (db_two_variants rows_with_traffic) ab_six_days
         four_days)
  <> AError ZeroDivisionError
  /\ exists sr,
       snd (run_ab_test_analysis ref_math (db_two_variants rows_with_traffic)
              ab_six_days four_days) = AContinue sr.
Proof.
  split.
  - apply (analysis_never_errors ref_math (db_two_variants rows_with_traffic)
             ab_six_days four_days).
    intros d Hd. vm_compute in Hd.
    destruct Hd as [<-|[<-|[]]]; cbn; split; discriminate.
  - eexists. vm_compute. reflexivity.
Defined.
